(** * DiagnostiQ: persistence store, AI gateway client, session orchestrator

    A shallow embedding of [backend/database.py], [backend/api_client.py],
    [backend/schemas.py] and of the submit handler of [app.py], followed by
    the properties of the specification that are checked against it.

    Conventions of the embedding.
    - A Python [str] is the [string] of its UTF-8 encoding, the form in
      which SQLite keeps TEXT and in which the literals of this file are
      read. Concatenation and equality are those of the bytes; [len] and
      slices count characters (code points), not bytes.
    - A Python [float] is an IEEE 754 binary64 value, [spec_float] with
      precision 53 and maximal exponent 1024.
    - A function that can raise returns a [result]; [Raise e] carries the
      exception object.
    - The SQLite file is a [store]: each relation is present or not, the
      [sessions] relation carries its list of columns (older files may
      miss some), and a relation keeps its rows in rowid order.
    - What the outside world answers (the clock, the HTTP server, the file
      system) is an argument of the function that asks for it. *)

From Stdlib Require Import ZArith List String Ascii Bool Lia Sorted DecimalString.
From Stdlib Require Import Permutation QArith Qabs.
From Stdlib Require Import Floats.SpecFloat.
Import ListNotations.

Local Open Scope string_scope.
Local Open Scope Z_scope.

(** ** Python exceptions and results *)

Inductive exc_class : Type :=
| RuntimeError
| OperationalError      (* sqlite3.OperationalError *)
| ZeroDivisionError
| OverflowError
| KeyError
| IndexError
| OSError
| RequestException      (* requests.exceptions.RequestException and subclasses *)
| JSONDecodeError.

(** An exception object: its class and [str(e)]. Every class above derives
    from [Exception]. *)
Record exn : Type := Exception { exc_type : exc_class; exc_str : string }.

Definition exc_class_eqb (a b : exc_class) : bool :=
  match a, b with
  | RuntimeError, RuntimeError
  | OperationalError, OperationalError
  | ZeroDivisionError, ZeroDivisionError
  | OverflowError, OverflowError
  | KeyError, KeyError
  | IndexError, IndexError
  | OSError, OSError
  | RequestException, RequestException
  | JSONDecodeError, JSONDecodeError => true
  | _, _ => false
  end.

Inductive result (A : Type) : Type :=
| Ok (a : A)
| Raise (e : exn).

Arguments Ok {A} a.
Arguments Raise {A} e.

Definition bind {A B : Type} (m : result A) (k : A -> result B) : result B :=
  match m with
  | Ok a => k a
  | Raise e => Raise e
  end.

Notation "x <- m ;; k" := (bind m (fun x => k))
  (at level 100, m at next level, right associativity).

Fixpoint mapM {A B : Type} (f : A -> result B) (l : list A) : result (list B) :=
  match l with
  | [] => Ok []
  | a :: l' => b <- f a ;; bs <- mapM f l' ;; Ok (b :: bs)
  end.

(** ** Numbers of a usage mapping *)

Definition prec : Z := 53.
Definition emax : Z := 1024.

Definition float : Type := spec_float.

Inductive pynum : Type :=
| PyInt (z : Z)
| PyFloat (f : float).

(** A Python [dict] from names to numbers, in insertion order. *)
Definition usage_dict : Type := list (string * pynum).

(** [json.dumps] and [json.loads] on such mappings. The [json] module is
    not part of the repository: the store is written against this
    interface and every property that needs a fact about the codec says
    which one. *)
Class JsonCodec : Type := {
  json_dumps : usage_dict -> string;
  json_loads : string -> result usage_dict
}.

(** ** The relations *)

(** A value of a TEXT column: NULL or a text. *)
Abbreviation cell := (option string) (only parsing).

(** [a = ?] in a WHERE clause: NULL is equal to nothing. *)
Definition sql_eq (a : cell) (v : string) : bool :=
  match a with
  | Some x => String.eqb x v
  | None => false
  end.

(** Equality of two values for DISTINCT: two NULLs are the same value. *)
Definition cell_eqb (a b : cell) : bool :=
  match a, b with
  | Some x, Some y => String.eqb x y
  | None, None => true
  | _, _ => false
  end.

(** Order of two values for ORDER BY: NULL sorts first, texts compare
    byte-wise. *)
Definition cell_leb (a b : cell) : bool :=
  match a, b with
  | None, _ => true
  | Some _, None => false
  | Some x, Some y => String.leb x y
  end.

(** A row of [sessions] gives each column its value. *)
Abbreviation row := (string -> option string) (only parsing).

Definition row_set (c : string) (v : cell) (r : row) : row :=
  fun k => if String.eqb k c then v else r k.

Inductive default_clause : Type :=
| DefaultNull
| DefaultText (s : string)
| DefaultCurrentTimestamp.

Record column : Type := { col_name : string; col_default : default_clause }.

Record sessions_table : Type := {
  columns : list column;
  rows : list row
}.

(** A row of [messages]. [id] is the INTEGER PRIMARY KEY AUTOINCREMENT. *)
Record message : Type := {
  id : Z;
  session_id : string;
  role : string;
  content : string;
  usage_data : cell;
  timestamp : string
}.

(** [msg_seq] is the entry of [messages] in sqlite_sequence: the largest id
    handed out so far. *)
Record messages_table : Type := {
  msg_rows : list message;
  msg_seq : Z
}.

Record store : Type := {
  sessions : option sessions_table;
  messages : option messages_table
}.

(** [sqlite3.connect] on a file that does not exist yet. *)
Definition empty_store : store := {| sessions := None; messages := None |}.

Definition DEFAULT_TITLE : string := "New Inspection".
Definition DEFAULT_MODE : string := "General Analysis".

Definition sessions_schema : list column :=
  [ {| col_name := "id"; col_default := DefaultNull |};
    {| col_name := "title"; col_default := DefaultNull |};
    {| col_name := "image_path"; col_default := DefaultNull |};
    {| col_name := "mode"; col_default := DefaultText "General Analysis" |};
    {| col_name := "created_at"; col_default := DefaultCurrentTimestamp |} ].

(** ** SQL statements *)

Definition no_such_table (t : string) : exn :=
  Exception OperationalError ("no such table: " ++ t).

Definition no_such_column (c : string) : exn :=
  Exception OperationalError ("no such column: " ++ c).

Definition has_column (c : string) (t : sessions_table) : bool :=
  existsb (fun k => String.eqb (col_name k) c) (columns t).

Definition default_value (now : string) (d : default_clause) : cell :=
  match d with
  | DefaultNull => None
  | DefaultText s => Some s
  | DefaultCurrentTimestamp => Some now
  end.

(** The row an INSERT builds: the listed columns take the bound values, the
    others their default. *)
Definition new_row (now : string) (cols : list column)
    (given : list (string * cell)) : row :=
  fun c =>
    match find (fun kv => String.eqb (fst kv) c) given with
    | Some kv => snd kv
    | None =>
        match find (fun k => String.eqb (col_name k) c) cols with
        | Some k => default_value now (col_default k)
        | None => None
        end
    end.

(** INSERT OR IGNORE INTO sessions (id, title, mode) VALUES (?, ?, ?) *)
Definition insert_or_ignore_session (now sid title mode : string)
    (t : sessions_table) : result sessions_table :=
  match find (fun c => negb (has_column c t)) ["id"; "title"; "mode"] with
  | Some c =>
      Raise (Exception OperationalError
               ("table sessions has no column named " ++ c))
  | None =>
      if existsb (fun r => sql_eq (r "id") sid) (rows t) then Ok t
      else
        Ok {| columns := columns t;
              rows := rows t ++
                [new_row now (columns t)
                   [("id", Some sid); ("title", Some title);
                    ("mode", Some mode)]] |}
  end.

(** UPDATE sessions SET col = ? WHERE id = ? *)
Definition update_sessions (col : string) (v : cell) (sid : string)
    (t : sessions_table) : result sessions_table :=
  if negb (has_column col t) then Raise (no_such_column col)
  else if negb (has_column "id" t) then Raise (no_such_column "id")
  else
    Ok {| columns := columns t;
          rows := map (fun r => if sql_eq (r "id") sid
                                then row_set col v r else r) (rows t) |}.

(** UPDATE sessions SET title = ? WHERE id = ? AND title = 'New Inspection' *)
Definition update_title_if_default (new_title sid : string)
    (t : sessions_table) : result sessions_table :=
  if negb (has_column "title" t) then Raise (no_such_column "title")
  else if negb (has_column "id" t) then Raise (no_such_column "id")
  else
    Ok {| columns := columns t;
          rows := map (fun r =>
                         if sql_eq (r "id") sid
                            && sql_eq (r "title") "New Inspection"
                         then row_set "title" (Some new_title) r else r)
                      (rows t) |}.

(** ALTER TABLE sessions ADD COLUMN mode TEXT DEFAULT 'General Analysis' *)
Definition alter_add_mode (t : sessions_table) : result sessions_table :=
  if has_column "mode" t
  then Raise (Exception OperationalError "duplicate column name: mode")
  else
    Ok {| columns := columns t ++
            [{| col_name := "mode";
                col_default := DefaultText "General Analysis" |}];
          rows := map (row_set "mode" (Some "General Analysis")) (rows t) |}.

(** A statement on [sessions], run against the file. *)
Definition on_sessions (f : sessions_table -> result sessions_table)
    (st : store) : result store :=
  match sessions st with
  | None => Raise (no_such_table "sessions")
  | Some t =>
      t' <- f t ;;
      Ok {| sessions := Some t'; messages := messages st |}
  end.

(** The id AUTOINCREMENT gives the next row: one more than the largest id
    ever used in the relation. *)
Definition max_id (l : list message) : Z :=
  fold_right (fun m acc => Z.max (id m) acc) 0 l.

Definition next_id (t : messages_table) : Z :=
  Z.max (msg_seq t) (max_id (msg_rows t)) + 1.

(** INSERT INTO messages (session_id, role, content, usage_data)
    VALUES (?, ?, ?, ?) *)
Definition insert_message (now sid rl body : string) (usage_json : cell)
    (st : store) : result store :=
  match messages st with
  | None => Raise (no_such_table "messages")
  | Some t =>
      let n := next_id t in
      Ok {| sessions := sessions st;
            messages :=
              Some {| msg_rows := msg_rows t ++
                        [{| id := n; session_id := sid; role := rl;
                            content := body; usage_data := usage_json;
                            timestamp := now |}];
                      msg_seq := n |} |}
  end.

(** ORDER BY id ASC, by insertion. *)
Fixpoint insert_by_id (m : message) (l : list message) : list message :=
  match l with
  | [] => [m]
  | x :: l' => if id m <=? id x then m :: l else x :: insert_by_id m l'
  end.

Definition sort_by_id (l : list message) : list message :=
  fold_right insert_by_id [] l.

(** ORDER BY created_at DESC, by insertion. *)
Fixpoint insert_by_created_desc (r : row) (l : list row) : list row :=
  match l with
  | [] => [r]
  | x :: l' =>
      if cell_leb (x "created_at") (r "created_at") then r :: l
      else x :: insert_by_created_desc r l'
  end.

Definition sort_by_created_desc (l : list row) : list row :=
  fold_right insert_by_created_desc [] l.

(** ** backend/database.py *)

(** Every function opens a connection, runs its statements, commits and
    closes. When a statement raises and the function does not catch it, the
    connection is dropped before the commit and the file keeps the content
    it had: the function then returns [Raise] and the caller goes on with
    the store it passed in. *)

Definition is_class (c : exc_class) (e : exn) : bool :=
  exc_class_eqb (exc_type e) c.

Definition init_db (st : store) : store :=
  {| sessions :=
       match sessions st with
       | Some t => Some t
       | None => Some {| columns := sessions_schema; rows := [] |}
       end;
     messages :=
       match messages st with
       | Some t => Some t
       | None => Some {| msg_rows := []; msg_seq := 0 |}
       end |}.

(** [now] is the value of CURRENT_TIMESTAMP when the statement runs. The
    callers that leave [title] and [mode] out pass [DEFAULT_TITLE] and
    [DEFAULT_MODE]. *)
Definition create_session (now sid title mode : string) (st : store)
    : result store :=
  on_sessions (insert_or_ignore_session now sid title mode) st.

Definition update_session_mode (sid mode : string) (st : store)
    : result store :=
  match on_sessions (update_sessions "mode" (Some mode) sid) st with
  | Ok st1 => Ok st1
  | Raise e =>
      if is_class OperationalError e then
        match on_sessions alter_add_mode st with
        | Ok st2 =>
            match on_sessions (update_sessions "mode" (Some mode) sid) st2 with
            | Ok st3 => Ok st3
            | Raise _ => Ok st2
            end
        | Raise _ => Ok st
        end
      else Raise e
  end.

Definition update_session_image (sid image_path : string) (st : store)
    : result store :=
  match on_sessions (update_sessions "image_path" (Some image_path) sid) st with
  | Ok st1 => Ok st1
  | Raise e => if is_class OperationalError e then Ok st else Raise e
  end.

Definition update_session_title (sid new_title : string) (st : store)
    : result store :=
  on_sessions (update_sessions "title" (Some new_title) sid) st.

(** [dict(row)]: the columns of the relation with their values. *)
Definition row_dict (t : sessions_table) (r : row) : list (string * cell) :=
  map (fun k => (col_name k, r (col_name k))) (columns t).

Definition get_session_meta (sid : string) (st : store)
    : result (option (list (string * cell))) :=
  match sessions st with
  | None => Raise (no_such_table "sessions")
  | Some t =>
      if negb (has_column "id" t) then Raise (no_such_column "id")
      else
        match filter (fun r => sql_eq (r "id") sid) (rows t) with
        | r :: _ => Ok (Some (row_dict t r))
        | [] => Ok None
        end
  end.

(** A message as the chat window holds it: the mapping with keys "role" and
    "content" and, when [usage] is [Some], the key "usage". *)
Record chat_message : Type := {
  msg_role : string;
  msg_content : string;
  msg_usage : option usage_dict
}.

(** Truth value of a [str] or [None]. *)
Definition truthy_text (c : cell) : bool :=
  match c with
  | None => false
  | Some s => negb (String.eqb s "")
  end.

(** Truth value of a [dict] or [None]. *)
Definition truthy_usage (u : option usage_dict) : bool :=
  match u with
  | None => false
  | Some [] => false
  | Some (_ :: _) => true
  end.

(** The joined rows of [sessions s LEFT JOIN messages m ON s.id =
    m.session_id]: a session without message appears once, with a NULL
    message. *)
Definition left_join (ss : list row) (ms : list message)
    : list (row * option message) :=
  flat_map
    (fun s =>
       match filter (fun m => sql_eq (s "id") (session_id m)) ms with
       | [] => [(s, None)]
       | matched => map (fun m => (s, Some m)) matched
       end) ss.

(** WHERE m.id IS NOT NULL OR s.image_path IS NOT NULL
       OR s.title != 'New Inspection'
    A NULL title makes the last comparison NULL, which does not select. *)
Definition listed (j : row * option message) : bool :=
  let (s, m) := j in
  match m with Some _ => true | None => false end
  || match s "image_path" with Some _ => true | None => false end
  || match s "title" with
     | Some t => negb (String.eqb t "New Inspection")
     | None => false
     end.

Definition row_eqb (cols : list column) (a b : row) : bool :=
  forallb (fun k => cell_eqb (a (col_name k)) (b (col_name k))) cols.

(** SELECT DISTINCT: the first occurrence of each row is kept. *)
Fixpoint distinct (cols : list column) (l : list row) : list row :=
  match l with
  | [] => []
  | r :: l' =>
      r :: filter (fun x => negb (row_eqb cols r x)) (distinct cols l')
  end.

Definition select_all_sessions (st : store) : result (list row) :=
  match sessions st with
  | None => Raise (no_such_table "sessions")
  | Some t =>
      match messages st with
      | None => Raise (no_such_table "messages")
      | Some m =>
          match find (fun c => negb (has_column c t))
                  ["id"; "image_path"; "title"; "created_at"] with
          | Some c => Raise (no_such_column ("s." ++ c))
          | None =>
              Ok (sort_by_created_desc
                    (distinct (columns t)
                       (map fst (filter listed
                                   (left_join (rows t) (msg_rows m))))))
          end
      end
  end.

Definition get_all_sessions (st : store)
    : result (list (list (string * cell))) :=
  rs <- select_all_sessions st ;;
  match sessions st with
  | Some t => Ok (map (row_dict t) rs)
  | None => Ok []
  end.

(** SELECT * FROM messages WHERE session_id = ? ORDER BY id ASC *)
Definition select_messages (sid : string) (st : store)
    : result (list message) :=
  match messages st with
  | None => Raise (no_such_table "messages")
  | Some t =>
      Ok (sort_by_id
            (filter (fun m => String.eqb (session_id m) sid) (msg_rows t)))
  end.

(** DELETE FROM messages WHERE session_id = ? *)
Definition delete_messages (sid : string) (st : store) : result store :=
  match messages st with
  | None => Raise (no_such_table "messages")
  | Some t =>
      Ok {| sessions := sessions st;
            messages :=
              Some {| msg_rows :=
                        filter (fun m => negb (String.eqb (session_id m) sid))
                               (msg_rows t);
                      msg_seq := msg_seq t |} |}
  end.

(** DELETE FROM sessions WHERE id = ? *)
Definition delete_sessions_row (sid : string) (t : sessions_table)
    : result sessions_table :=
  if negb (has_column "id" t) then Raise (no_such_column "id")
  else
    Ok {| columns := columns t;
          rows := filter (fun r => negb (sql_eq (r "id") sid)) (rows t) |}.

(** ** Python strings

    In UTF-8 a character is one byte that is not a continuation byte
    (the bytes [10xxxxxx]) followed by its continuation bytes. *)
Definition is_continuation (a : ascii) : bool :=
  match a with
  | Ascii _ _ _ _ _ _ b6 b7 => b7 && negb b6
  end.

(** [len(s)]: the number of characters of [s]. *)
Fixpoint len (s : string) : nat :=
  match s with
  | EmptyString => O
  | String a s' => if is_continuation a then len s' else S (len s')
  end.

(** [s[:n]]: the first [n] characters of [s], all of [s] when it has
    fewer. *)
Fixpoint slice_to (n : nat) (s : string) : string :=
  match s with
  | EmptyString => EmptyString
  | String a s' =>
      if is_continuation a then String a (slice_to n s')
      else
        match n with
        | O => EmptyString
        | S n' => String a (slice_to n' s')
        end
  end.

(** Whether [s] begins at a character boundary. *)
Definition starts_character (s : string) : bool :=
  match s with
  | EmptyString => true
  | String a _ => negb (is_continuation a)
  end.

(** The encoding of one code point: one byte below 128, two below 2048,
    three below 65536, four above. *)
Definition utf8_char (c : N) : string :=
  let b := N.testbit c in
  let continuation (i : N) : ascii :=
    Ascii (b i) (b (i + 1)%N) (b (i + 2)%N) (b (i + 3)%N) (b (i + 4)%N)
          (b (i + 5)%N) false true in
  if (c <? 128)%N then
    String (Ascii (b 0%N) (b 1%N) (b 2%N) (b 3%N) (b 4%N) (b 5%N) (b 6%N)
                  false) EmptyString
  else if (c <? 2048)%N then
    String (Ascii (b 6%N) (b 7%N) (b 8%N) (b 9%N) (b 10%N) false true true)
      (String (continuation 0%N) EmptyString)
  else if (c <? 65536)%N then
    String (Ascii (b 12%N) (b 13%N) (b 14%N) (b 15%N) false true true true)
      (String (continuation 6%N) (String (continuation 0%N) EmptyString))
  else
    String (Ascii (b 18%N) (b 19%N) (b 20%N) false true true true true)
      (String (continuation 12%N)
         (String (continuation 6%N)
            (String (continuation 0%N) EmptyString))).

(** The [str] whose characters are the code points [cs]. *)
Fixpoint utf8 (cs : list N) : string :=
  match cs with
  | [] => EmptyString
  | c :: cs' => utf8_char c ++ utf8 cs'
  end.


Section Database.

Context {codec : JsonCodec}.

(** [(content[:30] + '...') if len(content) > 30 else content] *)
Definition auto_title (body : string) : string :=
  if (30 <? len body)%nat
  then slice_to 30 body ++ "..."
  else body.

(** [json.dumps(usage) if usage else None] *)
Definition usage_json (usage : option usage_dict) : cell :=
  if truthy_usage usage
  then match usage with Some u => Some (json_dumps u) | None => None end
  else None.

Definition add_message (now sid rl body : string)
    (usage : option usage_dict) (st : store) : result store :=
  st1 <- insert_message now sid rl body (usage_json usage) st ;;
  if String.eqb rl "user" then
    let new_title := auto_title body in
    on_sessions (update_title_if_default new_title sid) st1
  else Ok st1.

Definition history_entry (m : message) : result chat_message :=
  if truthy_text (usage_data m) then
    match usage_data m with
    | Some js =>
        u <- json_loads js ;;
        Ok {| msg_role := role m; msg_content := content m;
              msg_usage := Some u |}
    | None =>
        Ok {| msg_role := role m; msg_content := content m;
              msg_usage := None |}
    end
  else
    Ok {| msg_role := role m; msg_content := content m;
          msg_usage := None |}.

Definition get_session_history (sid : string) (st : store)
    : result (list chat_message) :=
  rs <- select_messages sid st ;;
  mapM history_entry rs.

End Database.

(** The files of the asset directory: the paths that exist. [os.remove]
    fails when the environment says so. *)
Definition file_system : Type := list string.

Definition os_path_exists (p : string) (fs : file_system) : bool :=
  existsb (String.eqb p) fs.

Definition os_remove (denied : bool) (p : string) (fs : file_system)
    : result file_system :=
  if denied then Raise (Exception OSError "Permission denied")
  else Ok (filter (fun q => negb (String.eqb q p)) fs).

(** [delete_session] returns the outcome for the store, the file system it
    leaves and the lines it printed. *)
Definition delete_session (denied : bool) (sid : string) (st : store)
    (fs : file_system) : result store * file_system * list string :=
  match sessions st with
  | None => (Raise (no_such_table "sessions"), fs, [])
  | Some t =>
      match find (fun c => negb (has_column c t)) ["image_path"; "id"] with
      | Some c => (Raise (no_such_column c), fs, [])
      | None =>
          let found := filter (fun r => sql_eq (r "id") sid) (rows t) in
          let '(fs1, out) :=
            match found with
            | r :: _ =>
                if truthy_text (r "image_path") then
                  match r "image_path" with
                  | Some p =>
                      if os_path_exists p fs then
                        match os_remove denied p fs with
                        | Ok fs' => (fs', [])
                        | Raise e =>
                            (fs, ["Error deleting file: " ++ exc_str e])
                        end
                      else (fs, [])
                  | None => (fs, [])
                  end
                else (fs, [])
            | [] => (fs, [])
            end in
          (st1 <- delete_messages sid st ;;
           on_sessions (delete_sessions_row sid) st1, fs1, out)
      end
  end.

(** ** Python float arithmetic *)

Definition float_zero : float := S754_zero false.

(** [float(n)] for an [int]: the nearest binary64 value, ties to even. *)
Definition float_of_int (n : Z) : result float :=
  match binary_normalize prec emax n 0 false with
  | S754_infinity _ =>
      Raise (Exception OverflowError "int too large to convert to float")
  | f => Ok f
  end.

Definition is_float_zero (x : float) : bool :=
  match x with
  | S754_zero _ => true
  | _ => false
  end.

(** [n / x] for an [int] [n] and a [float] [x]. *)
Definition truediv (n : Z) (x : float) : result float :=
  a <- float_of_int n ;;
  if is_float_zero x
  then Raise (Exception ZeroDivisionError "float division by zero")
  else Ok (SFdiv prec emax a x).

(** [x > 0] for a [float] [x]; false on NaN. *)
Definition float_gt_zero (x : float) : bool := SFltb float_zero x.

(** The integer nearest to [n / d] for [d > 0], ties to even. *)
Definition round_half_even (n d : Z) : Z :=
  let q := n / d in
  match (2 * (n mod d)) ?= d with
  | Lt => q
  | Gt => q + 1
  | Eq => if Z.even q then q else q + 1
  end.

(** [round(x, 2)]: the decimal with two places nearest to the exact value
    of [x] (ties to even), converted back to the nearest binary64 value.
    Infinities, NaN and integral values round to themselves; the sign is
    kept when the result is zero. *)
Definition round2 (x : float) : float :=
  match x with
  | S754_finite s m e =>
      if 0 <=? e then x
      else
        match round_half_even (Zpos m * 100) (2 ^ (- e)) with
        | Zpos p =>
            SFdiv prec emax (S754_finite s p 0) (S754_finite false 100 0)
        | _ => S754_zero s
        end
  | _ => x
  end.

(** The number a float stands for; infinities and NaN stand for none. *)
Definition float_value (x : float) : option Q :=
  match x with
  | S754_zero _ => Some 0%Q
  | S754_finite s m e =>
      let v :=
        if 0 <=? e then inject_Z (Zpos m * 2 ^ e)
        else (Zpos m # Z.to_pos (2 ^ (- e)))%Q in
      Some (if s then (- v)%Q else v)
  | _ => None
  end.

(** [k / 100] as a float: the quotient of the floats [k] and [100],
    which IEEE 754 division rounds to the nearest float. *)
Definition hundredths (k : Z) : float :=
  match k with
  | Z0 => float_zero
  | Zpos p => SFdiv prec emax (S754_finite false p 0) (S754_finite false 100 0)
  | Zneg p => SFdiv prec emax (S754_finite true p 0) (S754_finite false 100 0)
  end.

(** [r] is [x] rounded to two decimals: for some number [k] of hundredths
    within one half of [100 * x], [r] is [k / 100] as a float, or is [k /
    100] exactly. An infinity or a NaN is its own rounding. *)
Definition rounded_to_2_decimals (x r : float) : Prop :=
  match float_value x with
  | None => r = x
  | Some v =>
      exists k : Z,
        (Qabs (100 * v - inject_Z k) <= 1 # 2)%Q /\
        (r = hundredths k \/
         exists w, float_value r = Some w /\ (w == inject_Z k / 100)%Q)
  end.

(** ** backend/schemas.py *)

Module Schemas.

Record UsageMetrics : Type := {
  prompt_tokens : Z;
  completion_tokens : Z;
  total_tokens : Z;
  latency : float;
  throughput : float
}.

Record ChatResponse : Type := {
  content : string;
  usage : UsageMetrics
}.

(** [UsageMetrics.model_dump()] *)
Definition model_dump (u : UsageMetrics) : usage_dict :=
  [ ("prompt_tokens", PyInt (prompt_tokens u));
    ("completion_tokens", PyInt (completion_tokens u));
    ("total_tokens", PyInt (total_tokens u));
    ("latency", PyFloat (latency u));
    ("throughput", PyFloat (throughput u)) ].

(** What a [float] field holds after validation of the value passed to
    the constructor: an [int] is converted. *)
Definition float_field (v : pynum) : result float :=
  match v with
  | PyFloat f => Ok f
  | PyInt z => float_of_int z
  end.

End Schemas.

(** ** backend/api_client.py *)

(** The arguments of [chat_with_industrial_ai]. An image is its bytes. *)
Record chat_request : Type := {
  current_question : string;
  image_file : option string;
  chat_history : list chat_message;
  system_prompt : string
}.

(** The body of a reply as the gateway documents it: an optional list
    "choices" whose entries may hold a "message" that may hold a "content",
    an optional top-level "content", an optional "usage" mapping of token
    counts. *)
Record response_data : Type := {
  data_choices : option (list (option (option string)));
  data_content : option string;
  data_usage : option (list (string * Z))
}.

(** A [requests.Response]: [json] is what [response.json()] does. *)
Record response : Type := {
  status_code : Z;
  text : string;
  json : result response_data
}.

(** One exchange with the server: the two readings of [time.time()] and
    what [requests.post] does with the request built from the arguments. *)
Record exchange : Type := {
  start_time : float;
  post : chat_request -> result response;
  end_time : float
}.

(** [d.get(key, default)] *)
Definition dict_get {V : Type} (d : list (string * V)) (key : string)
    (default : V) : V :=
  match find (fun kv => String.eqb (fst kv) key) d with
  | Some kv => snd kv
  | None => default
  end.

(** [data['choices'][0]['message']['content']] *)
Definition first_choice_content (choices : list (option (option string)))
    : result string :=
  match choices with
  | [] => Raise (Exception IndexError "list index out of range")
  | None :: _ => Raise (Exception KeyError "'message'")
  | Some None :: _ => Raise (Exception KeyError "'content'")
  | Some (Some c) :: _ => Ok c
  end.

Definition extract_content (data : response_data) : result string :=
  match data_choices data with
  | Some choices => first_choice_content choices
  | None =>
      match data_content data with
      | Some c => Ok c
      | None => Ok "Error: No content returned."
      end
  end.

(** [round(total_tokens / latency, 2) if latency > 0 else 0] *)
Definition tokens_per_second (total_tokens : Z) (latency : float)
    : result pynum :=
  if float_gt_zero latency then
    q <- truediv total_tokens latency ;;
    Ok (PyFloat (round2 q))
  else Ok (PyInt 0).

(** The body of the [try] block. *)
Definition chat_attempt (x : exchange) (req : chat_request)
    : result Schemas.ChatResponse :=
  response <- post x req ;;
  let latency := round2 (SFsub prec emax (end_time x) (start_time x)) in
  if negb (status_code response =? 200) then
    Raise (Exception RuntimeError ("API Error: " ++ text response))
  else
    data <- json response ;;
    content <- extract_content data ;;
    let raw_usage :=
      match data_usage data with
      | Some u => u
      | None =>
          [("prompt_tokens", 0); ("completion_tokens", 0);
           ("total_tokens", 0)]
      end in
    let total_tokens := dict_get raw_usage "total_tokens" 0 in
    tps <- tokens_per_second total_tokens latency ;;
    throughput <- Schemas.float_field tps ;;
    Ok {| Schemas.content := content;
          Schemas.usage :=
            {| Schemas.prompt_tokens := dict_get raw_usage "prompt_tokens" 0;
               Schemas.completion_tokens :=
                 dict_get raw_usage "completion_tokens" 0;
               Schemas.total_tokens := total_tokens;
               Schemas.latency := latency;
               Schemas.throughput := throughput |} |}.

(** [except Exception as e: raise RuntimeError(f"Connection failed:
    {str(e)}")] around the whole block. *)
Definition chat_with_industrial_ai (x : exchange) (req : chat_request)
    : result Schemas.ChatResponse :=
  match chat_attempt x req with
  | Ok r => Ok r
  | Raise e =>
      Raise (Exception RuntimeError ("Connection failed: " ++ exc_str e))
  end.

(** ** app.py: the submit handler of [main] *)

(** The active image of the page: a file uploaded in this run or the path
    of the file saved for the session. [None] when there is neither. *)
Inductive image_source : Type :=
| Uploaded (data : string)
| Archived (path : string).

(** The character "\n". *)
Definition newline : string := String "010" EmptyString.

(** What the handler does to the outside, in the order it does it. *)
Inductive effect : Type :=
| Toast (body icon : string)
| ChatMarkdown (author body : string)
| MetricsPills (tokens : Z) (seconds speed : float)
| ErrorNotice (body : string)
| StoreAppend (sid author : string)
| GatewayCall (req : chat_request).

(** The page between two statements: the SQLite file, the list
    [st.session_state.messages] and the effects so far. *)
Record page : Type := {
  db : store;
  state_messages : list chat_message;
  effects : list effect
}.

(** What the outside world answers during one run of the handler. *)
Record environment : Type := {
  clock_user : string;
  clock_assistant : string;
  read_file : string -> result string;
  gateway : exchange
}.

Definition emit (e : effect) (p : page) : page :=
  {| db := db p; state_messages := state_messages p;
     effects := effects p ++ [e] |}.

Section Orchestrator.

Context {codec : JsonCodec}.

(** The constant of [backend/schemas.py]. *)
Variable GUARDRAIL_PROMPT : string.

Definition final_system_prompt (base_instruction user_requirements : string)
    : string :=
  let base := base_instruction ++ newline ++ newline ++ GUARDRAIL_PROMPT in
  if String.eqb user_requirements "" then base
  else base ++ newline ++ newline ++ "ADDITIONAL OPERATOR INSTRUCTIONS:"
         ++ newline ++ user_requirements.

(** The bytes sent to the gateway: the archived file is opened and read,
    which can fail; the uploaded file is passed as it is. *)
Definition image_bytes (env : environment) (active_image : image_source)
    : result string :=
  match active_image with
  | Archived path => read_file env path
  | Uploaded data => Ok data
  end.

(** The body of the [try] block, from the page it starts on. On an
    exception the page reached so far comes with it. *)
Definition assistant_turn (env : environment) (active_session_id : string)
    (active_image : image_source) (prompt system : string) (p : page)
    : page * option exn :=
  match image_bytes env active_image with
  | Raise e => (p, Some e)
  | Ok img_bytes =>
      let req :=
        {| current_question := prompt;
           image_file := Some img_bytes;
           chat_history := removelast (state_messages p);
           system_prompt := system |} in
      let p1 := emit (GatewayCall req) p in
      match chat_with_industrial_ai (gateway env) req with
      | Raise e => (p1, Some e)
      | Ok response =>
          let u := Schemas.usage response in
          let usage_dict := Schemas.model_dump u in
          let p2 :=
            emit (MetricsPills (Schemas.total_tokens u) (Schemas.latency u)
                    (Schemas.throughput u))
              (emit (ChatMarkdown "assistant" (Schemas.content response))
                 p1) in
          match add_message (clock_assistant env) active_session_id
                  "assistant" (Schemas.content response) (Some usage_dict)
                  (db p2) with
          | Raise e => (p2, Some e)
          | Ok db' =>
              ({| db := db';
                  state_messages := state_messages p2 ++
                    [{| msg_role := "assistant";
                        msg_content := Schemas.content response;
                        msg_usage := Some usage_dict |}];
                  effects := effects p2 ++
                    [StoreAppend active_session_id "assistant"] |}, None)
          end
      end
  end.

(** [prompt] is what [st.chat_input] returned: [None] when nothing was
    entered. An exception of the first [add_message] is not caught. *)
Definition submit (env : environment) (active_session_id : string)
    (active_image : option image_source)
    (base_instruction user_requirements : string)
    (prompt : option string) (p : page) : result page :=
  match prompt with
  | None => Ok p
  | Some question =>
      if String.eqb question "" then Ok p
      else
        match active_image with
        | None => Ok (emit (Toast "⚠️ ERR: NO VISUAL INPUT DETECTED" "🚫") p)
        | Some img =>
            let msgs :=
              (state_messages p ++
                 [{| msg_role := "user"; msg_content := question;
                     msg_usage := None |}])%list in
            db1 <- add_message (clock_user env) active_session_id "user"
                     question None (db p) ;;
            let p1 :=
              {| db := db1; state_messages := msgs;
                 effects := effects p ++
                   [StoreAppend active_session_id "user";
                    ChatMarkdown "user" question] |} in
            let system :=
              final_system_prompt base_instruction user_requirements in
            match assistant_turn env active_session_id img question
                    system p1 with
            | (p2, None) => Ok p2
            | (p2, Some e) =>
                Ok (emit (ErrorNotice ("SYSTEM FAILURE: " ++ exc_str e)) p2)
            end
        end
  end.

End Orchestrator.

(** ** Vocabulary of the properties *)

(** The relation [sessions] exists and has the columns [cs]. *)
Definition has_columns (cs : list string) (st : store) : bool :=
  match sessions st with
  | Some t => forallb (fun c => has_column c t) cs
  | None => false
  end.

Definition has_messages (st : store) : bool :=
  match messages st with
  | Some _ => true
  | None => false
  end.

(** The schema [init_db] creates: what the functions of the store need to
    run without an operational error. *)
Definition current_schema (st : store) : bool :=
  has_columns ["id"; "title"; "image_path"; "mode"; "created_at"] st
  && has_messages st.

Definition session_rows (sid : string) (st : store) : list row :=
  match sessions st with
  | Some t => filter (fun r => sql_eq (r "id") sid) (rows t)
  | None => []
  end.

(** Number of Session records with a given id. *)
Definition session_count (sid : string) (st : store) : nat :=
  List.length (session_rows sid st).

(** [id] is the primary key of [sessions]. *)
Definition primary_key (st : store) : Prop :=
  forall sid, (session_count sid st <= 1)%nat.

(** The title of the session, as a point lookup reads it. *)
Definition session_title (sid : string) (st : store) : option cell :=
  match session_rows sid st with
  | r :: _ => Some (r "title")
  | [] => None
  end.

Definition message_rows (st : store) : list message :=
  match messages st with
  | Some t => msg_rows t
  | None => []
  end.

(** The ids of [messages] grow with the rowid. *)
Definition ids_increasing (st : store) : Prop :=
  StronglySorted Z.lt (map id (message_rows st)).

(** [d[key]] on a [dict(row)]; NULL when the key is missing. *)
Definition field (key : string) (d : list (string * cell)) : cell :=
  dict_get d key None.

(** The Session records of the store, as [dict(row)]. *)
Definition session_dicts (st : store) : list (list (string * cell)) :=
  match sessions st with
  | Some t => map (row_dict t) (rows t)
  | None => []
  end.

(** One call of [add_message]: the clock and the four arguments. *)
Record append_call : Type := {
  call_now : string;
  call_session : string;
  call_role : string;
  call_content : string;
  call_usage : option usage_dict
}.

(** The message [get_session_history] is expected to give back for a
    call. *)
Definition call_message (c : append_call) : chat_message :=
  {| msg_role := call_role c;
     msg_content := call_content c;
     msg_usage := if truthy_usage (call_usage c) then call_usage c else None |}.

Definition for_session (sid : string) (c : append_call) : bool :=
  String.eqb (call_session c) sid.

Section Runs.

Context {codec : JsonCodec}.

Definition run_append (c : append_call) (st : store) : result store :=
  add_message (call_now c) (call_session c) (call_role c) (call_content c)
    (call_usage c) st.

Fixpoint run_appends (cs : list append_call) (st : store) : result store :=
  match cs with
  | [] => Ok st
  | c :: cs' => st1 <- run_append c st ;; run_appends cs' st1
  end.

(** The codec gives back the usage of a call that stores one. *)
Definition readable (u : option usage_dict) : Prop :=
  match u with
  | Some (kv :: d) =>
      json_dumps (kv :: d) <> "" /\
      json_loads (json_dumps (kv :: d)) = Ok (kv :: d)
  | _ => True
  end.

End Runs.

(** ** Sample data *)

Definition two : float := Eval cbv in binary_normalize prec emax 2 0 false.
Definition fifty : float := Eval cbv in binary_normalize prec emax 50 0 false.
Definition thousand : float :=
  Eval cbv in binary_normalize prec emax 1000 0 false.
Definition thousand_two : float :=
  Eval cbv in binary_normalize prec emax 1002 0 false.

(** 3.0, 1003.004 and 33.33 *)
Definition three : float := Eval cbv in binary_normalize prec emax 3 0 false.
Definition thousand_three : float :=
  Eval cbv in
    SFdiv prec emax (S754_finite false 1003004 0) (S754_finite false 1000 0).
Definition thirty_three : float := Eval cbv in hundredths 3333.

Definition sample_metrics : Schemas.UsageMetrics :=
  {| Schemas.prompt_tokens := 60;
     Schemas.completion_tokens := 40;
     Schemas.total_tokens := 100;
     Schemas.latency := two;
     Schemas.throughput := fifty |}.

Definition sample_usage : usage_dict := Schemas.model_dump sample_metrics.

(** The integer a float is, when it is one. *)
Definition integral_value (f : float) : option Z :=
  match f with
  | S754_zero _ => Some 0
  | S754_finite s m e =>
      let v :=
        if 0 <=? e then Some (Zpos m * 2 ^ e)
        else if (Zpos m mod 2 ^ (- e)) =? 0 then Some (Zpos m / 2 ^ (- e))
        else None in
      match v with
      | Some z => Some (if s then - z else z)
      | None => None
      end
  | _ => None
  end.

Definition sample_number (n : pynum) : string :=
  match n with
  | PyInt z => NilZero.string_of_int (Z.to_int z)
  | PyFloat f =>
      match integral_value f with
      | Some z => NilZero.string_of_int (Z.to_int z) ++ ".0"
      | None => "NaN"
      end
  end.

Definition sample_member (kv : string * pynum) : string :=
  String "034" (fst kv) ++ String "034" ": " ++ sample_number (snd kv).

Definition sample_dumps (d : usage_dict) : string :=
  "{" ++ String.concat ", " (map sample_member d) ++ "}".

(** A codec for the examples: it writes a mapping as JSON text and reads
    back the text of [sample_usage]. *)
Definition sample_json : JsonCodec :=
  {| json_dumps := sample_dumps;
     json_loads := fun s =>
       if String.eqb s (sample_dumps sample_usage) then Ok sample_usage
       else Raise (Exception JSONDecodeError "Expecting value") |}.

(** A fresh file after [init_db]. *)
Definition fresh_store : store := init_db empty_store.

(** A file written by a version that knew neither [image_path] nor
    [mode]. *)
Definition legacy_sessions : sessions_table :=
  {| columns :=
       [ {| col_name := "id"; col_default := DefaultNull |};
         {| col_name := "title"; col_default := DefaultNull |};
         {| col_name := "created_at";
            col_default := DefaultCurrentTimestamp |} ];
     rows :=
       [ new_row "2024-01-01 10:00:00" []
           [("id", Some "s1"); ("title", Some "Pump");
            ("created_at", Some "2024-01-01 10:00:00")] ] |}.

Definition legacy_store : store :=
  {| sessions := Some legacy_sessions;
     messages := Some {| msg_rows := []; msg_seq := 0 |} |}.

(** A file whose [sessions] relation has no [title] column. *)
Definition untitled_store : store :=
  {| sessions :=
       Some {| columns :=
                 [ {| col_name := "id"; col_default := DefaultNull |} ];
               rows := [ new_row "2024-01-01 10:00:00" []
                           [("id", Some "s1")] ] |};
     messages := Some {| msg_rows := []; msg_seq := 0 |} |}.

Definition ok_or {A : Type} (default : A) (r : result A) : A :=
  match r with
  | Ok a => a
  | Raise _ => default
  end.

(** A fresh file with one session "s1" that was never used. *)
Definition one_session_store : store :=
  ok_or fresh_store
    (create_session "2024-01-01 10:00:00" "s1" DEFAULT_TITLE DEFAULT_MODE
       fresh_store).

(** A reply with status 500 and body "boom". *)
Definition failing_exchange : exchange :=
  {| start_time := thousand;
     post := fun _ =>
       Ok {| status_code := 500; text := "boom";
             json := Raise (Exception JSONDecodeError "Expecting value") |};
     end_time := thousand_two |}.

(** A request that does not reach the server: the transport raises an
    exception whose text is "API Error: boom". *)
Definition broken_exchange : exchange :=
  {| start_time := thousand;
     post := fun _ => Raise (Exception RequestException "API Error: boom");
     end_time := thousand_two |}.

(** A reply with status 200, a top-level content and 100 tokens, two
    seconds after the request. *)
Definition good_exchange : exchange :=
  {| start_time := thousand;
     post := fun _ =>
       Ok {| status_code := 200; text := "";
             json := Ok {| data_choices := None;
                           data_content := Some "OK";
                           data_usage :=
                             Some [("prompt_tokens", 60);
                                   ("completion_tokens", 40);
                                   ("total_tokens", 100)] |} |};
     end_time := thousand_two |}.

(** The same reply a little more than three seconds after the request:
    the clock reads 1003.004. *)
Definition slow_exchange : exchange :=
  {| start_time := thousand;
     post := post good_exchange;
     end_time := thousand_three |}.

Definition sample_request : chat_request :=
  {| current_question := "Is the bearing worn?";
     image_file := Some "img";
     chat_history := [];
     system_prompt := "Role: Senior Technical Engineer." |}.

Definition sample_environment (x : exchange) : environment :=
  {| clock_user := "2024-01-01 10:00:01";
     clock_assistant := "2024-01-01 10:00:03";
     read_file := fun _ => Ok "img";
     gateway := x |}.

(** Three sessions: "s1" has a message, "s2" was never used, "s3" was
    renamed. *)
Definition archive_store : store :=
  ok_or fresh_store
    (st1 <- create_session "2024-01-01 10:00:00" "s1" DEFAULT_TITLE
              DEFAULT_MODE fresh_store ;;
     st2 <- create_session "2024-01-02 09:00:00" "s2" DEFAULT_TITLE
              DEFAULT_MODE st1 ;;
     st3 <- create_session "2024-01-03 08:00:00" "s3" DEFAULT_TITLE
              DEFAULT_MODE st2 ;;
     st4 <- @add_message sample_json "2024-01-01 10:00:01" "s1" "assistant"
              "OK" None st3 ;;
     update_session_title "s3" "Gearbox" st4).

(** What the client returns for [good_exchange]. *)
Definition sample_response : Schemas.ChatResponse :=
  {| Schemas.content := "OK"; Schemas.usage := sample_metrics |}.

(** What the client returns for [slow_exchange]: a latency of 3.0 and a
    throughput of 33.33. *)
Definition slow_response : Schemas.ChatResponse :=
  {| Schemas.content := "OK";
     Schemas.usage :=
       {| Schemas.prompt_tokens := 60;
          Schemas.completion_tokens := 40;
          Schemas.total_tokens := 100;
          Schemas.latency := three;
          Schemas.throughput := thirty_three |} |}.

Definition sample_page : page :=
  {| db := one_session_store; state_messages := []; effects := [] |}.

Definition sample_calls : list append_call :=
  [ {| call_now := "2024-01-01 10:00:01"; call_session := "s1";
       call_role := "user"; call_content := "Is the bearing worn?";
       call_usage := None |};
    {| call_now := "2024-01-01 10:00:02"; call_session := "s2";
       call_role := "user"; call_content := "Another session";
       call_usage := None |};
    {| call_now := "2024-01-01 10:00:03"; call_session := "s1";
       call_role := "assistant"; call_content := "OK";
       call_usage := Some sample_usage |} ].

(** ** The calls of the store *)

(** One call of a function of [backend/database.py] with its arguments
    and, where the function asks the outside world, the answer. *)
Inductive store_call : Type :=
| CallInitDb
| CallCreateSession (now sid title mode : string)
| CallUpdateSessionMode (sid mode : string)
| CallUpdateSessionImage (sid image_path : string)
| CallUpdateSessionTitle (sid new_title : string)
| CallAddMessage (c : append_call)
| CallDeleteSession (denied : bool) (sid : string).

Section Calls.

Context {codec : JsonCodec}.

(** The file and the asset directory after a call. A call that raises
    leaves the file as it was. *)
Definition run_call (c : store_call) (w : store * file_system)
    : store * file_system :=
  let (st, fs) := w in
  match c with
  | CallInitDb => (init_db st, fs)
  | CallCreateSession now sid title mode =>
      (ok_or st (create_session now sid title mode st), fs)
  | CallUpdateSessionMode sid mode =>
      (ok_or st (update_session_mode sid mode st), fs)
  | CallUpdateSessionImage sid image_path =>
      (ok_or st (update_session_image sid image_path st), fs)
  | CallUpdateSessionTitle sid new_title =>
      (ok_or st (update_session_title sid new_title st), fs)
  | CallAddMessage c => (ok_or st (run_append c st), fs)
  | CallDeleteSession denied sid =>
      let '(r, fs', _) := delete_session denied sid st fs in
      (ok_or st r, fs')
  end.

Fixpoint run_calls (cs : list store_call) (w : store * file_system)
    : store * file_system :=
  match cs with
  | [] => w
  | c :: cs' => run_calls cs' (run_call c w)
  end.

End Calls.

Definition session_columns (st : store) : list column :=
  match sessions st with
  | Some t => columns t
  | None => []
  end.

(** The entry of [messages] in sqlite_sequence. *)
Definition message_seq (st : store) : Z :=
  match messages st with
  | Some t => msg_seq t
  | None => 0
  end.

(** No message has an id above the recorded sequence. *)
Definition seq_covers (st : store) : Prop :=
  forall m, In m (message_rows st) -> id m <= message_seq st.

(** What holds of the file between two calls. *)
Definition store_invariant (st : store) : Prop :=
  current_schema st = true /\ primary_key st /\
  ids_increasing st /\ seq_covers st.

(** The image path [delete_session] reads for a session: the column
    [image_path] of the row a point lookup finds, when it is a non-empty
    text. *)
Definition session_image (sid : string) (st : store) : option string :=
  match session_rows sid st with
  | r :: _ => if truthy_text (r "image_path") then r "image_path" else None
  | [] => None
  end.

(** A run of the store: two sessions, an upload, a conversation, a
    rename, a change of mode and the deletion of the first session. *)
Definition sample_store_calls : list store_call :=
  [ CallInitDb;
    CallCreateSession "2024-01-01 10:00:00" "s1" DEFAULT_TITLE DEFAULT_MODE;
    CallCreateSession "2024-01-02 09:00:00" "s2" DEFAULT_TITLE DEFAULT_MODE;
    CallUpdateSessionImage "s1" "frontend/assets/s1.png";
    CallAddMessage
      {| call_now := "2024-01-01 10:00:01"; call_session := "s1";
         call_role := "user"; call_content := "Is the bearing worn?";
         call_usage := None |};
    CallAddMessage
      {| call_now := "2024-01-01 10:00:03"; call_session := "s1";
         call_role := "assistant"; call_content := "OK";
         call_usage := Some sample_usage |};
    CallUpdateSessionTitle "s2" "Gearbox";
    CallUpdateSessionMode "s2" "Safety Audit";
    CallDeleteSession false "s1";
    CallAddMessage
      {| call_now := "2024-01-02 09:00:01"; call_session := "s2";
         call_role := "user"; call_content := "Any hazard?";
         call_usage := None |} ].

(** The store and the asset directory before the deletion in
    [sample_store_calls]. *)
Definition conversation_store : store :=
  fst (@run_calls sample_json (firstn 8 sample_store_calls)
         (empty_store, ["frontend/assets/s1.png"])).

(** [d] with the value of [key] replaced, for a [dict(row)]. *)
Definition dict_set (key : string) (v : cell) (d : list (string * cell))
    : list (string * cell) :=
  map (fun kv => (fst kv, if String.eqb (fst kv) key then v else snd kv)) d.

(** What [get_session_meta sid'] is expected to return once column [col]
    of session [sid] has been set to [v], given what it returned
    before. *)
Definition meta_after_update (col v sid sid' : string)
    (before : result (option (list (string * cell))))
    : result (option (list (string * cell))) :=
  match before with
  | Ok (Some d) =>
      Ok (Some (if String.eqb sid' sid then dict_set col (Some v) d else d))
  | other => other
  end.

(** ** app.py: the image of the page *)

(** [os.path.join] of two components, with the separator of POSIX. *)
Definition os_path_join (a b : string) : string :=
  if String.prefix "/" b then b
  else if String.eqb a "" then a ++ b
  else if String.eqb (substring (String.length a - 1) 1 a) "/" then a ++ b
  else a ++ "/" ++ b.

Definition ASSETS_DIR : string := os_path_join "frontend" "assets".

(** [open(path, "wb")] followed by a write: the file exists afterwards,
    unless the environment refuses. *)
Definition write_file (denied : bool) (p : string) (fs : file_system)
    : result file_system :=
  if denied then Raise (Exception OSError "Permission denied")
  else Ok (if os_path_exists p fs then fs else p :: fs).

(** What the left column shows. *)
Inductive notice : Type :=
| SuccessNotice (body : string)
| InfoNotice (body : string)
| ImageShown (src : image_source)
| Placeholder.

(** Lines 117 to 151 of [main]: [session_meta] is what [get_session_meta]
    returned for the active session, [uploaded_file] the bytes of the
    file the uploader holds, if any. The function returns the store,
    the asset directory, the active image and what it showed. *)
Definition select_image (write_denied : bool) (active_session_id : string)
    (session_meta : option (list (string * cell)))
    (uploaded_file : option string) (st : store) (fs : file_system)
    : result (store * file_system * option image_source * list notice) :=
  let saved_image_path :=
    match session_meta with
    | Some d => field "image_path" d
    | None => None
    end in
  r <- match uploaded_file with
       | Some data =>
           let file_path :=
             os_path_join ASSETS_DIR (active_session_id ++ ".png") in
           fs1 <- write_file write_denied file_path fs ;;
           st1 <- update_session_image active_session_id file_path st ;;
           Ok (st1, fs1, Some (Uploaded data),
               [SuccessNotice "✔ IMAGE SAVED"])
       | None =>
           if truthy_text saved_image_path then
             match saved_image_path with
             | Some path =>
                 if os_path_exists path fs
                 then Ok (st, fs, Some (Archived path),
                          [InfoNotice "📂 LOADED FROM ARCHIVE"])
                 else Ok (st, fs, None, [])
             | None => Ok (st, fs, None, [])
             end
           else Ok (st, fs, None, [])
       end ;;
  let '(st1, fs1, active_image, shown) := r in
  Ok (st1, fs1, active_image,
      (shown ++ [match active_image with
                 | Some src => ImageShown src
                 | None => Placeholder
                 end])%list).

(** ** frontend/sidebar.py: the protocol selector *)

(** [list(PROMPTS.keys())], in the order of [backend/schemas.py]. *)
Definition mode_options : list string :=
  ["General Analysis"; "Defect Inspection"; "Safety Audit"].

(** [key in d] *)
Definition dict_has_key {V : Type} (d : list (string * V)) (key : string)
    : bool :=
  existsb (fun kv => String.eqb (fst kv) key) d.

(** Lines 51 to 53: the saved mode when it names a persona, the default
    otherwise; [meta.get('mode')] is [None] for a missing key as for a
    NULL. *)
Definition mode_of_record (d : list (string * cell)) : string :=
  match field "mode" d with
  | Some saved_mode =>
      if existsb (String.eqb saved_mode) mode_options then saved_mode
      else "General Analysis"
  | None => "General Analysis"
  end.

(** Lines 38 to 53 of [render_sidebar] for an active session: [meta] is
    what [get_session_meta] returned. A record that is found (a mapping
    that is not empty) is asked for its title first, which raises
    [KeyError] when it has none; the value is [current_mode]. *)
Definition current_mode (meta : option (list (string * cell)))
    : result string :=
  match meta with
  | Some ((_ :: _) as d) =>
      if dict_has_key d "title" then Ok (mode_of_record d)
      else Raise (Exception KeyError "'title'")
  | _ => Ok "General Analysis"
  end.

(** [meta] is a record without the key "title". *)
Definition title_missing (meta : option (list (string * cell))) : bool :=
  match meta with
  | Some ((_ :: _) as d) => negb (dict_has_key d "title")
  | _ => false
  end.

(** [l.index(x)] *)
Fixpoint list_index (x : string) (l : list string) : option nat :=
  match l with
  | [] => None
  | y :: l' =>
      if String.eqb y x then Some 0%nat
      else match list_index x l' with
           | Some i => Some (S i)
           | None => None
           end
  end.

(** Lines 86 to 90: the index the drop-down starts on; [None] of
    [list_index] is the [ValueError] the code catches. *)
Definition default_index (meta : option (list (string * cell)))
    : result nat :=
  mode <- current_mode meta ;;
  Ok match list_index mode mode_options with
     | Some i => i
     | None => 0%nat
     end.

(** Lines 102 to 104: the mode selected in the drop-down is written to
    the store when it differs from the current one. *)
Definition select_mode (active_session_id selected_mode : string)
    (meta : option (list (string * cell))) (st : store) : result store :=
  mode <- current_mode meta ;;
  if negb (String.eqb selected_mode mode)
  then update_session_mode active_session_id selected_mode st
  else Ok st.

(** ** backend/utils.py: [clean_text] *)

(** Here a [str] is the list of its code points, so that characters
    outside Latin-1 can be told apart; [None] is a missing text. *)
Definition clean_text (text : option (list N)) : list N :=
  match text with
  | None => []
  | Some [] => []
  | Some cs => map (fun c => if (c <=? 255)%N then c else 63%N) cs
  end.

(** A reply with status 200 whose "choices" list is empty, beside a
    top-level content and a usage. *)
Definition empty_choices_exchange : exchange :=
  {| start_time := thousand;
     post := fun _ =>
       Ok {| status_code := 200; text := "";
             json := Ok {| data_choices := Some [];
                           data_content := Some "OK";
                           data_usage := Some [("total_tokens", 10)] |} |};
     end_time := thousand_two |}.

(** A reply with status 200 and a top-level content, without usage. *)
Definition bare_exchange : exchange :=
  {| start_time := thousand;
     post := fun _ =>
       Ok {| status_code := 200; text := "";
             json := Ok {| data_choices := None;
                           data_content := Some "OK";
                           data_usage := None |} |};
     end_time := thousand_two |}.

(** * Properties *)

(** ** Python strings *)

Lemma len_append (s1 s2 : string) : len (s1 ++ s2) = (len s1 + len s2)%nat.
Proof.
  induction s1 as [|a s1 IH]; simpl; [reflexivity|].
  rewrite IH. destruct (is_continuation a); reflexivity.
Qed.

Lemma len_slice_to (n : nat) (s : string) :
  len (slice_to n s) = Nat.min n (len s).
Proof.
  revert n. induction s as [|a s IH]; intros n; simpl.
  - destruct n; reflexivity.
  - destruct (is_continuation a) eqn:Ha; simpl.
    + rewrite Ha. apply IH.
    + destruct n as [|n]; simpl; [reflexivity|].
      rewrite Ha, IH. reflexivity.
Qed.

Lemma slice_to_short (n : nat) (s : string) :
  (len s <= n)%nat -> slice_to n s = s.
Proof.
  revert n. induction s as [|a s IH]; intros n; simpl; [reflexivity|].
  destruct (is_continuation a).
  - intros H. rewrite (IH n H). reflexivity.
  - destruct n as [|n]; [lia|].
    intros H. rewrite (IH n) by lia. reflexivity.
Qed.

Lemma slice_to_append (s t : string) :
  starts_character t = true -> slice_to (len s) (s ++ t) = s.
Proof.
  intros Ht. induction s as [|a s IH]; simpl.
  - destruct t as [|b t]; simpl; [reflexivity|].
    simpl in Ht. destruct (is_continuation b); [discriminate|reflexivity].
  - destruct (is_continuation a) eqn:Ha; rewrite IH; reflexivity.
Qed.

Lemma append_associative (s1 s2 s3 : string) :
  (s1 ++ s2) ++ s3 = s1 ++ (s2 ++ s3).
Proof.
  induction s1 as [|a s1 IH]; simpl; [reflexivity|].
  rewrite IH. reflexivity.
Qed.

Lemma utf8_app (cs1 cs2 : list N) :
  utf8 (cs1 ++ cs2)%list = utf8 cs1 ++ utf8 cs2.
Proof.
  induction cs1 as [|c cs1 IH]; simpl; [reflexivity|].
  rewrite IH, append_associative. reflexivity.
Qed.

Lemma len_utf8_char (c : N) (s : string) :
  len (utf8_char c ++ s) = S (len s).
Proof.
  unfold utf8_char.
  destruct (c <? 128)%N; [reflexivity|].
  destruct (c <? 2048)%N; [reflexivity|].
  destruct (c <? 65536)%N; reflexivity.
Qed.

Lemma slice_to_utf8_char (n : nat) (c : N) (s : string) :
  slice_to (S n) (utf8_char c ++ s) = utf8_char c ++ slice_to n s.
Proof.
  unfold utf8_char.
  destruct (c <? 128)%N; [reflexivity|].
  destruct (c <? 2048)%N; [reflexivity|].
  destruct (c <? 65536)%N; reflexivity.
Qed.

Lemma starts_character_utf8 (cs : list N) : starts_character (utf8 cs) = true.
Proof.
  destruct cs as [|c cs]; simpl; [reflexivity|].
  unfold utf8_char.
  destruct (c <? 128)%N; [reflexivity|].
  destruct (c <? 2048)%N; [reflexivity|].
  destruct (c <? 65536)%N; reflexivity.
Qed.

Lemma len_utf8 (cs : list N) : len (utf8 cs) = List.length cs.
Proof.
  induction cs as [|c cs IH]; simpl; [reflexivity|].
  rewrite len_utf8_char, IH. reflexivity.
Qed.

Lemma slice_to_utf8 (n : nat) (cs : list N) :
  slice_to n (utf8 cs) = utf8 (firstn n cs).
Proof.
  revert n. induction cs as [|c cs IH]; intros n.
  - destruct n; reflexivity.
  - destruct n as [|n].
    + pose proof (starts_character_utf8 (c :: cs)) as H.
      destruct (utf8 (c :: cs)) as [|a s]; simpl; [reflexivity|].
      simpl in H. destruct (is_continuation a); [discriminate|reflexivity].
    + simpl. rewrite slice_to_utf8_char, IH. reflexivity.
Qed.

Lemma auto_title_utf8 (cs : list N) :
  auto_title (utf8 cs) =
  utf8 (if (30 <? List.length cs)%nat
        then (firstn 30 cs ++ [46; 46; 46]%N)%list
        else cs).
Proof.
  unfold auto_title. rewrite len_utf8, slice_to_utf8.
  destruct (30 <? List.length cs)%nat; [|reflexivity].
  rewrite utf8_app. reflexivity.
Qed.

(** ** Results and lists *)

Lemma mapM_app {A B : Type} (f : A -> result B) (l1 l2 : list A) :
  mapM f (l1 ++ l2) =
  (a <- mapM f l1 ;; b <- mapM f l2 ;; Ok (a ++ b)%list).
Proof.
  induction l1 as [|x l1 IH]; simpl.
  - destruct (mapM f l2); reflexivity.
  - destruct (f x) as [y|e]; simpl; [|reflexivity].
    rewrite IH. destruct (mapM f l1) as [ys|e]; simpl; [|reflexivity].
    destruct (mapM f l2); reflexivity.
Qed.

Lemma filter_snoc {A : Type} (p : A -> bool) (l : list A) (x : A) :
  filter p (l ++ [x]) = (filter p l ++ if p x then [x] else [])%list.
Proof.
  rewrite filter_app. simpl. destruct (p x); reflexivity.
Qed.

(** ** Order of the message ids *)

Lemma max_id_bound (l : list message) (x : message) :
  In x l -> id x <= max_id l.
Proof.
  induction l as [|y l IH]; simpl; [tauto|].
  intros [->|H]; [lia|]. specialize (IH H). lia.
Qed.

Lemma next_id_fresh (t : messages_table) (x : message) :
  In x (msg_rows t) -> id x < next_id t.
Proof.
  intros H. apply max_id_bound in H. unfold next_id. lia.
Qed.

Lemma increasing_filter (p : message -> bool) (l : list message) :
  StronglySorted Z.lt (map id l) ->
  StronglySorted Z.lt (map id (filter p l)).
Proof.
  induction l as [|x l IH]; simpl; intros H; [constructor|].
  apply StronglySorted_inv in H. destruct H as [Hs Hx].
  destruct (p x); simpl; [|auto].
  constructor; [auto|].
  rewrite Forall_forall in *. intros z Hz. apply Hx.
  rewrite in_map_iff in *. destruct Hz as [m [Hm Hin]].
  exists m. split; [exact Hm|]. apply filter_In in Hin. tauto.
Qed.

Lemma increasing_snoc (l : list message) (m : message) :
  StronglySorted Z.lt (map id l) ->
  (forall x, In x l -> id x < id m) ->
  StronglySorted Z.lt (map id (l ++ [m])).
Proof.
  induction l as [|x l IH]; simpl; intros H Hm.
  - constructor; constructor.
  - apply StronglySorted_inv in H. destruct H as [Hs Hx].
    constructor; [apply IH; auto|].
    rewrite map_app. apply Forall_app. split; [exact Hx|].
    constructor; [auto|constructor].
Qed.

Lemma sort_by_id_increasing (l : list message) :
  StronglySorted Z.lt (map id l) -> sort_by_id l = l.
Proof.
  unfold sort_by_id.
  induction l as [|x l IH]; simpl; intros H; [reflexivity|].
  apply StronglySorted_inv in H. destruct H as [Hs Hx].
  rewrite (IH Hs). destruct l as [|y l]; simpl; [reflexivity|].
  inversion Hx as [|? ? Hxy _]; subst.
  destruct (Z.leb_spec (id x) (id y)); [reflexivity|lia].
Qed.

Lemma insert_by_id_sorted (m : message) (l : list message) :
  Sorted (fun a b => id a <= id b) l ->
  Sorted (fun a b => id a <= id b) (insert_by_id m l).
Proof.
  induction l as [|x l IH]; simpl; intros H.
  - constructor; constructor.
  - destruct (Z.leb_spec (id m) (id x)).
    + constructor; [exact H|]. constructor. assumption.
    + apply Sorted_inv in H. destruct H as [Hs Hx].
      constructor; [auto|].
      destruct l as [|y l]; simpl.
      * constructor. lia.
      * destruct (Z.leb_spec (id m) (id y)); constructor; [lia|].
        inversion Hx; assumption.
Qed.

Lemma sort_by_id_sorted (l : list message) :
  Sorted (fun a b => id a <= id b) (sort_by_id l).
Proof.
  unfold sort_by_id. induction l as [|x l IH]; simpl.
  - constructor.
  - apply insert_by_id_sorted. exact IH.
Qed.

(** ** What [add_message] does to the store *)

Section DatabaseFacts.

Context {codec : JsonCodec}.

Lemma has_columns_title_id (st : store) :
  has_columns ["title"; "id"] st = true ->
  exists t, sessions st = Some t /\
            has_column "title" t = true /\ has_column "id" t = true.
Proof.
  unfold has_columns. destruct (sessions st) as [t|]; [|discriminate].
  simpl. rewrite !andb_true_iff. intros [H1 [H2 _]]. eauto.
Qed.

Lemma add_message_spec (now sid rl body : string)
    (usage : option usage_dict) (st : store) :
  has_messages st = true ->
  has_columns ["title"; "id"] st = true ->
  exists st' n,
    add_message now sid rl body usage st = Ok st' /\
    (forall x, In x (message_rows st) -> id x < n) /\
    message_rows st' =
      (message_rows st ++
         [{| id := n; session_id := sid; role := rl; content := body;
             usage_data := usage_json usage; timestamp := now |}])%list /\
    has_messages st' = true /\
    (forall cs, has_columns cs st' = has_columns cs st).
Proof.
  intros Hm Hc. apply has_columns_title_id in Hc.
  destruct Hc as [t [Ht [Htitle Hid]]].
  unfold has_messages in Hm. unfold add_message, insert_message, message_rows.
  destruct (messages st) as [mt|] eqn:Hmt; [|discriminate]. simpl.
  destruct (String.eqb rl "user").
  - unfold on_sessions, update_title_if_default. simpl.
    rewrite Ht, Htitle, Hid. simpl.
    eexists; exists (next_id mt). split; [reflexivity|]. simpl.
    split; [intros x Hx; apply next_id_fresh; exact Hx|].
    split; [reflexivity|]. split; [reflexivity|].
    intros cs. unfold has_columns. simpl. rewrite Ht. reflexivity.
  - eexists; exists (next_id mt). split; [reflexivity|]. simpl.
    split; [intros x Hx; apply next_id_fresh; exact Hx|].
    split; [reflexivity|]. split; [reflexivity|].
    intros cs. unfold has_columns. simpl. reflexivity.
Qed.

Lemma select_messages_increasing (sid : string) (st : store) :
  has_messages st = true ->
  ids_increasing st ->
  select_messages sid st =
  Ok (filter (fun m => String.eqb (session_id m) sid) (message_rows st)).
Proof.
  unfold has_messages, ids_increasing, select_messages, message_rows.
  destruct (messages st) as [mt|]; [|discriminate]. intros _ H.
  rewrite sort_by_id_increasing; [reflexivity|].
  apply increasing_filter. exact H.
Qed.

Lemma history_entry_new (now sid rl body : string)
    (usage : option usage_dict) (n : Z) :
  readable usage ->
  history_entry
    {| id := n; session_id := sid; role := rl; content := body;
       usage_data := usage_json usage; timestamp := now |} =
  Ok (call_message
        {| call_now := now; call_session := sid; call_role := rl;
           call_content := body; call_usage := usage |}).
Proof.
  unfold history_entry, call_message, usage_json, readable. simpl.
  destruct usage as [[|kv d]|]; simpl; try reflexivity.
  intros [Hne Hrt].
  destruct (String.eqb_spec (json_dumps (kv :: d)) ""); [contradiction|].
  simpl. rewrite Hrt. reflexivity.
Qed.

Lemma history_after_add (now sid rl body : string)
    (usage : option usage_dict) (st : store) :
  has_messages st = true ->
  has_columns ["title"; "id"] st = true ->
  ids_increasing st ->
  readable usage ->
  exists st',
    add_message now sid rl body usage st = Ok st' /\
    has_messages st' = true /\
    (forall cs, has_columns cs st' = has_columns cs st) /\
    ids_increasing st' /\
    (exists added, message_rows st' = (message_rows st ++ added)%list) /\
    forall sid' h0,
      get_session_history sid' st = Ok h0 ->
      get_session_history sid' st' =
      Ok (h0 ++
          map call_message
            (filter (for_session sid')
               [{| call_now := now; call_session := sid; call_role := rl;
                   call_content := body; call_usage := usage |}]))%list.
Proof.
  intros Hm Hc Hinc Hread.
  destruct (add_message_spec now sid rl body usage st Hm Hc)
    as [st' [n [Hadd [Hfresh [Hrows [Hm' Hc']]]]]].
  assert (Hinc' : ids_increasing st').
  { unfold ids_increasing. rewrite Hrows.
    apply increasing_snoc; [exact Hinc|exact Hfresh]. }
  exists st'. repeat split; try assumption.
  - eexists. exact Hrows.
  - intros sid' h0. unfold get_session_history.
    rewrite (select_messages_increasing sid' st Hm Hinc).
    rewrite (select_messages_increasing sid' st' Hm' Hinc').
    rewrite Hrows. simpl. rewrite filter_snoc. simpl.
    unfold for_session. simpl.
    intros H0. rewrite mapM_app. rewrite H0. simpl.
    destruct (String.eqb sid sid'); simpl.
    + rewrite (history_entry_new now sid rl body usage n Hread).
      reflexivity.
    + reflexivity.
Qed.

Lemma history_after_appends (cs : list append_call) :
  forall st,
    has_messages st = true ->
    has_columns ["title"; "id"] st = true ->
    ids_increasing st ->
    Forall (fun c => readable (call_usage c)) cs ->
    exists st',
      run_appends cs st = Ok st' /\
      has_messages st' = true /\
      ids_increasing st' /\
      (exists added, message_rows st' = (message_rows st ++ added)%list) /\
      forall sid h0,
        get_session_history sid st = Ok h0 ->
        get_session_history sid st' =
        Ok (h0 ++ map call_message (filter (for_session sid) cs))%list.
Proof.
  induction cs as [|c cs IH]; intros st Hm Hc Hinc Hread.
  - exists st. simpl. repeat split; try assumption.
    + exists []. rewrite app_nil_r. reflexivity.
    + intros sid h0 H. rewrite app_nil_r. exact H.
  - inversion Hread as [|? ? Hr Hrs]; subst.
    destruct (history_after_add (call_now c) (call_session c) (call_role c)
                (call_content c) (call_usage c) st Hm Hc Hinc Hr)
      as [st1 [Hadd [Hm1 [Hc1 [Hinc1 [[added1 Hrows1] Hhist1]]]]]].
    assert (Hc1' : has_columns ["title"; "id"] st1 = true)
      by (rewrite Hc1; exact Hc).
    destruct (IH st1 Hm1 Hc1' Hinc1 Hrs)
      as [st' [Hrun [Hm' [Hinc' [[added Hrows] Hhist]]]]].
    exists st'. simpl. unfold run_append. rewrite Hadd. simpl.
    repeat split; try assumption.
    + exists (added1 ++ added)%list. rewrite Hrows, Hrows1.
      rewrite app_assoc. reflexivity.
    + intros sid h0 H0.
      specialize (Hhist1 sid h0 H0). simpl in Hhist1.
      rewrite (Hhist sid _ Hhist1). f_equal.
      rewrite <- app_assoc. f_equal.
      destruct c as [cn csid cr cc cu]. unfold for_session. simpl.
      destruct (String.eqb csid sid); reflexivity.
Qed.

End DatabaseFacts.

(** ** Functions that do not write to [messages] *)

Lemma on_sessions_keeps_messages
    (f : sessions_table -> result sessions_table) (st st' : store) :
  on_sessions f st = Ok st' -> messages st' = messages st.
Proof.
  unfold on_sessions. destruct (sessions st) as [t|]; [|discriminate].
  destruct (f t) as [t'|]; simpl; [|discriminate].
  intros H. injection H as <-. reflexivity.
Qed.

Lemma create_session_keeps_messages (now sid title mode : string)
    (st st' : store) :
  create_session now sid title mode st = Ok st' ->
  message_rows st' = message_rows st.
Proof.
  intros H. apply on_sessions_keeps_messages in H.
  unfold message_rows. rewrite H. reflexivity.
Qed.

Lemma update_session_title_keeps_messages (sid title : string)
    (st st' : store) :
  update_session_title sid title st = Ok st' ->
  message_rows st' = message_rows st.
Proof.
  intros H. apply on_sessions_keeps_messages in H.
  unfold message_rows. rewrite H. reflexivity.
Qed.

Lemma update_session_image_keeps_messages (sid path : string)
    (st st' : store) :
  update_session_image sid path st = Ok st' ->
  message_rows st' = message_rows st.
Proof.
  unfold update_session_image.
  destruct (on_sessions _ st) as [st1|e] eqn:H1.
  - intros H. injection H as <-. apply on_sessions_keeps_messages in H1.
    unfold message_rows. rewrite H1. reflexivity.
  - destruct (is_class OperationalError e); [|discriminate].
    intros H. injection H as <-. reflexivity.
Qed.

Lemma update_session_mode_keeps_messages (sid mode : string)
    (st st' : store) :
  update_session_mode sid mode st = Ok st' ->
  message_rows st' = message_rows st.
Proof.
  unfold update_session_mode, message_rows.
  destruct (on_sessions (update_sessions "mode" (Some mode) sid) st)
    as [st1|e] eqn:H1.
  - intros H. injection H as <-. apply on_sessions_keeps_messages in H1.
    rewrite H1. reflexivity.
  - destruct (is_class OperationalError e); [|discriminate].
    destruct (on_sessions alter_add_mode st) as [st2|e2] eqn:H2.
    + apply on_sessions_keeps_messages in H2.
      destruct (on_sessions (update_sessions "mode" (Some mode) sid) st2)
        as [st3|e3] eqn:H3.
      * apply on_sessions_keeps_messages in H3.
        intros H. injection H as <-. rewrite H3, H2. reflexivity.
      * intros H. injection H as <-. rewrite H2. reflexivity.
    + intros H. injection H as <-. reflexivity.
Qed.

(** [delete_session] removes the rows of its session and no other. *)
Lemma delete_session_keeps_other_messages (denied : bool) (sid : string)
    (st st' : store) (fs fs' : file_system) (out : list string) :
  delete_session denied sid st fs = (Ok st', fs', out) ->
  message_rows st' =
  filter (fun m => negb (String.eqb (session_id m) sid)) (message_rows st).
Proof.
  unfold delete_session.
  destruct (sessions st) as [t|] eqn:Ht; [|discriminate].
  destruct (find _ _); [discriminate|].
  match goal with
  | |- context [let '(_, _) := ?X in _] => destruct X as [fs1 out1]
  end.
  intros H. injection H as H _ _.
  unfold delete_messages in H.
  unfold message_rows.
  destruct (messages st) as [mt|]; [|discriminate].
  simpl in H. apply on_sessions_keeps_messages in H. rewrite H.
  reflexivity.
Qed.

(** ** The history of a session *)

Section HistoryClaims.

Context {codec : JsonCodec}.

(** C4. A message appended with a non-empty usage mapping [u] is read back
    by [get_session_history] as the last message of its session with a
    usage equal to [u], hence equal in [prompt_tokens],
    [completion_tokens], [total_tokens], [latency] and [throughput].
    The store has the tables of [init_db], and the codec gives a
    non-empty text for [u] from which it reads [u] back. *)
Theorem usage_round_trip :
  forall (now sid rl body : string) (u : usage_dict) (st : store)
         (h0 : list chat_message),
    has_messages st = true ->
    has_columns ["title"; "id"] st = true ->
    ids_increasing st ->
    u <> [] ->
    json_dumps u <> "" ->
    json_loads (json_dumps u) = Ok u ->
    get_session_history sid st = Ok h0 ->
    exists st',
      add_message now sid rl body (Some u) st = Ok st' /\
      get_session_history sid st' =
      Ok (h0 ++ [{| msg_role := rl; msg_content := body;
                    msg_usage := Some u |}])%list.
Proof.
  intros now sid rl body u st h0 Hm Hc Hinc Hne Hd Hl H0.
  assert (Hread : readable (Some u)).
  { destruct u as [|kv d]; [contradiction|]. split; assumption. }
  destruct (history_after_add now sid rl body (Some u) st Hm Hc Hinc Hread)
    as [st' [Hadd [_ [_ [_ [_ Hhist]]]]]].
  exists st'. split; [exact Hadd|].
  rewrite (Hhist sid h0 H0). unfold for_session, call_message. simpl.
  rewrite String.eqb_refl. simpl.
  destruct u as [|kv d]; [contradiction|]. reflexivity.
Qed.

(** C7. After any sequence of [add_message] calls, [get_session_history]
    returns for every session the messages it had before followed by
    exactly the messages appended to it, in the order of the calls; the
    rows it reads have strictly increasing ids and are the rows of the
    session in insertion order; and the rows that existed before the
    calls are still there, unchanged, in front of the new ones. *)
Theorem history_is_insertion_order :
  forall (cs : list append_call) (st : store) (sid : string)
         (h0 : list chat_message),
    has_messages st = true ->
    has_columns ["title"; "id"] st = true ->
    ids_increasing st ->
    Forall (fun c => readable (call_usage c)) cs ->
    get_session_history sid st = Ok h0 ->
    exists st' added,
      run_appends cs st = Ok st' /\
      get_session_history sid st' =
        Ok (h0 ++ map call_message (filter (for_session sid) cs))%list /\
      message_rows st' = (message_rows st ++ added)%list /\
      select_messages sid st' =
        Ok (filter (fun m => String.eqb (session_id m) sid)
              (message_rows st')) /\
      StronglySorted Z.lt
        (map id (filter (fun m => String.eqb (session_id m) sid)
                   (message_rows st'))).
Proof.
  intros cs st sid h0 Hm Hc Hinc Hread H0.
  destruct (history_after_appends cs st Hm Hc Hinc Hread)
    as [st' [Hrun [Hm' [Hinc' [[added Hrows] Hhist]]]]].
  exists st', added. split; [exact Hrun|].
  split; [exact (Hhist sid h0 H0)|].
  split; [exact Hrows|].
  split; [exact (select_messages_increasing sid st' Hm' Hinc')|].
  apply increasing_filter. exact Hinc'.
Qed.

(** C10. [add_message] stores the JSON text of the usage mapping when the
    mapping is non-empty and NULL otherwise; a message appended with
    [None] or with the empty mapping is read back by
    [get_session_history] without a usage. *)
Theorem falsy_usage_is_not_stored :
  forall (now sid rl body : string) (usage : option usage_dict)
         (st : store) (h0 : list chat_message),
    has_messages st = true ->
    has_columns ["title"; "id"] st = true ->
    ids_increasing st ->
    get_session_history sid st = Ok h0 ->
    exists st' n,
      add_message now sid rl body usage st = Ok st' /\
      message_rows st' =
        (message_rows st ++
           [{| id := n; session_id := sid; role := rl; content := body;
               usage_data :=
                 match usage with
                 | Some (kv :: d) => Some (json_dumps (kv :: d))
                 | _ => None
                 end;
               timestamp := now |}])%list /\
      (truthy_usage usage = false ->
       get_session_history sid st' =
       Ok (h0 ++ [{| msg_role := rl; msg_content := body;
                     msg_usage := None |}])%list).
Proof.
  intros now sid rl body usage st h0 Hm Hc Hinc H0.
  destruct (add_message_spec now sid rl body usage st Hm Hc)
    as [st' [n [Hadd [Hfresh [Hrows [Hm' _]]]]]].
  exists st', n. split; [exact Hadd|]. split.
  - rewrite Hrows. unfold usage_json.
    destruct usage as [[|kv d]|]; reflexivity.
  - intros Hfalsy.
    assert (Hread : readable usage).
    { destruct usage as [[|kv d]|]; simpl; try exact I. discriminate. }
    destruct (history_after_add now sid rl body usage st Hm Hc Hinc Hread)
      as [st2 [Hadd2 [_ [_ [_ [_ Hhist]]]]]].
    rewrite Hadd in Hadd2. injection Hadd2 as <-.
    rewrite (Hhist sid h0 H0). unfold for_session, call_message. simpl.
    rewrite String.eqb_refl. simpl. rewrite Hfalsy. reflexivity.
Qed.

End HistoryClaims.

Lemma usage_round_trip_witness :
  exists st',
    @add_message sample_json "2024-01-01 10:00:03" "s1" "assistant" "OK"
      (Some sample_usage) one_session_store = Ok st' /\
    @get_session_history sample_json "s1" st' =
    Ok [{| msg_role := "assistant"; msg_content := "OK";
           msg_usage := Some sample_usage |}].
Proof.
  apply (@usage_round_trip sample_json "2024-01-01 10:00:03" "s1"
           "assistant" "OK" sample_usage one_session_store []).
  - reflexivity.
  - reflexivity.
  - unfold ids_increasing. simpl. constructor.
  - discriminate.
  - vm_compute. discriminate.
  - reflexivity.
  - reflexivity.
Defined.

Lemma history_is_insertion_order_witness :
  exists st' added,
    @run_appends sample_json sample_calls one_session_store = Ok st' /\
    @get_session_history sample_json "s1" st' =
      Ok ([] ++ map call_message
                  (filter (for_session "s1") sample_calls))%list /\
    message_rows st' = (message_rows one_session_store ++ added)%list /\
    select_messages "s1" st' =
      Ok (filter (fun m => String.eqb (session_id m) "s1")
            (message_rows st')) /\
    StronglySorted Z.lt
      (map id (filter (fun m => String.eqb (session_id m) "s1")
                 (message_rows st'))).
Proof.
  apply (@history_is_insertion_order sample_json sample_calls
           one_session_store "s1" []).
  - reflexivity.
  - reflexivity.
  - unfold ids_increasing. simpl. constructor.
  - repeat constructor. vm_compute. discriminate.
  - reflexivity.
Defined.

Lemma falsy_usage_is_not_stored_witness :
  exists st' n,
    @add_message sample_json "2024-01-01 10:00:01" "s1" "assistant" "OK"
      (Some []) one_session_store = Ok st' /\
    message_rows st' =
      (message_rows one_session_store ++
         [{| id := n; session_id := "s1"; role := "assistant";
             content := "OK"; usage_data := None;
             timestamp := "2024-01-01 10:00:01" |}])%list /\
    (@truthy_usage (Some []) = false ->
     @get_session_history sample_json "s1" st' =
     Ok ([] ++ [{| msg_role := "assistant"; msg_content := "OK";
                   msg_usage := None |}])%list).
Proof.
  apply (@falsy_usage_is_not_stored sample_json "2024-01-01 10:00:01" "s1"
           "assistant" "OK" (Some []) one_session_store []).
  - reflexivity.
  - reflexivity.
  - unfold ids_increasing. simpl. constructor.
  - reflexivity.
Defined.

(** ** Sessions *)

Lemma existsb_false_filter {A : Type} (p : A -> bool) (l : list A) :
  existsb p l = false -> filter p l = [].
Proof.
  induction l as [|x l IH]; simpl; [reflexivity|].
  destruct (p x); simpl; [discriminate|exact IH].
Qed.

Lemma existsb_true_filter {A : Type} (p : A -> bool) (l : list A) :
  existsb p l = true -> (1 <= List.length (filter p l))%nat.
Proof.
  induction l as [|x l IH]; simpl; [discriminate|].
  destruct (p x); simpl; [lia|exact IH].
Qed.

Lemma filter_map_keep {A : Type} (p : A -> bool) (g : A -> A) (l : list A) :
  (forall x, p (g x) = p x) ->
  filter p (map g l) = map g (filter p l).
Proof.
  intros H. induction l as [|x l IH]; simpl; [reflexivity|].
  rewrite H. destruct (p x); simpl; rewrite IH; reflexivity.
Qed.

Lemma has_columns_id_title_mode (st : store) :
  has_columns ["id"; "title"; "mode"] st = true ->
  exists t, sessions st = Some t /\
            has_column "id" t = true /\ has_column "title" t = true /\
            has_column "mode" t = true.
Proof.
  unfold has_columns. destruct (sessions st) as [t|]; [|discriminate].
  simpl. rewrite !andb_true_iff. intros [H1 [H2 [H3 _]]]. eauto 6.
Qed.

(** C6. On a store whose [sessions] relation has the columns the
    statement names and the primary key [id], [create_session] called
    twice with the same id raises nothing, the second call returns the
    store of the first one unchanged, whatever title and mode it is
    given, and exactly one Session record has that id. *)
Theorem create_session_idempotent :
  forall (now1 now2 sid title1 mode1 title2 mode2 : string) (st : store),
    has_columns ["id"; "title"; "mode"] st = true ->
    primary_key st ->
    exists st1,
      create_session now1 sid title1 mode1 st = Ok st1 /\
      create_session now2 sid title2 mode2 st1 = Ok st1 /\
      session_count sid st1 = 1%nat.
Proof.
  intros now1 now2 sid title1 mode1 title2 mode2 st Hc Hpk.
  destruct (has_columns_id_title_mode st Hc) as [t [Ht [Hid [Htitle Hmode]]]].
  specialize (Hpk sid). unfold session_count, session_rows in Hpk.
  rewrite Ht in Hpk.
  unfold create_session, on_sessions, insert_or_ignore_session.
  rewrite Ht. simpl. rewrite Hid, Htitle, Hmode. simpl.
  destruct (existsb (fun r => sql_eq (r "id") sid) (rows t)) eqn:Hex; simpl.
  - eexists. split; [reflexivity|]. simpl.
    rewrite Hid, Htitle, Hmode. simpl. rewrite Hex. simpl.
    split; [reflexivity|].
    unfold session_count, session_rows. simpl.
    apply existsb_true_filter in Hex. lia.
  - eexists. split; [reflexivity|]. simpl.
    unfold has_column at 1 2 3. simpl.
    fold (has_column "id" t) (has_column "title" t) (has_column "mode" t).
    rewrite Hid, Htitle, Hmode. simpl.
    rewrite existsb_app. simpl.
    unfold new_row at 1. simpl. rewrite String.eqb_refl.
    rewrite orb_true_r. simpl.
    split; [reflexivity|].
    unfold session_count, session_rows. simpl.
    rewrite filter_app, (existsb_false_filter _ _ Hex). simpl.
    unfold new_row at 1. simpl. rewrite String.eqb_refl. reflexivity.
Qed.

Lemma create_session_idempotent_witness :
  exists st1,
    create_session "2024-01-01 10:00:00" "s1" DEFAULT_TITLE DEFAULT_MODE
      fresh_store = Ok st1 /\
    create_session "2024-01-01 10:05:00" "s1" "Pump" "Safety Audit" st1
      = Ok st1 /\
    session_count "s1" st1 = 1%nat.
Proof.
  apply (create_session_idempotent "2024-01-01 10:00:00"
           "2024-01-01 10:05:00" "s1" DEFAULT_TITLE DEFAULT_MODE
           "Pump" "Safety Audit" fresh_store).
  - reflexivity.
  - intros sid. unfold session_count, session_rows. simpl. lia.
Defined.

(** ** Automatic title *)

Section TitleClaims.

Context {codec : JsonCodec}.

Lemma title_after_user_message (now sid body : string)
    (usage : option usage_dict) (st : store) :
  has_messages st = true ->
  has_columns ["title"; "id"] st = true ->
  exists st1,
    add_message now sid "user" body usage st = Ok st1 /\
    has_messages st1 = true /\
    has_columns ["title"; "id"] st1 = true /\
    session_title sid st1 =
      match session_title sid st with
      | Some c =>
          Some (if sql_eq c "New Inspection"
                then Some (auto_title body) else c)
      | None => None
      end.
Proof.
  intros Hm Hc.
  destruct (add_message_spec now sid "user" body usage st Hm Hc)
    as [st1 [n [Hadd [_ [_ [Hm1 Hc1]]]]]].
  exists st1. split; [exact Hadd|]. split; [exact Hm1|].
  split; [rewrite Hc1; exact Hc|].
  apply has_columns_title_id in Hc.
  destruct Hc as [t [Ht [Htitle Hid]]].
  unfold has_messages in Hm.
  unfold add_message, insert_message in Hadd.
  destruct (messages st) as [mt|]; [|discriminate].
  simpl in Hadd. unfold on_sessions, update_title_if_default in Hadd.
  simpl in Hadd. rewrite Ht, Htitle, Hid in Hadd. simpl in Hadd.
  injection Hadd as <-.
  unfold session_title, session_rows. simpl. rewrite Ht.
  rewrite filter_map_keep.
  - destruct (filter (fun r => sql_eq (r "id") sid) (rows t)) as [|r l] eqn:Hf;
      simpl; [reflexivity|].
    assert (Hr : sql_eq (r "id") sid = true).
    { assert (Hin : In r (filter (fun r => sql_eq (r "id") sid) (rows t)))
        by (rewrite Hf; left; reflexivity).
      apply filter_In in Hin. tauto. }
    rewrite Hr. simpl.
    destruct (sql_eq (r "title") "New Inspection"); reflexivity.
  - intros r.
    destruct (sql_eq (r "id") sid && sql_eq (r "title") "New Inspection");
      reflexivity.
Qed.

(** C3, amended. Appending a user message to a session whose title is
    still "New Inspection" sets the title to the first 30 characters of
    the content followed by "..." when the content has more than 30
    characters, and to the content itself otherwise. Unless that new
    title is itself "New Inspection", a second user message leaves it
    as it is. *)
Theorem first_user_message_names_session :
  forall (now sid body : string) (usage : option usage_dict) (st : store),
    has_messages st = true ->
    has_columns ["title"; "id"] st = true ->
    session_title sid st = Some (Some "New Inspection") ->
    exists st1,
      add_message now sid "user" body usage st = Ok st1 /\
      session_title sid st1 = Some (Some (auto_title body)) /\
      ((30 < len body)%nat ->
       auto_title body = slice_to 30 body ++ "...") /\
      ((len body <= 30)%nat -> auto_title body = body) /\
      (forall cs : list N,
         body = utf8 cs ->
         auto_title body =
         utf8 (if (30 <? List.length cs)%nat
               then (firstn 30 cs ++ [46; 46; 46]%N)%list
               else cs)) /\
      (auto_title body <> "New Inspection" ->
       forall (now2 body2 : string) (usage2 : option usage_dict),
       exists st2,
         add_message now2 sid "user" body2 usage2 st1 = Ok st2 /\
         session_title sid st2 = Some (Some (auto_title body))).
Proof.
  intros now sid body usage st Hm Hc Htitle.
  destruct (title_after_user_message now sid body usage st Hm Hc)
    as [st1 [Hadd [Hm1 [Hc1 Ht1]]]].
  rewrite Htitle in Ht1. simpl in Ht1.
  exists st1. split; [exact Hadd|]. split; [exact Ht1|].
  split; [|split; [|split]].
  - intros Hlen. unfold auto_title.
    destruct (Nat.ltb_spec 30 (len body)); [reflexivity|lia].
  - intros Hlen. unfold auto_title.
    destruct (Nat.ltb_spec 30 (len body)); [lia|reflexivity].
  - intros cs ->. apply auto_title_utf8.
  - intros Hne now2 body2 usage2.
    destruct (title_after_user_message now2 sid body2 usage2 st1 Hm1 Hc1)
      as [st2 [Hadd2 [_ [_ Ht2]]]].
    exists st2. split; [exact Hadd2|].
    rewrite Ht2, Ht1. simpl.
    destruct (String.eqb_spec (auto_title body) "New Inspection");
      [contradiction|reflexivity].
Qed.

End TitleClaims.

Lemma first_user_message_names_session_witness :
  exists st1,
    @add_message sample_json "2024-01-01 10:00:01" "s1" "user"
      "Check the bearing for wear please, it squeaks loudly" None
      one_session_store = Ok st1 /\
    session_title "s1" st1 =
      Some (Some (auto_title
                    "Check the bearing for wear please, it squeaks loudly")) /\
    ((30 < len "Check the bearing for wear please, it squeaks loudly")%nat ->
     auto_title "Check the bearing for wear please, it squeaks loudly" =
     slice_to 30 "Check the bearing for wear please, it squeaks loudly"
       ++ "...") /\
    ((len "Check the bearing for wear please, it squeaks loudly" <= 30)%nat ->
     auto_title "Check the bearing for wear please, it squeaks loudly" =
     "Check the bearing for wear please, it squeaks loudly") /\
    (forall cs : list N,
       "Check the bearing for wear please, it squeaks loudly" = utf8 cs ->
       auto_title "Check the bearing for wear please, it squeaks loudly" =
       utf8 (if (30 <? List.length cs)%nat
             then (firstn 30 cs ++ [46; 46; 46]%N)%list
             else cs)) /\
    (auto_title "Check the bearing for wear please, it squeaks loudly"
       <> "New Inspection" ->
     forall (now2 body2 : string) (usage2 : option usage_dict),
     exists st2,
       @add_message sample_json now2 "s1" "user" body2 usage2 st1 = Ok st2 /\
       session_title "s1" st2 =
         Some (Some (auto_title
                 "Check the bearing for wear please, it squeaks loudly"))).
Proof.
  apply (@first_user_message_names_session sample_json
           "2024-01-01 10:00:01" "s1"
           "Check the bearing for wear please, it squeaks loudly" None
           one_session_store).
  - reflexivity.
  - reflexivity.
  - reflexivity.
Defined.

(** C3 as stated fails: when the first user message is the text
    "New Inspection", the title it sets is the default again and the
    second user message renames the session. *)
Lemma second_user_message_renames_again :
  (st1 <- @add_message sample_json "2024-01-01 10:00:01" "s1" "user"
            "New Inspection" None one_session_store ;;
   st2 <- @add_message sample_json "2024-01-01 10:00:09" "s1" "user"
            "Check the bearing" None st1 ;;
   Ok (session_title "s1" one_session_store,
       session_title "s1" st1, session_title "s1" st2))
  = Ok (Some (Some "New Inspection"),
        Some (Some "New Inspection"),
        Some (Some "Check the bearing")).
Proof. reflexivity. Qed.

(** ** Missing columns *)

Lemma has_column_added (c : string) (d : default_clause)
    (cols : list column) (rs : list row) :
  has_column c {| columns := cols ++ [{| col_name := c; col_default := d |}];
                  rows := rs |} = true.
Proof.
  unfold has_column. simpl. rewrite existsb_app. simpl.
  rewrite String.eqb_refl. rewrite orb_true_r. reflexivity.
Qed.

Lemma has_column_kept (c c' : string) (d : default_clause)
    (t : sessions_table) (rs : list row) :
  has_column c {| columns := columns t ++
                    [{| col_name := c'; col_default := d |}];
                  rows := rs |} =
  has_column c t || String.eqb c' c.
Proof.
  unfold has_column. simpl. rewrite existsb_app. simpl.
  rewrite orb_false_r. reflexivity.
Qed.

(** [update_session_mode] catches whatever its statements raise, also on
    a file without [sessions]. *)
Lemma update_session_mode_never_raises (sid v : string) (st : store) :
  exists st', update_session_mode sid v st = Ok st'.
Proof.
  unfold update_session_mode, on_sessions, update_sessions, alter_add_mode.
  destruct (sessions st) as [t|]; simpl; [|eexists; reflexivity].
  destruct (has_column "mode" t) eqn:Hmode; simpl.
  - destruct (has_column "id" t); simpl; eexists; reflexivity.
  - rewrite has_column_added, has_column_kept. simpl.
    destruct (has_column "id" t); simpl; eexists; reflexivity.
Qed.

(** C2, amended. Only [update_session_mode] migrates the file. When the
    [mode] column is missing it adds the column, which gives every
    existing row the mode "General Analysis", and runs the update once
    more; when that second update fails too (no [id] column) it keeps the
    added column and returns without an error, and in no case does it
    raise. [update_session_image] adds nothing and does not retry: a
    missing [image_path] column leaves the store as it was, without an
    error. [update_session_title] has no tolerance: a missing [title]
    column raises the operational error. *)
Theorem schema_evolution_tolerance :
  forall (sid v : string) (st : store) (t : sessions_table),
    sessions st = Some t ->
    (has_column "mode" t = false -> has_column "id" t = true ->
     update_session_mode sid v st =
     Ok {| sessions :=
             Some {| columns := columns t ++
                       [{| col_name := "mode";
                           col_default := DefaultText "General Analysis" |}];
                     rows :=
                       map (fun r =>
                              if sql_eq (r "id") sid
                              then row_set "mode" (Some v)
                                     (row_set "mode"
                                        (Some "General Analysis") r)
                              else row_set "mode"
                                     (Some "General Analysis") r)
                           (rows t) |};
           messages := messages st |}) /\
    (has_column "mode" t = false -> has_column "id" t = false ->
     update_session_mode sid v st =
     Ok {| sessions :=
             Some {| columns := columns t ++
                       [{| col_name := "mode";
                           col_default := DefaultText "General Analysis" |}];
                     rows :=
                       map (row_set "mode" (Some "General Analysis"))
                           (rows t) |};
           messages := messages st |}) /\
    (exists st', update_session_mode sid v st = Ok st') /\
    (has_column "image_path" t = false ->
     update_session_image sid v st = Ok st) /\
    (has_column "title" t = false ->
     update_session_title sid v st = Raise (no_such_column "title")).
Proof.
  intros sid v st t Ht.
  split; [|split; [|split; [|split]]].
  - intros Hmode Hid.
    unfold update_session_mode, on_sessions, update_sessions, alter_add_mode.
    rewrite Ht. simpl. rewrite Hmode. simpl.
    rewrite has_column_added, has_column_kept, Hid. simpl.
    rewrite map_map. reflexivity.
  - intros Hmode Hid.
    unfold update_session_mode, on_sessions, update_sessions, alter_add_mode.
    rewrite Ht. simpl. rewrite Hmode. simpl.
    rewrite has_column_added, has_column_kept, Hid. simpl.
    reflexivity.
  - apply update_session_mode_never_raises.
  - intros Himg.
    unfold update_session_image, on_sessions, update_sessions.
    rewrite Ht. simpl. rewrite Himg. reflexivity.
  - intros Htitle.
    unfold update_session_title, on_sessions, update_sessions.
    rewrite Ht. simpl. rewrite Htitle. reflexivity.
Qed.

Lemma schema_evolution_tolerance_witness :
  update_session_mode "s1" "Safety Audit" legacy_store =
  Ok {| sessions :=
          Some {| columns := columns legacy_sessions ++
                    [{| col_name := "mode";
                        col_default := DefaultText "General Analysis" |}];
                  rows :=
                    map (fun r =>
                           if sql_eq (r "id") "s1"
                           then row_set "mode" (Some "Safety Audit")
                                  (row_set "mode"
                                     (Some "General Analysis") r)
                           else row_set "mode"
                                  (Some "General Analysis") r)
                        (rows legacy_sessions) |};
        messages := messages legacy_store |} /\
  update_session_image "s1" "frontend/assets/s1.png" legacy_store
    = Ok legacy_store.
Proof.
  destruct (schema_evolution_tolerance "s1" "Safety Audit" legacy_store
              legacy_sessions eq_refl) as [Hmode _].
  destruct (schema_evolution_tolerance "s1" "frontend/assets/s1.png"
              legacy_store legacy_sessions eq_refl)
    as [_ [_ [_ [Himg _]]]].
  split.
  - apply Hmode; reflexivity.
  - apply Himg; reflexivity.
Defined.

(** C2 as stated fails for two of the three functions: on a file without
    [image_path], [update_session_image] returns with the column still
    missing, and on a file without [title], [update_session_title]
    raises. *)
Lemma missing_columns_are_not_added :
  update_session_image "s1" "frontend/assets/s1.png" legacy_store
    = Ok legacy_store /\
  has_columns ["image_path"] legacy_store = false /\
  update_session_title "s1" "Pump" untitled_store
    = Raise (Exception OperationalError "no such column: title") /\
  has_columns ["title"] untitled_store = false.
Proof. repeat split. Qed.

(** ** The list of sessions *)

Lemma cell_leb_total (a b : cell) :
  cell_leb a b = false -> cell_leb b a = true.
Proof.
  destruct a as [x|], b as [y|]; simpl; try reflexivity; try discriminate.
  intros H. destruct (String.leb_total x y) as [H1|H1]; [congruence|exact H1].
Qed.

Lemma insert_by_created_desc_sorted (r : row) (l : list row) :
  Sorted (fun a b => cell_leb (b "created_at") (a "created_at") = true) l ->
  Sorted (fun a b => cell_leb (b "created_at") (a "created_at") = true)
         (insert_by_created_desc r l).
Proof.
  induction l as [|x l IH]; simpl; intros H.
  - constructor; constructor.
  - destruct (cell_leb (x "created_at") (r "created_at")) eqn:Hx.
    + constructor; [exact H|]. constructor. exact Hx.
    + apply Sorted_inv in H. destruct H as [Hs Hh].
      constructor; [auto|].
      destruct l as [|y l]; simpl.
      * constructor. apply cell_leb_total. exact Hx.
      * destruct (cell_leb (y "created_at") (r "created_at")).
        -- constructor. apply cell_leb_total. exact Hx.
        -- constructor. inversion Hh; assumption.
Qed.

Lemma sort_by_created_desc_sorted (l : list row) :
  Sorted (fun a b => cell_leb (b "created_at") (a "created_at") = true)
         (sort_by_created_desc l).
Proof.
  unfold sort_by_created_desc. induction l as [|x l IH]; simpl.
  - constructor.
  - apply insert_by_created_desc_sorted. exact IH.
Qed.

Lemma insert_by_created_desc_in (r x : row) (l : list row) :
  In x (insert_by_created_desc r l) -> x = r \/ In x l.
Proof.
  induction l as [|y l IH]; simpl.
  - intros [H|[]]; left; symmetry; exact H.
  - destruct (cell_leb (y "created_at") (r "created_at")); simpl.
    + intros [H|H]; [left; symmetry; exact H|right; exact H].
    + intros [H|H]; [right; left; exact H|].
      destruct (IH H) as [H1|H1]; [left; exact H1|right; right; exact H1].
Qed.

Lemma sort_by_created_desc_in (x : row) (l : list row) :
  In x (sort_by_created_desc l) -> In x l.
Proof.
  unfold sort_by_created_desc. induction l as [|y l IH]; simpl; [tauto|].
  intros H. apply insert_by_created_desc_in in H.
  destruct H as [->|H]; [left; reflexivity|right; apply IH; exact H].
Qed.

Lemma distinct_in (cols : list column) (x : row) (l : list row) :
  In x (distinct cols l) -> In x l.
Proof.
  induction l as [|y l IH]; simpl; [tauto|].
  intros [H|H]; [left; exact H|].
  apply filter_In in H. right. apply IH. tauto.
Qed.

Lemma left_join_in (ss : list row) (ms : list message) (s : row)
    (m : option message) :
  In (s, m) (left_join ss ms) ->
  In s ss /\
  match m with
  | Some x => In x ms /\ sql_eq (s "id") (session_id x) = true
  | None => True
  end.
Proof.
  unfold left_join. rewrite in_flat_map. intros [s0 [Hs0 Hin]].
  destruct (filter (fun m => sql_eq (s0 "id") (session_id m)) ms)
    as [|y l] eqn:Hf.
  - destruct Hin as [H|[]]. injection H as <- <-. split; [exact Hs0|exact I].
  - rewrite <- Hf in Hin. rewrite in_map_iff in Hin.
    destruct Hin as [x [Hx Hin]]. injection Hx as <- <-.
    apply filter_In in Hin. split; [exact Hs0|exact Hin].
Qed.

Lemma field_row_dict (c : string) (t : sessions_table) (r : row) :
  has_column c t = true -> field c (row_dict t r) = r c.
Proof.
  unfold has_column, field, dict_get, row_dict.
  induction (columns t) as [|k cols IH]; simpl; [discriminate|].
  destruct (String.eqb_spec (col_name k) c) as [->|Hne]; simpl.
  - reflexivity.
  - exact IH.
Qed.

Lemma sorted_map {A B : Type} (R : A -> A -> Prop) (R' : B -> B -> Prop)
    (f : A -> B) (l : list A) :
  (forall a b, R a b -> R' (f a) (f b)) ->
  Sorted R l -> Sorted R' (map f l).
Proof.
  intros Hf. induction 1 as [|a l Hs IH Hh]; simpl; constructor.
  - exact IH.
  - destruct Hh; simpl; constructor. apply Hf. assumption.
Qed.

Lemma current_schema_columns (st : store) :
  current_schema st = true ->
  exists t m,
    sessions st = Some t /\ messages st = Some m /\
    has_column "id" t = true /\ has_column "title" t = true /\
    has_column "image_path" t = true /\ has_column "mode" t = true /\
    has_column "created_at" t = true.
Proof.
  unfold current_schema, has_columns, has_messages.
  destruct (sessions st) as [t|]; [|discriminate].
  destruct (messages st) as [m|]; [|rewrite andb_false_r; discriminate].
  simpl. rewrite !andb_true_iff.
  intros [[H1 [H2 [H3 [H4 [H5 _]]]]] _]. exists t, m. tauto.
Qed.

Lemma sql_eq_true (a : cell) (v : string) :
  sql_eq a v = true -> a = Some v.
Proof.
  destruct a as [x|]; simpl; [|discriminate].
  intros H. apply String.eqb_eq in H. congruence.
Qed.

Lemma listed_row (ss : list row) (ms : list message) (r : row) :
  In r (map fst (filter listed (left_join ss ms))) ->
  In r ss /\
  ((exists m, In m ms /\ r "id" = Some (session_id m)) \/
   r "image_path" <> None \/
   (exists title, r "title" = Some title /\ title <> "New Inspection")).
Proof.
  rewrite in_map_iff. intros [[s m] [Hfst Hin]]. simpl in Hfst. subst s.
  apply filter_In in Hin. destruct Hin as [Hjoin Hlisted].
  apply left_join_in in Hjoin. destruct Hjoin as [Hr Hm].
  split; [exact Hr|].
  unfold listed in Hlisted.
  destruct m as [x|].
  - left. exists x. destruct Hm as [Hx Heq].
    split; [exact Hx|]. apply sql_eq_true. exact Heq.
  - simpl in Hlisted.
    destruct (r "image_path") as [p|] eqn:Himg.
    + right. left. discriminate.
    + simpl in Hlisted. right. right.
      destruct (r "title") as [title|] eqn:Htitle; [|discriminate].
      exists title. split; [reflexivity|].
      destruct (String.eqb_spec title "New Inspection"); [discriminate|].
      assumption.
Qed.

(** C9. On a store with the schema of [init_db], [get_all_sessions]
    returns Session records of the store ordered by [created_at] from
    the newest to the oldest; every one of them has a message, or an
    image path, or a title other than "New Inspection"; none of them
    has the default title, no image path and no message. *)
Theorem get_all_sessions_hides_unused :
  forall st : store,
    current_schema st = true ->
    exists ds,
      get_all_sessions st = Ok ds /\
      Sorted (fun a b =>
                cell_leb (field "created_at" b) (field "created_at" a) = true)
             ds /\
      forall d, In d ds ->
        In d (session_dicts st) /\
        ((exists m, In m (message_rows st) /\
                    field "id" d = Some (session_id m)) \/
         field "image_path" d <> None \/
         (exists title, field "title" d = Some title /\
                        title <> "New Inspection")) /\
        ~ (field "title" d = Some "New Inspection" /\
           field "image_path" d = None /\
           forall m, In m (message_rows st) ->
                     field "id" d <> Some (session_id m)).
Proof.
  intros st Hs.
  destruct (current_schema_columns st Hs)
    as [t [mt [Ht [Hmt [Hid [Htitle [Himg [_ Hcreated]]]]]]]].
  unfold get_all_sessions, select_all_sessions, session_dicts, message_rows.
  rewrite Ht, Hmt. simpl. rewrite Hid, Himg, Htitle, Hcreated. simpl.
  eexists. split; [reflexivity|]. split.
  - apply (sorted_map
             (fun a b => cell_leb (b "created_at") (a "created_at") = true)).
    + intros a b H. rewrite !(field_row_dict "created_at" t) by exact Hcreated.
      exact H.
    + apply sort_by_created_desc_sorted.
  - intros d Hd. rewrite in_map_iff in Hd. destruct Hd as [r [<- Hr]].
    apply sort_by_created_desc_in, distinct_in, listed_row in Hr.
    destruct Hr as [Hin Hused].
    rewrite (field_row_dict "id" t r Hid).
    rewrite (field_row_dict "image_path" t r Himg).
    rewrite (field_row_dict "title" t r Htitle).
    split; [apply in_map; exact Hin|]. split; [exact Hused|].
    intros [Hdefault [Hnoimg Hnomsg]].
    destruct Hused as [[m [Hm Heq]]|[Himage|[title [Heq Hne]]]].
    + exact (Hnomsg m Hm Heq).
    + exact (Himage Hnoimg).
    + rewrite Heq in Hdefault. injection Hdefault as ->.
      apply Hne. reflexivity.
Qed.

Lemma get_all_sessions_hides_unused_witness :
  exists ds,
    get_all_sessions archive_store = Ok ds /\
    Sorted (fun a b =>
              cell_leb (field "created_at" b) (field "created_at" a) = true)
           ds /\
    forall d, In d ds ->
      In d (session_dicts archive_store) /\
      ((exists m, In m (message_rows archive_store) /\
                  field "id" d = Some (session_id m)) \/
       field "image_path" d <> None \/
       (exists title, field "title" d = Some title /\
                      title <> "New Inspection")) /\
      ~ (field "title" d = Some "New Inspection" /\
         field "image_path" d = None /\
         forall m, In m (message_rows archive_store) ->
                   field "id" d <> Some (session_id m)).
Proof.
  apply (get_all_sessions_hides_unused archive_store).
  reflexivity.
Defined.

(** The archive of the example: the renamed session first, then the one
    with a message; the unused one is not listed. *)
Lemma archive_store_listing :
  match get_all_sessions archive_store with
  | Ok ds => map (field "id") ds
  | Raise _ => []
  end = [Some "s3"; Some "s1"].
Proof. reflexivity. Qed.

(** ** The gateway client *)

Lemma float_gt_zero_not_zero (x : float) :
  float_gt_zero x = true -> is_float_zero x = false.
Proof.
  destruct x as [s|s| |s m e]; simpl; try reflexivity.
  unfold float_gt_zero, SFltb. simpl. discriminate.
Qed.

Lemma tokens_per_second_positive (n : Z) (l : float) :
  float_gt_zero l = true ->
  tokens_per_second n l =
  (a <- float_of_int n ;; Ok (PyFloat (round2 (SFdiv prec emax a l)))).
Proof.
  intros H. unfold tokens_per_second, truediv. rewrite H.
  rewrite (float_gt_zero_not_zero l H).
  destruct (float_of_int n); reflexivity.
Qed.

Lemma float_of_int_raises (n : Z) (e : exn) :
  float_of_int n = Raise e -> exc_type e = OverflowError.
Proof.
  unfold float_of_int.
  destruct (binary_normalize prec emax n 0 false); try discriminate.
  intros H. injection H as <-. reflexivity.
Qed.

Lemma round_half_even_near (n d : Z) :
  0 <= n -> 0 < d ->
  0 <= round_half_even n d /\
  - d <= 2 * n - 2 * d * round_half_even n d <= d.
Proof.
  intros Hn Hd. unfold round_half_even.
  pose proof (Z.div_mod n d ltac:(lia)) as Hdm.
  pose proof (Z.mod_pos_bound n d Hd) as Hm.
  assert (Hq : 0 <= n / d) by (apply Z.div_pos; lia).
  destruct (Z.compare_spec (2 * (n mod d)) d) as [H|H|H].
  - destruct (Z.even (n / d)); split; nia.
  - split; nia.
  - split; nia.
Qed.

(** [round2] rounds to two decimals. *)
Lemma round2_is_rounding (x : float) : rounded_to_2_decimals x (round2 x).
Proof.
  unfold rounded_to_2_decimals.
  destruct x as [s|s| |s m e]; cbn [float_value round2]; try reflexivity.
  - exists 0. split; [vm_compute; discriminate|].
    right. exists 0%Q. split; reflexivity.
  - destruct (Z.leb_spec 0 e) as [He|He].
    + set (z := Z.pos m * 2 ^ e).
      exists (100 * (if s then - z else z)). split.
      * apply Qabs_Qle_condition.
        assert (E : (100 * (if s then - inject_Z z else inject_Z z)
                     - inject_Z (100 * (if s then - z else z)) == 0)%Q).
        { destruct s; rewrite inject_Z_mult; try rewrite inject_Z_opp;
            change (inject_Z 100) with 100%Q; ring. }
        rewrite E. split; vm_compute; discriminate.
      * right. exists (if s then (- inject_Z z)%Q else inject_Z z).
        split.
        { cbn [float_value]. destruct (Z.leb_spec 0 e); [reflexivity|lia]. }
        { destruct s; rewrite inject_Z_mult; try rewrite inject_Z_opp;
            change (inject_Z 100) with 100%Q; field. }
    + assert (Hd : 0 < 2 ^ (- e)) by (apply Z.pow_pos_nonneg; lia).
      destruct (round_half_even_near (Z.pos m * 100) (2 ^ (- e))
                  ltac:(lia) Hd) as [Hk Hnear].
      set (k := round_half_even (Z.pos m * 100) (2 ^ (- e))) in *.
      exists (if s then - k else k). split.
      * apply Qabs_Qle_condition.
        unfold Qle, Qminus, Qplus, Qmult, Qopp, inject_Z.
        destruct s; cbn [Qnum Qden];
          rewrite ?Pos2Z.inj_mul, ?Z2Pos.id by exact Hd; split; nia.
      * destruct k as [|p|p] eqn:Ek.
        { right. exists 0%Q. split; [reflexivity|].
          destruct s; reflexivity. }
        { left. destruct s; reflexivity. }
        { lia. }
Qed.

Lemma chat_attempt_metrics (x : exchange) (req : chat_request)
    (r : Schemas.ChatResponse) :
  chat_attempt x req = Ok r ->
  Schemas.latency (Schemas.usage r) =
    round2 (SFsub prec emax (end_time x) (start_time x)) /\
  exists tps,
    tokens_per_second (Schemas.total_tokens (Schemas.usage r))
      (Schemas.latency (Schemas.usage r)) = Ok tps /\
    Schemas.float_field tps = Ok (Schemas.throughput (Schemas.usage r)).
Proof.
  unfold chat_attempt.
  destruct (post x req) as [resp|]; simpl; [|discriminate].
  destruct (status_code resp =? 200); simpl; [|discriminate].
  destruct (json resp) as [data|]; simpl; [|discriminate].
  destruct (extract_content data) as [c|]; simpl; [|discriminate].
  destruct (tokens_per_second _ _) as [tps|] eqn:Htps; simpl; [|discriminate].
  destruct (Schemas.float_field tps) as [thr|] eqn:Hthr; simpl;
    [|discriminate].
  intros H. injection H as <-. simpl.
  split; [reflexivity|]. exists tps. split; assumption.
Qed.

(** C5. In every reply [chat_with_industrial_ai] returns, [latency] is
    the difference of the two clock readings rounded to two decimals;
    [throughput] is [total_tokens / latency] rounded to two decimals
    when [latency > 0] and zero otherwise. Rounded to two decimals: the
    result is [k / 100] as a float for a whole number [k] of hundredths
    no further than one half from one hundred times the value rounded.
    100 tokens in 2.0 seconds give 50.0; a latency of zero, or any
    latency that is not positive, gives 0; and the computation never
    raises a division by zero: all it can raise is the overflow of a
    token count too large for a float. *)
Theorem throughput_computation :
  (forall (x : exchange) (req : chat_request) (r : Schemas.ChatResponse),
     chat_with_industrial_ai x req = Ok r ->
     Schemas.latency (Schemas.usage r) =
       round2 (SFsub prec emax (end_time x) (start_time x)) /\
     rounded_to_2_decimals (SFsub prec emax (end_time x) (start_time x))
       (Schemas.latency (Schemas.usage r)) /\
     (float_gt_zero (Schemas.latency (Schemas.usage r)) = true ->
      exists q,
        truediv (Schemas.total_tokens (Schemas.usage r))
          (Schemas.latency (Schemas.usage r)) = Ok q /\
        Schemas.throughput (Schemas.usage r) = round2 q /\
        rounded_to_2_decimals q (Schemas.throughput (Schemas.usage r))) /\
     (float_gt_zero (Schemas.latency (Schemas.usage r)) = false ->
      Schemas.throughput (Schemas.usage r) = float_zero)) /\
  tokens_per_second 100 two = Ok (PyFloat fifty) /\
  (forall n : Z, tokens_per_second n float_zero = Ok (PyInt 0)) /\
  (forall (n : Z) (l : float),
     float_gt_zero l = false -> tokens_per_second n l = Ok (PyInt 0)) /\
  (forall (n : Z) (l : float) (e : exn),
     tokens_per_second n l = Raise e -> exc_type e = OverflowError).
Proof.
  split; [|split; [|split; [|split]]].
  - intros x req r H. unfold chat_with_industrial_ai in H.
    destruct (chat_attempt x req) as [r'|] eqn:Hr; [|discriminate].
    injection H as <-.
    destruct (chat_attempt_metrics x req r' Hr) as [Hl [tps [Htps Hthr]]].
    split; [exact Hl|]. split; [rewrite Hl; apply round2_is_rounding|].
    split.
    + intros Hpos. unfold tokens_per_second in Htps. rewrite Hpos in Htps.
      destruct (truediv _ _) as [q|]; simpl in Htps; [|discriminate].
      injection Htps as <-. simpl in Hthr. injection Hthr as <-.
      exists q. split; [reflexivity|].
      split; [reflexivity|apply round2_is_rounding].
    + intros Hneg. unfold tokens_per_second in Htps. rewrite Hneg in Htps.
      injection Htps as <-. simpl in Hthr. injection Hthr as <-.
      reflexivity.
  - reflexivity.
  - intros n. reflexivity.
  - intros n l H. unfold tokens_per_second. rewrite H. reflexivity.
  - intros n l e. unfold tokens_per_second.
    destruct (float_gt_zero l) eqn:Hl; [|discriminate].
    unfold truediv. rewrite (float_gt_zero_not_zero l Hl).
    destruct (float_of_int n) as [a|e'] eqn:Ha; simpl; [discriminate|].
    intros H. injection H as <-. exact (float_of_int_raises n e' Ha).
Qed.

(** 100 tokens in 3.004 seconds: the latency is 3.0 and the throughput
    33.33. *)
Lemma throughput_computation_witness :
  chat_with_industrial_ai slow_exchange sample_request = Ok slow_response /\
  Schemas.latency (Schemas.usage slow_response) =
    round2 (SFsub prec emax (end_time slow_exchange)
              (start_time slow_exchange)) /\
  rounded_to_2_decimals
    (SFsub prec emax (end_time slow_exchange) (start_time slow_exchange))
    (Schemas.latency (Schemas.usage slow_response)) /\
  (float_gt_zero (Schemas.latency (Schemas.usage slow_response)) = true ->
   exists q,
     truediv (Schemas.total_tokens (Schemas.usage slow_response))
       (Schemas.latency (Schemas.usage slow_response)) = Ok q /\
     Schemas.throughput (Schemas.usage slow_response) = round2 q /\
     rounded_to_2_decimals q
       (Schemas.throughput (Schemas.usage slow_response))) /\
  (float_gt_zero (Schemas.latency (Schemas.usage slow_response)) = false ->
   Schemas.throughput (Schemas.usage slow_response) = float_zero).
Proof.
  split.
  - vm_compute. reflexivity.
  - apply (proj1 throughput_computation slow_exchange sample_request
             slow_response).
    vm_compute. reflexivity.
Defined.

Lemma non_success_status_raises (x : exchange) (req : chat_request)
    (resp : response) :
  post x req = Ok resp ->
  status_code resp <> 200 ->
  chat_with_industrial_ai x req =
  Raise (Exception RuntimeError
           ("Connection failed: API Error: " ++ text resp)).
Proof.
  intros Hp Hs. unfold chat_with_industrial_ai, chat_attempt.
  rewrite Hp. simpl.
  destruct (Z.eqb_spec (status_code resp) 200); [contradiction|].
  reflexivity.
Qed.

Lemma transport_failure_raises (x : exchange) (req : chat_request)
    (e : exn) :
  post x req = Raise e ->
  chat_with_industrial_ai x req =
  Raise (Exception RuntimeError ("Connection failed: " ++ exc_str e)).
Proof.
  intros Hp. unfold chat_with_industrial_ai, chat_attempt.
  rewrite Hp. reflexivity.
Qed.

(** C1. The code at a reply with status 500 and body "boom": the
    "API Error" raised for the status is caught by the handler of the
    same block and leaves the function as the "Connection failed"
    error, the very exception a transport failure with the text
    "API Error: boom" produces. *)
Theorem upstream_error_is_wrapped :
  chat_with_industrial_ai failing_exchange sample_request =
    Raise (Exception RuntimeError "Connection failed: API Error: boom") /\
  chat_with_industrial_ai broken_exchange sample_request =
    chat_with_industrial_ai failing_exchange sample_request.
Proof. split; reflexivity. Qed.

(** ** The submit handler *)

Section SubmitClaims.

Context {codec : JsonCodec}.

(** C8. A question submitted without an active image changes neither the
    store nor the list of messages: the handler returns after one toast.
    With an active image the handler first appends the user message to
    the store and to the list, whatever happens next. When the bytes of
    the image cannot be read it stops there, with an error notice and
    no call of the gateway. Otherwise it then calls the gateway with the
    history before that message: when the gateway raises, the handler
    returns normally with the store and the list as they were after the
    user message, no assistant message in either, and an error notice
    as its last effect; when the gateway answers, the assistant message
    is appended to both after the user message. *)
Theorem submit_keeps_conversation_consistent :
  forall (GUARDRAIL_PROMPT : string) (env : environment)
         (sid base_instruction user_requirements question : string)
         (p : page),
    question <> "" ->
    submit GUARDRAIL_PROMPT env sid None base_instruction user_requirements
      (Some question) p =
    Ok {| db := db p; state_messages := state_messages p;
          effects := effects p ++
            [Toast "⚠️ ERR: NO VISUAL INPUT DETECTED" "🚫"] |} /\
    forall (img : image_source) (h0 : list chat_message),
      has_messages (db p) = true ->
      has_columns ["title"; "id"] (db p) = true ->
      ids_increasing (db p) ->
      get_session_history sid (db p) = Ok h0 ->
      exists db1,
        add_message (clock_user env) sid "user" question None (db p)
          = Ok db1 /\
        get_session_history sid db1 =
          Ok (h0 ++ [{| msg_role := "user"; msg_content := question;
                        msg_usage := None |}])%list /\
        (forall e : exn,
           image_bytes env img = Raise e ->
           submit GUARDRAIL_PROMPT env sid (Some img) base_instruction
             user_requirements (Some question) p =
           Ok {| db := db1;
                 state_messages :=
                   state_messages p ++
                     [{| msg_role := "user"; msg_content := question;
                         msg_usage := None |}];
                 effects :=
                   effects p ++
                     [StoreAppend sid "user"; ChatMarkdown "user" question;
                      ErrorNotice ("SYSTEM FAILURE: " ++ exc_str e)] |}) /\
        (forall data : string,
           image_bytes env img = Ok data ->
           let req :=
             {| current_question := question;
                image_file := Some data;
                chat_history := state_messages p;
                system_prompt :=
                  final_system_prompt GUARDRAIL_PROMPT base_instruction
                    user_requirements |} in
           (forall e : exn,
              chat_with_industrial_ai (gateway env) req = Raise e ->
              submit GUARDRAIL_PROMPT env sid (Some img) base_instruction
                user_requirements (Some question) p =
              Ok {| db := db1;
                    state_messages :=
                      state_messages p ++
                        [{| msg_role := "user"; msg_content := question;
                            msg_usage := None |}];
                    effects :=
                      effects p ++
                        [StoreAppend sid "user";
                         ChatMarkdown "user" question;
                         GatewayCall req;
                         ErrorNotice ("SYSTEM FAILURE: " ++ exc_str e)] |})
           /\
           (forall r : Schemas.ChatResponse,
              chat_with_industrial_ai (gateway env) req = Ok r ->
              exists db2,
                add_message (clock_assistant env) sid "assistant"
                  (Schemas.content r)
                  (Some (Schemas.model_dump (Schemas.usage r))) db1
                  = Ok db2 /\
                submit GUARDRAIL_PROMPT env sid (Some img) base_instruction
                  user_requirements (Some question) p =
                Ok {| db := db2;
                      state_messages :=
                        state_messages p ++
                          [{| msg_role := "user"; msg_content := question;
                              msg_usage := None |};
                           {| msg_role := "assistant";
                              msg_content := Schemas.content r;
                              msg_usage :=
                                Some (Schemas.model_dump
                                        (Schemas.usage r)) |}];
                      effects :=
                        effects p ++
                          [StoreAppend sid "user";
                           ChatMarkdown "user" question;
                           GatewayCall req;
                           ChatMarkdown "assistant" (Schemas.content r);
                           MetricsPills
                             (Schemas.total_tokens (Schemas.usage r))
                             (Schemas.latency (Schemas.usage r))
                             (Schemas.throughput (Schemas.usage r));
                           StoreAppend sid "assistant"] |})).
Proof.
  intros GUARDRAIL_PROMPT env sid base ur question p Hq.
  assert (Hneq : String.eqb question "" = false)
    by (destruct (String.eqb_spec question ""); [contradiction|reflexivity]).
  split.
  - unfold submit. rewrite Hneq. reflexivity.
  - intros img h0 Hm Hc Hinc H0.
    destruct (history_after_add (clock_user env) sid "user" question None
                (db p) Hm Hc Hinc I)
      as [db1 [Hadd [Hm1 [Hc1 [_ [_ Hhist]]]]]].
    exists db1. split; [exact Hadd|]. split; [|split].
    + rewrite (Hhist sid h0 H0). unfold for_session, call_message. simpl.
      rewrite String.eqb_refl. reflexivity.
    + intros e Himg. unfold submit. rewrite Hneq, Hadd. simpl.
      unfold assistant_turn. rewrite Himg.
      unfold emit. simpl. rewrite <- !app_assoc. reflexivity.
    + intros data Himg req. split.
      * intros e Hgw. unfold submit. rewrite Hneq, Hadd. simpl.
        unfold assistant_turn. rewrite Himg. simpl.
        rewrite removelast_last. fold req. rewrite Hgw.
        unfold emit. simpl. rewrite <- !app_assoc. reflexivity.
      * intros r Hgw.
        assert (Hc1' : has_columns ["title"; "id"] db1 = true)
          by (rewrite Hc1; exact Hc).
        destruct (add_message_spec (clock_assistant env) sid "assistant"
                    (Schemas.content r)
                    (Some (Schemas.model_dump (Schemas.usage r))) db1
                    Hm1 Hc1')
          as [db2 [n [Hadd2 _]]].
        exists db2. split; [exact Hadd2|].
        unfold submit. rewrite Hneq, Hadd. simpl.
        unfold assistant_turn. rewrite Himg. simpl.
        rewrite removelast_last. fold req. rewrite Hgw. simpl.
        rewrite Hadd2. simpl. rewrite <- !app_assoc. reflexivity.
Qed.

End SubmitClaims.

(** The handler on a fresh session: without an image; with an image and
    a gateway that answers 500; with an image and a gateway that
    answers. *)
Lemma submit_keeps_conversation_consistent_witness :
  @submit sample_json "GUARDRAIL" (sample_environment failing_exchange) "s1"
    None "Role: Senior Technical Engineer." "" (Some "Is the bearing worn?")
    sample_page =
  Ok {| db := db sample_page; state_messages := state_messages sample_page;
        effects := effects sample_page ++
          [Toast "⚠️ ERR: NO VISUAL INPUT DETECTED" "🚫"] |} /\
  (exists db1,
    @add_message sample_json "2024-01-01 10:00:01" "s1" "user"
      "Is the bearing worn?" None one_session_store = Ok db1 /\
    @get_session_history sample_json "s1" db1 =
      Ok [{| msg_role := "user"; msg_content := "Is the bearing worn?";
             msg_usage := None |}] /\
    @submit sample_json "GUARDRAIL" (sample_environment failing_exchange)
      "s1" (Some (Uploaded "img")) "Role: Senior Technical Engineer." ""
      (Some "Is the bearing worn?") sample_page =
    Ok {| db := db1;
          state_messages :=
            [{| msg_role := "user"; msg_content := "Is the bearing worn?";
                msg_usage := None |}];
          effects :=
            [StoreAppend "s1" "user";
             ChatMarkdown "user" "Is the bearing worn?";
             GatewayCall
               {| current_question := "Is the bearing worn?";
                  image_file := Some "img";
                  chat_history := [];
                  system_prompt :=
                    @final_system_prompt "GUARDRAIL"
                      "Role: Senior Technical Engineer." "" |};
             ErrorNotice
               "SYSTEM FAILURE: Connection failed: API Error: boom"] |}) /\
  (exists db1 db2,
    @add_message sample_json "2024-01-01 10:00:01" "s1" "user"
      "Is the bearing worn?" None one_session_store = Ok db1 /\
    @add_message sample_json "2024-01-01 10:00:03" "s1" "assistant" "OK"
      (Some sample_usage) db1 = Ok db2 /\
    @submit sample_json "GUARDRAIL" (sample_environment good_exchange)
      "s1" (Some (Uploaded "img")) "Role: Senior Technical Engineer." ""
      (Some "Is the bearing worn?") sample_page =
    Ok {| db := db2;
          state_messages :=
            [{| msg_role := "user"; msg_content := "Is the bearing worn?";
                msg_usage := None |};
             {| msg_role := "assistant"; msg_content := "OK";
                msg_usage := Some sample_usage |}];
          effects :=
            [StoreAppend "s1" "user";
             ChatMarkdown "user" "Is the bearing worn?";
             GatewayCall
               {| current_question := "Is the bearing worn?";
                  image_file := Some "img";
                  chat_history := [];
                  system_prompt :=
                    @final_system_prompt "GUARDRAIL"
                      "Role: Senior Technical Engineer." "" |};
             ChatMarkdown "assistant" "OK";
             MetricsPills 100 two fifty;
             StoreAppend "s1" "assistant"] |}).
Proof.
  assert (Hinc : ids_increasing (db sample_page))
    by (unfold ids_increasing; simpl; constructor).
  destruct (@submit_keeps_conversation_consistent sample_json "GUARDRAIL"
              (sample_environment failing_exchange) "s1"
              "Role: Senior Technical Engineer." "" "Is the bearing worn?"
              sample_page ltac:(discriminate)) as [Hnone Hfail].
  destruct (Hfail (Uploaded "img") [] eq_refl eq_refl Hinc eq_refl)
    as [db1 [Hadd [Hhist [_ Hread]]]].
  destruct (@submit_keeps_conversation_consistent sample_json "GUARDRAIL"
              (sample_environment good_exchange) "s1"
              "Role: Senior Technical Engineer." "" "Is the bearing worn?"
              sample_page ltac:(discriminate)) as [_ Hgood].
  destruct (Hgood (Uploaded "img") [] eq_refl eq_refl Hinc eq_refl)
    as [db1' [Hadd' [_ [_ Hread']]]].
  split; [exact Hnone|]. split.
  - exists db1. split; [exact Hadd|]. split; [exact Hhist|].
    apply (proj1 (Hread "img" eq_refl)
             (Exception RuntimeError "Connection failed: API Error: boom")).
    reflexivity.
  - destruct (proj2 (Hread' "img" eq_refl) sample_response eq_refl)
      as [db2 [Hadd2 Hsubmit]].
    exists db1', db2. split; [exact Hadd'|]. split; [exact Hadd2|].
    exact Hsubmit.
Defined.

(** * Further properties of the store *)

(** ** Results on a current schema *)

Lemma table_eta (t : sessions_table) :
  {| columns := columns t; rows := rows t |} = t.
Proof. destruct t; reflexivity. Qed.

Lemma store_eta (st : store) :
  {| sessions := sessions st; messages := messages st |} = st.
Proof. destruct st; reflexivity. Qed.

Lemma update_sessions_ok (col : string) (v : cell) (sid : string)
    (st : store) (t : sessions_table) :
  sessions st = Some t ->
  has_column col t = true ->
  has_column "id" t = true ->
  on_sessions (update_sessions col v sid) st =
  Ok {| sessions :=
          Some {| columns := columns t;
                  rows := map (fun r => if sql_eq (r "id") sid
                                        then row_set col v r else r)
                              (rows t) |};
        messages := messages st |}.
Proof.
  intros Ht Hcol Hid. unfold on_sessions, update_sessions.
  rewrite Ht, Hcol, Hid. reflexivity.
Qed.

Lemma filter_filter_length {A : Type} (p q : A -> bool) (l : list A) :
  (List.length (filter p (filter q l)) <= List.length (filter p l))%nat.
Proof.
  induction l as [|x l IH]; simpl; [lia|].
  destruct (q x) eqn:Hq; simpl; destruct (p x) eqn:Hp; simpl; lia.
Qed.

(** ** The invariant, relation by relation *)

Lemma invariant_sessions_map (st : store) (t : sessions_table)
    (g : row -> row) :
  sessions st = Some t ->
  (forall r, g r "id" = r "id") ->
  store_invariant st ->
  store_invariant
    {| sessions := Some {| columns := columns t; rows := map g (rows t) |};
       messages := messages st |}.
Proof.
  intros Ht Hg [Hs [Hpk [Hinc Hseq]]]. repeat split.
  - unfold current_schema, has_columns, has_messages in *.
    rewrite Ht in Hs. exact Hs.
  - intros sid. specialize (Hpk sid).
    unfold session_count, session_rows in *. rewrite Ht in Hpk. simpl.
    rewrite filter_map_keep; [rewrite length_map; exact Hpk|].
    intros r. rewrite Hg. reflexivity.
  - exact Hinc.
  - exact Hseq.
Qed.

Lemma invariant_sessions_insert (st : store) (t : sessions_table)
    (r : row) (sid : string) :
  sessions st = Some t ->
  r "id" = Some sid ->
  existsb (fun x => sql_eq (x "id") sid) (rows t) = false ->
  store_invariant st ->
  store_invariant
    {| sessions := Some {| columns := columns t; rows := rows t ++ [r] |};
       messages := messages st |}.
Proof.
  intros Ht Hr Hex [Hs [Hpk [Hinc Hseq]]]. repeat split.
  - unfold current_schema, has_columns, has_messages in *.
    rewrite Ht in Hs. exact Hs.
  - intros sid'. specialize (Hpk sid').
    unfold session_count, session_rows in *. rewrite Ht in Hpk. simpl.
    rewrite filter_app, length_app. simpl. rewrite Hr. simpl.
    destruct (String.eqb_spec sid sid') as [<-|Hne]; simpl.
    + rewrite (existsb_false_filter _ _ Hex). simpl. lia.
    + lia.
  - exact Hinc.
  - exact Hseq.
Qed.

Lemma invariant_sessions_delete (st : store) (t : sessions_table)
    (q : row -> bool) :
  sessions st = Some t ->
  store_invariant st ->
  store_invariant
    {| sessions := Some {| columns := columns t; rows := filter q (rows t) |};
       messages := messages st |}.
Proof.
  intros Ht [Hs [Hpk [Hinc Hseq]]]. repeat split.
  - unfold current_schema, has_columns, has_messages in *.
    rewrite Ht in Hs. exact Hs.
  - intros sid. specialize (Hpk sid).
    unfold session_count, session_rows in *. rewrite Ht in Hpk. simpl.
    pose proof (filter_filter_length (fun r : row => sql_eq (r "id") sid) q
                  (rows t)). lia.
  - exact Hinc.
  - exact Hseq.
Qed.

Lemma invariant_messages_insert (st : store) (mt : messages_table)
    (now sid rl body : string) (uj : cell) :
  messages st = Some mt ->
  store_invariant st ->
  store_invariant
    {| sessions := sessions st;
       messages :=
         Some {| msg_rows := msg_rows mt ++
                   [{| id := next_id mt; session_id := sid; role := rl;
                       content := body; usage_data := uj;
                       timestamp := now |}];
                 msg_seq := next_id mt |} |}.
Proof.
  intros Hmt [Hs [Hpk [Hinc Hseq]]]. repeat split.
  - unfold current_schema, has_columns, has_messages in *. simpl.
    rewrite Hmt in Hs. exact Hs.
  - exact Hpk.
  - unfold ids_increasing, message_rows in *. simpl. rewrite Hmt in Hinc.
    apply increasing_snoc; [exact Hinc|].
    intros x Hx. simpl. apply next_id_fresh. exact Hx.
  - unfold seq_covers, message_rows, message_seq in *. simpl.
    intros m Hm. apply in_app_or in Hm. destruct Hm as [Hm|[<-|[]]].
    + apply next_id_fresh in Hm. lia.
    + simpl. lia.
Qed.

Lemma invariant_messages_delete (st : store) (mt : messages_table)
    (q : message -> bool) :
  messages st = Some mt ->
  store_invariant st ->
  store_invariant
    {| sessions := sessions st;
       messages := Some {| msg_rows := filter q (msg_rows mt);
                           msg_seq := msg_seq mt |} |}.
Proof.
  intros Hmt [Hs [Hpk [Hinc Hseq]]]. repeat split.
  - unfold current_schema, has_columns, has_messages in *. simpl.
    rewrite Hmt in Hs. exact Hs.
  - exact Hpk.
  - unfold ids_increasing, message_rows in *. simpl. rewrite Hmt in Hinc.
    apply increasing_filter. exact Hinc.
  - unfold seq_covers, message_rows, message_seq in *. simpl.
    rewrite Hmt in Hseq. intros m Hm. apply filter_In in Hm.
    apply Hseq. tauto.
Qed.

(** ** Every function on a current schema *)

Lemma init_db_existing (st : store) (t : sessions_table)
    (mt : messages_table) :
  sessions st = Some t -> messages st = Some mt -> init_db st = st.
Proof.
  intros Ht Hmt. unfold init_db. rewrite Ht, Hmt, <- Ht, <- Hmt.
  apply store_eta.
Qed.

Lemma create_session_shape (now sid title mode : string) (st : store)
    (t : sessions_table) :
  sessions st = Some t ->
  has_column "id" t = true ->
  has_column "title" t = true ->
  has_column "mode" t = true ->
  create_session now sid title mode st =
  Ok (if existsb (fun r => sql_eq (r "id") sid) (rows t) then st
      else {| sessions :=
                Some {| columns := columns t;
                        rows := rows t ++
                          [new_row now (columns t)
                             [("id", Some sid); ("title", Some title);
                              ("mode", Some mode)]] |};
              messages := messages st |}).
Proof.
  intros Ht Hid Htitle Hmode.
  unfold create_session, on_sessions, insert_or_ignore_session.
  rewrite Ht. simpl. rewrite Hid, Htitle, Hmode. simpl.
  destruct (existsb _ (rows t)); simpl; [|reflexivity].
  rewrite <- Ht, store_eta. reflexivity.
Qed.

Lemma delete_session_shape (denied : bool) (sid : string) (st : store)
    (fs : file_system) (t : sessions_table) (mt : messages_table) :
  sessions st = Some t ->
  messages st = Some mt ->
  has_column "image_path" t = true ->
  has_column "id" t = true ->
  exists fs' out,
    delete_session denied sid st fs =
    (Ok {| sessions :=
             Some {| columns := columns t;
                     rows := filter (fun r => negb (sql_eq (r "id") sid))
                                    (rows t) |};
           messages :=
             Some {| msg_rows :=
                       filter (fun m => negb (String.eqb (session_id m) sid))
                              (msg_rows mt);
                     msg_seq := msg_seq mt |} |}, fs', out).
Proof.
  intros Ht Hmt Himg Hid. unfold delete_session.
  rewrite Ht. simpl. rewrite Himg, Hid. simpl.
  match goal with
  | |- context [let '(_, _) := ?X in _] => destruct X as [fs1 out1]
  end.
  exists fs1, out1.
  unfold delete_messages, on_sessions, delete_sessions_row.
  rewrite Hmt. simpl. rewrite Ht, Hid. reflexivity.
Qed.

Section InvariantFacts.

Context {codec : JsonCodec}.

Lemma add_message_shape (now sid rl body : string)
    (usage : option usage_dict) (st : store) (t : sessions_table)
    (mt : messages_table) :
  sessions st = Some t ->
  messages st = Some mt ->
  has_column "title" t = true ->
  has_column "id" t = true ->
  add_message now sid rl body usage st =
  Ok {| sessions :=
          Some {| columns := columns t;
                  rows :=
                    map (fun r =>
                           if String.eqb rl "user"
                              && (sql_eq (r "id") sid
                                  && sql_eq (r "title") "New Inspection")
                           then row_set "title" (Some (auto_title body)) r
                           else r) (rows t) |};
        messages :=
          Some {| msg_rows := msg_rows mt ++
                    [{| id := next_id mt; session_id := sid; role := rl;
                        content := body; usage_data := usage_json usage;
                        timestamp := now |}];
                  msg_seq := next_id mt |} |}.
Proof.
  intros Ht Hmt Htitle Hid. unfold add_message, insert_message.
  rewrite Hmt. simpl.
  destruct (String.eqb rl "user"); simpl.
  - unfold on_sessions, update_title_if_default. simpl.
    rewrite Ht, Htitle, Hid. reflexivity.
  - rewrite map_id, table_eta, Ht. reflexivity.
Qed.

Lemma run_call_invariant (c : store_call) (st : store) (fs : file_system) :
  store_invariant st ->
  store_invariant (fst (run_call c (st, fs))) /\
  session_columns (fst (run_call c (st, fs))) = session_columns st.
Proof.
  intros Hinv. pose proof Hinv as [Hs _].
  destruct (current_schema_columns st Hs)
    as [t [mt [Ht [Hmt [Hid [Htitle [Himg [Hmode Hcreated]]]]]]]].
  assert (Hrow : forall col v sid (r : row),
             String.eqb "id" col = false ->
             (if sql_eq (r "id") sid then row_set col v r else r) "id"
             = r "id").
  { intros col v sid r Hcol. destruct (sql_eq (r "id") sid); [|reflexivity].
    unfold row_set. rewrite Hcol. reflexivity. }
  unfold session_columns.
  destruct c as [|now sid title mode|sid mode|sid path|sid title|a|denied sid].
  2-7: simpl.
  - change (run_call CallInitDb (st, fs)) with (init_db st, fs).
    cbn [fst]. rewrite (init_db_existing st t mt Ht Hmt).
    split; [exact Hinv|reflexivity].
  - rewrite (create_session_shape now sid title mode st t Ht Hid Htitle Hmode).
    destruct (existsb (fun r => sql_eq (r "id") sid) (rows t)) eqn:Hex; simpl.
    + split; [exact Hinv|reflexivity].
    + split; [|rewrite Ht; reflexivity].
      apply (invariant_sessions_insert st t _ sid Ht); try assumption.
      unfold new_row. simpl. reflexivity.
  - unfold update_session_mode.
    rewrite (update_sessions_ok "mode" (Some mode) sid st t Ht Hmode Hid).
    simpl. split; [|rewrite Ht; reflexivity].
    apply (invariant_sessions_map st t _ Ht); [|exact Hinv].
    intros r. apply Hrow. reflexivity.
  - unfold update_session_image.
    rewrite (update_sessions_ok "image_path" (Some path) sid st t Ht Himg Hid).
    simpl. split; [|rewrite Ht; reflexivity].
    apply (invariant_sessions_map st t _ Ht); [|exact Hinv].
    intros r. apply Hrow. reflexivity.
  - unfold update_session_title.
    rewrite (update_sessions_ok "title" (Some title) sid st t Ht Htitle Hid).
    simpl. split; [|rewrite Ht; reflexivity].
    apply (invariant_sessions_map st t _ Ht); [|exact Hinv].
    intros r. apply Hrow. reflexivity.
  - unfold run_append.
    rewrite (add_message_shape (call_now a) (call_session a) (call_role a)
               (call_content a) (call_usage a) st t mt Ht Hmt Htitle Hid).
    simpl. split; [|rewrite Ht; reflexivity].
    pose proof (invariant_messages_insert st mt (call_now a)
                  (call_session a) (call_role a) (call_content a)
                  (usage_json (call_usage a)) Hmt Hinv) as H1.
    match type of H1 with
    | store_invariant ?s =>
        refine (invariant_sessions_map s t _ Ht _ H1)
    end.
    intros r.
    destruct (String.eqb (call_role a) "user"
              && (sql_eq (r "id") (call_session a)
                  && sql_eq (r "title") "New Inspection")); reflexivity.
  - destruct (delete_session_shape denied sid st fs t mt Ht Hmt Himg Hid)
      as [fs' [out Hdel]].
    rewrite Hdel. simpl. split; [|rewrite Ht; reflexivity].
    pose proof (invariant_messages_delete st mt
                  (fun m => negb (String.eqb (session_id m) sid)) Hmt Hinv)
      as H1.
    match type of H1 with
    | store_invariant ?s =>
        exact (invariant_sessions_delete s t
                 (fun r => negb (sql_eq (r "id") sid)) Ht H1)
    end.
Qed.

(** X1. Whatever functions of the store are called, in whatever order
    and with whatever arguments, a file that has the schema of
    [init_db], one Session record per id, message ids that grow with
    the rowid and no message id above the recorded sequence keeps all
    four; and no call changes the columns of [sessions]. *)
Theorem store_invariant_is_kept :
  forall (cs : list store_call) (st : store) (fs : file_system),
    store_invariant st ->
    store_invariant (fst (run_calls cs (st, fs))) /\
    session_columns (fst (run_calls cs (st, fs))) = session_columns st.
Proof.
  induction cs as [|c cs IH]; intros st fs Hinv.
  - simpl. split; [exact Hinv|reflexivity].
  - cbn [run_calls].
    destruct (run_call_invariant c st fs Hinv) as [H1 H2].
    destruct (run_call c (st, fs)) as [st1 fs1]. cbn [fst] in H1, H2.
    destruct (IH st1 fs1 H1) as [H3 H4].
    split; [exact H3|]. rewrite H4. exact H2.
Qed.

End InvariantFacts.

Lemma store_invariant_is_kept_witness :
  store_invariant
    (fst (@run_calls sample_json sample_store_calls (fresh_store, []))) /\
  session_columns
    (fst (@run_calls sample_json sample_store_calls (fresh_store, [])))
  = session_columns fresh_store.
Proof.
  apply (@store_invariant_is_kept sample_json sample_store_calls
           fresh_store []).
  repeat split.
  - intros sid. unfold session_count, session_rows. simpl. lia.
  - unfold ids_increasing. simpl. constructor.
  - intros m H. destruct H.
Defined.

(** ** Deleting a session *)

Lemma exists_after_remove (p q : string) (fs : file_system) :
  os_path_exists q (filter (fun x => negb (String.eqb x p)) fs) =
  os_path_exists q fs && negb (String.eqb q p).
Proof.
  unfold os_path_exists. induction fs as [|x fs IH]; simpl; [reflexivity|].
  destruct (String.eqb_spec x p) as [->|Hxp]; simpl.
  - rewrite IH. destruct (String.eqb_spec q p) as [->|Hqp]; simpl.
    + rewrite !andb_false_r. reflexivity.
    + rewrite andb_true_r. reflexivity.
  - rewrite IH. destruct (String.eqb_spec q x) as [->|Hqx]; simpl.
    + destruct (String.eqb_spec x p); [contradiction|reflexivity].
    + reflexivity.
Qed.

Lemma delete_session_result (denied : bool) (sid : string) (st : store)
    (fs : file_system) (t : sessions_table) (mt : messages_table) :
  sessions st = Some t ->
  messages st = Some mt ->
  has_column "image_path" t = true ->
  has_column "id" t = true ->
  delete_session denied sid st fs =
  (Ok {| sessions :=
           Some {| columns := columns t;
                   rows := filter (fun r => negb (sql_eq (r "id") sid))
                                  (rows t) |};
         messages :=
           Some {| msg_rows :=
                     filter (fun m => negb (String.eqb (session_id m) sid))
                            (msg_rows mt);
                   msg_seq := msg_seq mt |} |},
   match session_image sid st with
   | Some p =>
       if os_path_exists p fs && negb denied
       then filter (fun q => negb (String.eqb q p)) fs else fs
   | None => fs
   end,
   match session_image sid st with
   | Some p =>
       if os_path_exists p fs && denied
       then ["Error deleting file: Permission denied"] else []
   | None => []
   end).
Proof.
  intros Ht Hmt Himg Hid.
  unfold delete_session, session_image, session_rows.
  rewrite Ht. simpl. rewrite Himg, Hid. simpl.
  unfold delete_messages, on_sessions, delete_sessions_row.
  rewrite Hmt. simpl. rewrite Ht, Hid. simpl.
  destruct (filter (fun r => sql_eq (r "id") sid) (rows t)) as [|r l];
    [reflexivity|].
  destruct (r "image_path") as [p|]; simpl; [|reflexivity].
  destruct (negb (String.eqb p "")); [|reflexivity].
  destruct (os_path_exists p fs); simpl; [|reflexivity].
  unfold os_remove. destruct denied; reflexivity.
Qed.

Lemma filter_implied {A : Type} (p q : A -> bool) (l : list A) :
  (forall x, p x = true -> q x = true) ->
  filter p (filter q l) = filter p l.
Proof.
  intros H. induction l as [|x l IH]; simpl; [reflexivity|].
  destruct (q x) eqn:Hq; simpl.
  - rewrite IH. reflexivity.
  - destruct (p x) eqn:Hp; [|exact IH].
    rewrite (H x Hp) in Hq. discriminate.
Qed.

Lemma filter_excluded {A : Type} (p q : A -> bool) (l : list A) :
  (forall x, q x = true -> p x = false) ->
  filter p (filter q l) = [].
Proof.
  intros H. induction l as [|x l IH]; simpl; [reflexivity|].
  destruct (q x) eqn:Hq; simpl; [|exact IH].
  rewrite (H x Hq). exact IH.
Qed.

Section DeletionFacts.

Context {codec : JsonCodec}.

(** X2. On a file with the schema of [init_db], [delete_session] never
    raises. Afterwards the point lookup of the session finds nothing and
    its history is empty, while every other session keeps its record
    and its history. When the removal of the file is not refused, the
    image of the session no longer exists; no other file is touched;
    when the removal is refused the asset directory is unchanged and
    the session is deleted all the same. *)
Theorem delete_session_removes_session :
  forall (denied : bool) (sid : string) (st : store) (fs : file_system),
    current_schema st = true ->
    exists st' fs' out,
      delete_session denied sid st fs = (Ok st', fs', out) /\
      get_session_meta sid st' = Ok None /\
      get_session_history sid st' = Ok [] /\
      (forall sid', sid' <> sid ->
         get_session_meta sid' st' = get_session_meta sid' st /\
         get_session_history sid' st' = get_session_history sid' st) /\
      (denied = false ->
       forall p, session_image sid st = Some p ->
                 os_path_exists p fs' = false) /\
      (forall q, session_image sid st <> Some q ->
                 os_path_exists q fs' = os_path_exists q fs) /\
      (denied = true -> fs' = fs).
Proof.
  intros denied sid st fs Hs.
  destruct (current_schema_columns st Hs)
    as [t [mt [Ht [Hmt [Hid [_ [Himg _]]]]]]].
  rewrite (delete_session_result denied sid st fs t mt Ht Hmt Himg Hid).
  eexists; eexists; eexists. split; [reflexivity|].
  split; [|split; [|split; [|split; [|split]]]].
  - unfold get_session_meta. simpl.
    change (has_column "id" _) with (has_column "id" t). rewrite Hid. simpl.
    rewrite filter_excluded; [reflexivity|].
    intros r Hr. apply negb_true_iff in Hr. exact Hr.
  - unfold get_session_history, select_messages. simpl.
    rewrite filter_excluded; [reflexivity|].
    intros m Hm. apply negb_true_iff in Hm. exact Hm.
  - intros sid' Hne. split.
    + unfold get_session_meta. simpl. rewrite Ht.
      change (has_column "id" _) with (has_column "id" t).
      rewrite filter_implied; [reflexivity|].
      intros r Hr. apply sql_eq_true in Hr. rewrite Hr. simpl.
      apply negb_true_iff. apply String.eqb_neq. exact Hne.
    + unfold get_session_history, select_messages. simpl. rewrite Hmt.
      rewrite filter_implied; [reflexivity|].
      intros m Hm. apply String.eqb_eq in Hm. rewrite Hm.
      apply negb_true_iff. apply String.eqb_neq. exact Hne.
  - intros -> p Hp. rewrite Hp. rewrite andb_true_r.
    destruct (os_path_exists p fs) eqn:Hex; [|exact Hex].
    rewrite exists_after_remove, String.eqb_refl. apply andb_false_r.
  - intros q Hq. destruct (session_image sid st) as [p|]; [|reflexivity].
    destruct (os_path_exists p fs && negb denied); [|reflexivity].
    rewrite exists_after_remove.
    destruct (String.eqb_spec q p) as [->|_]; [|apply andb_true_r].
    exfalso. apply Hq. reflexivity.
  - intros ->. destruct (session_image sid st) as [p|]; [|reflexivity].
    rewrite andb_false_r. reflexivity.
Qed.

End DeletionFacts.

(** ** Message ids after a deletion *)

Section IdFacts.

Context {codec : JsonCodec}.

(** X3. The id of a message is never used again: whatever session is
    deleted, the message appended next gets an id above the id of every
    message the file held before the deletion, the deleted ones
    included. *)
Theorem message_ids_are_not_reused :
  forall (denied : bool) (sid now sid2 rl body : string)
         (usage : option usage_dict) (st : store) (fs : file_system),
    store_invariant st ->
    exists st1 fs1 out st2 n,
      delete_session denied sid st fs = (Ok st1, fs1, out) /\
      add_message now sid2 rl body usage st1 = Ok st2 /\
      message_rows st2 =
        (message_rows st1 ++
           [{| id := n; session_id := sid2; role := rl; content := body;
               usage_data := usage_json usage; timestamp := now |}])%list /\
      forall m, In m (message_rows st) -> id m < n.
Proof.
  intros denied sid now sid2 rl body usage st fs [Hs [_ [_ Hseq]]].
  destruct (current_schema_columns st Hs)
    as [t [mt [Ht [Hmt [Hid [Htitle [Himg _]]]]]]].
  rewrite (delete_session_result denied sid st fs t mt Ht Hmt Himg Hid).
  eexists; eexists; eexists; eexists; eexists.
  split; [reflexivity|]. split.
  - apply add_message_shape; try reflexivity; assumption.
  - split; [reflexivity|].
    intros m Hm. apply Hseq in Hm.
    unfold message_seq in Hm. rewrite Hmt in Hm.
    unfold next_id. simpl. lia.
Qed.

End IdFacts.

(** ** Updates of a session *)

Lemma filter_nil_false {A : Type} (p : A -> bool) (l : list A) :
  filter p l = [] -> forall x, In x l -> p x = false.
Proof.
  intros H x Hx. destruct (p x) eqn:Hp; [|reflexivity].
  assert (Hin : In x (filter p l)) by (apply filter_In; tauto).
  rewrite H in Hin. destruct Hin.
Qed.

Lemma update_absent_session (col : string) (v : cell) (sid : string)
    (st : store) (t : sessions_table) :
  sessions st = Some t ->
  has_column col t = true ->
  has_column "id" t = true ->
  session_count sid st = 0%nat ->
  on_sessions (update_sessions col v sid) st = Ok st.
Proof.
  intros Ht Hcol Hid Hcount.
  rewrite (update_sessions_ok col v sid st t Ht Hcol Hid).
  unfold session_count, session_rows in Hcount. rewrite Ht in Hcount.
  apply length_zero_iff_nil in Hcount.
  rewrite (map_ext_in _ (fun r => r)).
  - rewrite map_id, table_eta, <- Ht, store_eta. reflexivity.
  - intros r Hr. rewrite (filter_nil_false _ _ Hcount r Hr). reflexivity.
Qed.

(** X4. On a file with the schema of [init_db], each of the three
    single-field updates applied to an id that no Session record has
    returns without an error and leaves the file exactly as it was. *)
Theorem update_of_unknown_session_is_noop :
  forall (sid v : string) (st : store),
    current_schema st = true ->
    session_count sid st = 0%nat ->
    update_session_mode sid v st = Ok st /\
    update_session_image sid v st = Ok st /\
    update_session_title sid v st = Ok st.
Proof.
  intros sid v st Hs Hcount.
  destruct (current_schema_columns st Hs)
    as [t [mt [Ht [Hmt [Hid [Htitle [Himg [Hmode _]]]]]]]].
  unfold update_session_mode, update_session_image, update_session_title.
  rewrite (update_absent_session "mode" (Some v) sid st t Ht Hmode Hid Hcount).
  rewrite (update_absent_session "image_path" (Some v) sid st t Ht Himg Hid
             Hcount).
  rewrite (update_absent_session "title" (Some v) sid st t Ht Htitle Hid
             Hcount).
  repeat split.
Qed.

Lemma row_dict_set (col : string) (v : cell) (t : sessions_table) (r : row) :
  row_dict t (row_set col v r) = dict_set col v (row_dict t r).
Proof.
  unfold row_dict, dict_set, row_set. rewrite map_map. reflexivity.
Qed.

Lemma meta_after_update_sessions (col v sid sid' : string) (st : store)
    (t : sessions_table) :
  sessions st = Some t ->
  has_column "id" t = true ->
  String.eqb "id" col = false ->
  get_session_meta sid'
    {| sessions :=
         Some {| columns := columns t;
                 rows := map (fun r => if sql_eq (r "id") sid
                                       then row_set col (Some v) r else r)
                             (rows t) |};
       messages := messages st |} =
  meta_after_update col v sid sid' (get_session_meta sid' st).
Proof.
  intros Ht Hid Hcol. unfold get_session_meta, meta_after_update. simpl.
  rewrite Ht. change (has_column "id" _) with (has_column "id" t).
  rewrite Hid. simpl.
  rewrite filter_map_keep.
  - destruct (filter (fun r => sql_eq (r "id") sid') (rows t)) as [|r l] eqn:Hf;
      simpl; [reflexivity|].
    assert (Hr : sql_eq (r "id") sid' = true).
    { assert (Hin : In r (filter (fun r => sql_eq (r "id") sid') (rows t)))
        by (rewrite Hf; left; reflexivity).
      apply filter_In in Hin. tauto. }
    apply sql_eq_true in Hr. rewrite Hr. simpl.
    destruct (String.eqb sid' sid); [|reflexivity].
    unfold row_dict at 1. simpl. fold (row_dict t (row_set col (Some v) r)).
    rewrite row_dict_set. reflexivity.
  - intros r. destruct (sql_eq (r "id") sid); [|reflexivity].
    unfold row_set. rewrite Hcol. reflexivity.
Qed.

(** X6. On a file with the schema of [init_db], each single-field update
    succeeds and is seen by the point lookup: the record of the session
    it names comes back with that one field replaced and every other
    field as before, the record of any other session comes back
    unchanged, and a lookup that found nothing still finds nothing. *)
Theorem update_is_read_back :
  forall (sid v : string) (st : store),
    current_schema st = true ->
    exists st1 st2 st3,
      update_session_title sid v st = Ok st1 /\
      update_session_image sid v st = Ok st2 /\
      update_session_mode sid v st = Ok st3 /\
      forall sid',
        get_session_meta sid' st1 =
          meta_after_update "title" v sid sid' (get_session_meta sid' st) /\
        get_session_meta sid' st2 =
          meta_after_update "image_path" v sid sid'
            (get_session_meta sid' st) /\
        get_session_meta sid' st3 =
          meta_after_update "mode" v sid sid' (get_session_meta sid' st).
Proof.
  intros sid v st Hs.
  destruct (current_schema_columns st Hs)
    as [t [mt [Ht [Hmt [Hid [Htitle [Himg [Hmode _]]]]]]]].
  unfold update_session_mode, update_session_image, update_session_title.
  rewrite (update_sessions_ok "mode" (Some v) sid st t Ht Hmode Hid).
  rewrite (update_sessions_ok "image_path" (Some v) sid st t Ht Himg Hid).
  rewrite (update_sessions_ok "title" (Some v) sid st t Ht Htitle Hid).
  eexists; eexists; eexists.
  split; [reflexivity|]. split; [reflexivity|]. split; [reflexivity|].
  intros sid'. repeat split;
    apply meta_after_update_sessions; try assumption; reflexivity.
Qed.

(** ** Creating a session *)

Lemma count_zero_absent (sid : string) (st : store) (t : sessions_table) :
  sessions st = Some t ->
  session_count sid st = 0%nat ->
  existsb (fun r => sql_eq (r "id") sid) (rows t) = false.
Proof.
  intros Ht Hcount. unfold session_count, session_rows in Hcount.
  rewrite Ht in Hcount.
  destruct (existsb _ (rows t)) eqn:Hex; [|reflexivity].
  apply existsb_true_filter in Hex. lia.
Qed.

(** X5. On a file created by [init_db], [create_session] with an id that
    no Session record has yet inserts a record that the point lookup
    reads back with the title and the mode it was given, no image
    path, and the time of the call as [created_at]. *)
Theorem created_session_is_read_back :
  forall (now sid title mode : string) (st : store) (t : sessions_table),
    sessions st = Some t ->
    columns t = sessions_schema ->
    session_count sid st = 0%nat ->
    exists st1,
      create_session now sid title mode st = Ok st1 /\
      session_count sid st1 = 1%nat /\
      get_session_meta sid st1 =
      Ok (Some [("id", Some sid); ("title", Some title);
                ("image_path", None); ("mode", Some mode);
                ("created_at", Some now)]).
Proof.
  intros now sid title mode st t Ht Hcols Hcount.
  assert (Hcol : forall c, In c ["id"; "title"; "mode"] ->
                           has_column c t = true).
  { intros c Hc. unfold has_column. rewrite Hcols. simpl in Hc.
    destruct Hc as [<-|[<-|[<-|[]]]]; reflexivity. }
  rewrite (create_session_shape now sid title mode st t Ht);
    try (apply Hcol; simpl; tauto).
  pose proof (count_zero_absent sid st t Ht Hcount) as Hex.
  rewrite Hex. eexists. split; [reflexivity|].
  unfold session_count, session_rows, get_session_meta. simpl.
  change (has_column "id" _) with (has_column "id" t).
  rewrite (Hcol "id") by (simpl; tauto). simpl.
  rewrite filter_app, (existsb_false_filter _ _ Hex). simpl.
  unfold new_row at 1 3. simpl. rewrite String.eqb_refl. simpl.
  split; [reflexivity|].
  unfold row_dict. simpl. rewrite Hcols. reflexivity.
Qed.

(** ** The list of sessions: what creating a session does to it *)

Lemma filter_all_false {A : Type} (p : A -> bool) (l : list A) :
  (forall x, In x l -> p x = false) -> filter p l = [].
Proof.
  induction l as [|x l IH]; simpl; intros H; [reflexivity|].
  rewrite (H x (or_introl eq_refl)). apply IH.
  intros y Hy. apply H. right. exact Hy.
Qed.

Lemma left_join_app (ss1 ss2 : list row) (ms : list message) :
  left_join (ss1 ++ ss2) ms = (left_join ss1 ms ++ left_join ss2 ms)%list.
Proof. unfold left_join. apply flat_map_app. Qed.

(** X7. On a file created by [init_db], creating a session with the
    default title, for an id that no message refers to, does not change
    what [get_all_sessions] returns: a session that was only created is
    not listed. *)
Theorem created_session_is_not_listed :
  forall (now sid mode : string) (st : store) (t : sessions_table),
    sessions st = Some t ->
    columns t = sessions_schema ->
    has_messages st = true ->
    (forall m, In m (message_rows st) -> session_id m <> sid) ->
    exists st1,
      create_session now sid DEFAULT_TITLE mode st = Ok st1 /\
      get_all_sessions st1 = get_all_sessions st.
Proof.
  intros now sid mode st t Ht Hcols Hm Hfresh.
  assert (Hcol : forall c, In c ["id"; "title"; "mode"] ->
                           has_column c t = true).
  { intros c Hc. unfold has_column. rewrite Hcols. simpl in Hc.
    destruct Hc as [<-|[<-|[<-|[]]]]; reflexivity. }
  rewrite (create_session_shape now sid DEFAULT_TITLE mode st t Ht);
    try (apply Hcol; simpl; tauto).
  destruct (existsb (fun r => sql_eq (r "id") sid) (rows t));
    [exists st; split; reflexivity|].
  eexists. split; [reflexivity|].
  unfold has_messages in Hm. unfold message_rows in Hfresh.
  destruct (messages st) as [mt|] eqn:Hmt; [|discriminate].
  unfold get_all_sessions, select_all_sessions, row_dict. simpl.
  rewrite Ht, Hmt. simpl.
  unfold has_column. simpl. rewrite Hcols. simpl.
  rewrite left_join_app, filter_app, map_app.
  assert (Hlast :
    filter listed
      (left_join
         [new_row now sessions_schema
            [("id", Some sid); ("title", Some DEFAULT_TITLE);
             ("mode", Some mode)]] (msg_rows mt)) = []).
  { unfold left_join. cbn [flat_map].
    rewrite (filter_all_false
               (fun m => sql_eq
                           (new_row now sessions_schema
                              [("id", Some sid); ("title", Some DEFAULT_TITLE);
                               ("mode", Some mode)] "id") (session_id m))).
    - reflexivity.
    - intros m Hin. unfold new_row. simpl. apply String.eqb_neq.
      intros Heq. apply (Hfresh m Hin). symmetry. exact Heq. }
  rewrite Hlast. simpl. rewrite app_nil_r. reflexivity.
Qed.

(** ** The list of sessions: every used session, once *)

Lemma cell_eqb_eq (a b : cell) : cell_eqb a b = true <-> a = b.
Proof.
  destruct a as [x|], b as [y|]; simpl; split; intros H;
    try discriminate; try reflexivity.
  - apply String.eqb_eq in H. congruence.
  - injection H as ->. apply String.eqb_refl.
Qed.

Lemma row_eqb_dict (t : sessions_table) (a b : row) :
  row_eqb (columns t) a b = true <-> row_dict t a = row_dict t b.
Proof.
  unfold row_eqb, row_dict.
  induction (columns t) as [|k cols IH]; simpl.
  - split; reflexivity.
  - rewrite andb_true_iff, cell_eqb_eq, IH. split.
    + intros [H1 H2]. rewrite H1, H2. reflexivity.
    + intros H. injection H as H1 H2. split; assumption.
Qed.

Lemma distinct_complete (t : sessions_table) (x : row) (l : list row) :
  In x l ->
  exists y, In y (distinct (columns t) l) /\ row_dict t y = row_dict t x.
Proof.
  induction l as [|r l IH]; simpl; [tauto|].
  intros [->|Hx].
  - exists x. split; [left; reflexivity|reflexivity].
  - destruct (IH Hx) as [y [Hy Heq]].
    destruct (row_eqb (columns t) r y) eqn:Hry.
    + exists r. split; [left; reflexivity|].
      apply row_eqb_dict in Hry. congruence.
    + exists y. split; [|exact Heq]. right.
      apply filter_In. split; [exact Hy|]. rewrite Hry. reflexivity.
Qed.

Lemma filter_keeps_distinct_dicts (t : sessions_table) (keep : row -> bool)
    (rs : list row) (Hrs : NoDup (map (row_dict t) rs)) :
  NoDup (map (row_dict t) (filter keep rs)).
Proof.
  induction rs as [|r rs IH]; [constructor|].
  simpl in Hrs. apply NoDup_cons_iff in Hrs. destruct Hrs as [Hr Hrs].
  simpl. destruct (keep r); [|exact (IH Hrs)].
  simpl. apply NoDup_cons; [|exact (IH Hrs)].
  intros Hin. apply Hr. apply in_map_iff in Hin.
  destruct Hin as [r' [Hd Hin]]. apply filter_In in Hin.
  apply in_map_iff. exists r'. split; [exact Hd|exact (proj1 Hin)].
Qed.

Lemma distinct_nodup (t : sessions_table) (l : list row) :
  NoDup (map (row_dict t) (distinct (columns t) l)).
Proof.
  induction l as [|r l IH]; simpl; [constructor|].
  constructor.
  - rewrite in_map_iff. intros [y [Hy Hin]].
    apply filter_In in Hin. destruct Hin as [_ Hneg].
    symmetry in Hy. apply row_eqb_dict in Hy. rewrite Hy in Hneg.
    discriminate.
  - apply filter_keeps_distinct_dicts. exact IH.
Qed.

Lemma insert_by_created_desc_perm (r : row) (l : list row) :
  Permutation (insert_by_created_desc r l) (r :: l).
Proof.
  induction l as [|x l IH]; simpl; [reflexivity|].
  destruct (cell_leb (x "created_at") (r "created_at")); [reflexivity|].
  rewrite IH. apply perm_swap.
Qed.

Lemma sort_by_created_desc_perm (l : list row) :
  Permutation (sort_by_created_desc l) l.
Proof.
  unfold sort_by_created_desc. induction l as [|x l IH]; simpl; [reflexivity|].
  rewrite insert_by_created_desc_perm. constructor. exact IH.
Qed.

Lemma left_join_complete (ss : list row) (ms : list message) (s : row) :
  In s ss ->
  (exists m, In (s, m) (left_join ss ms)) /\
  forall m, In m ms -> sql_eq (s "id") (session_id m) = true ->
            In (s, Some m) (left_join ss ms).
Proof.
  intros Hs. unfold left_join. split.
  - destruct (filter (fun m => sql_eq (s "id") (session_id m)) ms)
      as [|y l] eqn:Hf.
    + exists None. apply in_flat_map. exists s. split; [exact Hs|].
      rewrite Hf. left. reflexivity.
    + exists (Some y). apply in_flat_map. exists s. split; [exact Hs|].
      rewrite Hf. left. reflexivity.
  - intros m Hm Heq. apply in_flat_map. exists s. split; [exact Hs|].
    assert (Hin : In m (filter (fun m => sql_eq (s "id") (session_id m)) ms))
      by (apply filter_In; tauto).
    destruct (filter (fun m => sql_eq (s "id") (session_id m)) ms)
      as [|y l]; [destruct Hin|].
    apply (in_map (fun m => (s, Some m))). exact Hin.
Qed.

(** X8. On a file with the schema of [init_db], [get_all_sessions]
    returns every Session record that has a message, or an image path,
    or a title that is a text other than "New Inspection", and it
    returns no record twice, however many messages a session has. *)
Theorem get_all_sessions_lists_used :
  forall st : store,
    current_schema st = true ->
    exists ds,
      get_all_sessions st = Ok ds /\
      NoDup ds /\
      forall d, In d (session_dicts st) ->
        ((exists m, In m (message_rows st) /\
                    field "id" d = Some (session_id m)) \/
         field "image_path" d <> None \/
         (exists title, field "title" d = Some title /\
                        title <> "New Inspection")) ->
        In d ds.
Proof.
  intros st Hs.
  destruct (current_schema_columns st Hs)
    as [t [mt [Ht [Hmt [Hid [Htitle [Himg [_ Hcreated]]]]]]]].
  unfold get_all_sessions, select_all_sessions, session_dicts, message_rows.
  rewrite Ht, Hmt. simpl. rewrite Hid, Himg, Htitle, Hcreated. simpl.
  eexists. split; [reflexivity|]. split.
  - apply (Permutation_NoDup
             (l := map (row_dict t)
                     (distinct (columns t)
                        (map fst (filter listed
                                    (left_join (rows t) (msg_rows mt))))))).
    + apply Permutation_map. symmetry. apply sort_by_created_desc_perm.
    + apply distinct_nodup.
  - intros d Hd Hused. rewrite in_map_iff in Hd.
    destruct Hd as [r [<- Hr]].
    rewrite (field_row_dict "id" t r Hid) in Hused.
    rewrite (field_row_dict "image_path" t r Himg) in Hused.
    rewrite (field_row_dict "title" t r Htitle) in Hused.
    destruct (left_join_complete (rows t) (msg_rows mt) r Hr)
      as [[m0 Hany] Hmatch].
    assert (Hjoined : exists m, In (r, m) (left_join (rows t) (msg_rows mt))
                                /\ listed (r, m) = true).
    { destruct Hused as [[m [Hm Heq]]|[Himage|[title [Heq Hne]]]].
      - exists (Some m). split; [|reflexivity].
        apply Hmatch; [exact Hm|]. rewrite Heq. simpl.
        apply String.eqb_refl.
      - exists m0. split; [exact Hany|]. unfold listed.
        destruct (r "image_path"); [|contradiction].
        rewrite orb_true_r. reflexivity.
      - exists m0. split; [exact Hany|]. unfold listed. rewrite Heq.
        destruct (String.eqb_spec title "New Inspection"); [contradiction|].
        simpl. rewrite orb_true_r. reflexivity. }
    destruct Hjoined as [m [Hin Hlisted]].
    assert (Hsel : In r (map fst (filter listed
                                    (left_join (rows t) (msg_rows mt))))).
    { apply in_map_iff. exists (r, m). split; [reflexivity|].
      apply filter_In. split; assumption. }
    destruct (distinct_complete t r _ Hsel) as [y [Hy Heq]].
    rewrite <- Heq. apply in_map.
    apply (Permutation_in y (Permutation_sym (sort_by_created_desc_perm _))).
    exact Hy.
Qed.

(** ** Titles *)

(** X10. The automatic title has at most 33 characters, starts with the
    same 30 characters as the message, and is a title the rule maps to
    itself; characters are code points, whatever number of bytes each
    takes. For the text of the code points [cs] the title is the text of
    [cs] itself when [cs] has at most 30 of them, and of the first 30
    followed by three full stops otherwise. *)
Theorem auto_title_is_bounded :
  (forall body : string,
     (len (auto_title body) <= 33)%nat /\
     slice_to 30 (auto_title body) = slice_to 30 body /\
     auto_title (auto_title body) = auto_title body) /\
  (forall cs : list N,
     auto_title (utf8 cs) =
     utf8 (if (30 <? List.length cs)%nat
           then (firstn 30 cs ++ [46; 46; 46]%N)%list
           else cs)).
Proof.
  split; [|exact auto_title_utf8].
  intros body. unfold auto_title.
  destruct (Nat.ltb_spec 30 (len body)) as [Hlong|Hshort].
  - assert (Hl : len (slice_to 30 body) = 30%nat)
      by (rewrite len_slice_to; lia).
    assert (Hp : slice_to 30 (slice_to 30 body ++ "...") = slice_to 30 body).
    { rewrite <- Hl at 1. apply slice_to_append. reflexivity. }
    split; [|split].
    + rewrite len_append, Hl. simpl. lia.
    + exact Hp.
    + rewrite len_append, Hl. simpl. rewrite Hp. reflexivity.
  - split; [lia|]. split; [reflexivity|].
    destruct (Nat.ltb_spec 30 (len body)); [lia|reflexivity].
Qed.

Section RenameFacts.

Context {codec : JsonCodec}.

Lemma title_after_message (now sid sid2 rl body : string)
    (usage : option usage_dict) (st : store) :
  has_messages st = true ->
  has_columns ["title"; "id"] st = true ->
  exists st1,
    add_message now sid2 rl body usage st = Ok st1 /\
    has_messages st1 = true /\
    has_columns ["title"; "id"] st1 = true /\
    session_title sid st1 =
      match session_title sid st with
      | Some c =>
          Some (if String.eqb rl "user"
                   && (String.eqb sid sid2 && sql_eq c "New Inspection")
                then Some (auto_title body) else c)
      | None => None
      end.
Proof.
  intros Hm Hc.
  destruct (has_columns_title_id st Hc) as [t [Ht [Htitle Hid]]].
  unfold has_messages in Hm.
  destruct (messages st) as [mt|] eqn:Hmt; [|discriminate].
  rewrite (add_message_shape now sid2 rl body usage st t mt Ht Hmt Htitle Hid).
  eexists. split; [reflexivity|]. split; [reflexivity|]. split.
  - unfold has_columns. simpl.
    change (has_column "title" _) with (has_column "title" t).
    change (has_column "id" _) with (has_column "id" t).
    rewrite Htitle, Hid. reflexivity.
  - unfold session_title, session_rows. simpl. rewrite Ht.
    rewrite filter_map_keep.
    + destruct (filter (fun r => sql_eq (r "id") sid) (rows t))
        as [|r l] eqn:Hf; simpl; [reflexivity|].
      assert (Hr : sql_eq (r "id") sid = true).
      { assert (Hin : In r (filter (fun r => sql_eq (r "id") sid) (rows t)))
          by (rewrite Hf; left; reflexivity).
        apply filter_In in Hin. tauto. }
      apply sql_eq_true in Hr. rewrite Hr. simpl.
      destruct (String.eqb rl "user"
                && (String.eqb sid sid2 && sql_eq (r "title") "New Inspection"));
        reflexivity.
    + intros r.
      destruct (String.eqb rl "user"
                && (sql_eq (r "id") sid2
                    && sql_eq (r "title") "New Inspection")); reflexivity.
Qed.

Lemma custom_title_survives (cs : list append_call) (sid title : string) :
  title <> "New Inspection" ->
  forall st,
    has_messages st = true ->
    has_columns ["title"; "id"] st = true ->
    session_title sid st = Some (Some title) ->
    exists st2,
      run_appends cs st = Ok st2 /\
      session_title sid st2 = Some (Some title).
Proof.
  intros Hne. induction cs as [|c cs IH]; intros st Hm Hc Htitle.
  - exists st. split; [reflexivity|exact Htitle].
  - destruct (title_after_message (call_now c) sid (call_session c)
                (call_role c) (call_content c) (call_usage c) st Hm Hc)
      as [st1 [Hadd [Hm1 [Hc1 Ht1]]]].
    rewrite Htitle in Ht1. simpl in Ht1.
    destruct (String.eqb_spec title "New Inspection"); [contradiction|].
    rewrite !andb_false_r in Ht1.
    destruct (IH st1 Hm1 Hc1 Ht1) as [st2 [Hrun Ht2]].
    exists st2. simpl. unfold run_append. rewrite Hadd. simpl.
    split; assumption.
Qed.

(** X9. Once an existing session has been renamed to a title other than
    "New Inspection", no sequence of appended messages, of any role and
    to any session, changes that title again. *)
Theorem renamed_session_keeps_its_title :
  forall (sid new_title : string) (cs : list append_call) (st : store),
    current_schema st = true ->
    (1 <= session_count sid st)%nat ->
    new_title <> "New Inspection" ->
    exists st1 st2,
      update_session_title sid new_title st = Ok st1 /\
      run_appends cs st1 = Ok st2 /\
      session_title sid st2 = Some (Some new_title).
Proof.
  intros sid new_title cs st Hs Hcount Hne.
  destruct (current_schema_columns st Hs)
    as [t [mt [Ht [Hmt [Hid [Htitle _]]]]]].
  unfold update_session_title.
  rewrite (update_sessions_ok "title" (Some new_title) sid st t Ht Htitle Hid).
  eexists. 
  match goal with
  | |- exists st2, Ok ?s = Ok _ /\ _ =>
      destruct (custom_title_survives cs sid new_title Hne s)
        as [st2 [Hrun Ht2]]
  end.
  - unfold has_messages. simpl. rewrite Hmt. reflexivity.
  - unfold has_columns. simpl.
    change (has_column "title" _) with (has_column "title" t).
    change (has_column "id" _) with (has_column "id" t).
    rewrite Htitle, Hid. reflexivity.
  - unfold session_title, session_rows. simpl.
    unfold session_count, session_rows in Hcount. rewrite Ht in Hcount.
    rewrite filter_map_keep.
    + destruct (filter (fun r => sql_eq (r "id") sid) (rows t))
        as [|r l] eqn:Hf; simpl in *; [lia|].
      assert (Hr : sql_eq (r "id") sid = true).
      { assert (Hin : In r (filter (fun r => sql_eq (r "id") sid) (rows t)))
          by (rewrite Hf; left; reflexivity).
        apply filter_In in Hin. tauto. }
      rewrite Hr. reflexivity.
    + intros r. destruct (sql_eq (r "id") sid) eqn:E;
        [unfold row_set; simpl; exact E|exact E].
  - exists st2. split; [reflexivity|]. split; assumption.
Qed.

End RenameFacts.

(** * Further properties of the gateway client *)

Lemma chat_attempt_parsed (x : exchange) (req : chat_request)
    (resp : response) (data : response_data) :
  post x req = Ok resp ->
  status_code resp = 200 ->
  json resp = Ok data ->
  chat_attempt x req =
  (content <- extract_content data ;;
   let latency := round2 (SFsub prec emax (end_time x) (start_time x)) in
   let raw_usage :=
     match data_usage data with
     | Some u => u
     | None =>
         [("prompt_tokens", 0); ("completion_tokens", 0);
          ("total_tokens", 0)]
     end in
   tps <- tokens_per_second (dict_get raw_usage "total_tokens" 0) latency ;;
   throughput <- Schemas.float_field tps ;;
   Ok {| Schemas.content := content;
         Schemas.usage :=
           {| Schemas.prompt_tokens := dict_get raw_usage "prompt_tokens" 0;
              Schemas.completion_tokens :=
                dict_get raw_usage "completion_tokens" 0;
              Schemas.total_tokens := dict_get raw_usage "total_tokens" 0;
              Schemas.latency := latency;
              Schemas.throughput := throughput |} |}).
Proof.
  intros Hp Hs Hj. unfold chat_attempt. rewrite Hp. simpl.
  rewrite Hs, Hj. reflexivity.
Qed.

(** X11. When the reply has a "choices" key, the answer comes from its
    first entry only and a top-level "content" is never used: if the
    list is empty, or its first entry has no "message", or that message
    has no "content", the call fails with the "Connection failed" error
    carrying the text of the lookup error, whatever else the reply
    holds; and an answer that is returned is the content of the first
    choice. *)
Theorem choices_take_precedence :
  forall (x : exchange) (req : chat_request) (resp : response)
         (data : response_data) (choices : list (option (option string))),
    post x req = Ok resp ->
    status_code resp = 200 ->
    json resp = Ok data ->
    data_choices data = Some choices ->
    (forall e, first_choice_content choices = Raise e ->
       chat_with_industrial_ai x req =
       Raise (Exception RuntimeError ("Connection failed: " ++ exc_str e))) /\
    (choices = [] ->
       chat_with_industrial_ai x req =
       Raise (Exception RuntimeError
                "Connection failed: list index out of range")) /\
    (forall r, chat_with_industrial_ai x req = Ok r ->
       first_choice_content choices = Ok (Schemas.content r)).
Proof.
  intros x req resp data choices Hp Hs Hj Hc.
  assert (Hfail : forall e, first_choice_content choices = Raise e ->
            chat_with_industrial_ai x req =
            Raise (Exception RuntimeError
                     ("Connection failed: " ++ exc_str e))).
  { intros e He. unfold chat_with_industrial_ai.
    rewrite (chat_attempt_parsed x req resp data Hp Hs Hj).
    unfold extract_content. rewrite Hc, He. reflexivity. }
  split; [exact Hfail|]. split.
  - intros ->. apply (Hfail (Exception IndexError "list index out of range")).
    reflexivity.
  - intros r. unfold chat_with_industrial_ai.
    rewrite (chat_attempt_parsed x req resp data Hp Hs Hj).
    unfold extract_content. rewrite Hc.
    destruct (first_choice_content choices) as [c|e]; simpl; [|discriminate].
    destruct (tokens_per_second _ _) as [tps|]; simpl; [|discriminate].
    destruct (Schemas.float_field tps); simpl; [|discriminate].
    intros H. injection H as <-. reflexivity.
Qed.

Lemma zero_tokens_per_second {A : Type} (l : float)
    (k : float -> result A) :
  (tps <- tokens_per_second 0 l ;;
   throughput <- Schemas.float_field tps ;; k throughput) = k float_zero.
Proof.
  unfold tokens_per_second.
  destruct (float_gt_zero l) eqn:Hl; [|reflexivity].
  unfold truediv. rewrite (float_gt_zero_not_zero l Hl).
  destruct l as [s|s| |s m e]; try discriminate;
    destruct s; try discriminate; reflexivity.
Qed.

(** X12. A reply with status 200 and a content but no "usage" never
    makes the call fail: the three token counts are 0 and the
    throughput is 0.0 whatever the latency is. *)
Theorem reply_without_usage :
  forall (x : exchange) (req : chat_request) (resp : response)
         (data : response_data) (c : string),
    post x req = Ok resp ->
    status_code resp = 200 ->
    json resp = Ok data ->
    extract_content data = Ok c ->
    data_usage data = None ->
    chat_with_industrial_ai x req =
    Ok {| Schemas.content := c;
          Schemas.usage :=
            {| Schemas.prompt_tokens := 0;
               Schemas.completion_tokens := 0;
               Schemas.total_tokens := 0;
               Schemas.latency :=
                 round2 (SFsub prec emax (end_time x) (start_time x));
               Schemas.throughput := float_zero |} |}.
Proof.
  intros x req resp data c Hp Hs Hj Hc Hu.
  unfold chat_with_industrial_ai.
  rewrite (chat_attempt_parsed x req resp data Hp Hs Hj).
  rewrite Hc, Hu. cbn [bind dict_get find fst snd String.eqb Ascii.eqb
                        Bool.eqb].
  rewrite zero_tokens_per_second. reflexivity.
Qed.

(** * Further properties of the submit handler *)

Section SubmitFacts.

Context {codec : JsonCodec}.

(** X13. If the list of messages on the page is the history of the
    session in the store, it still is after the handler has run,
    whatever was entered, whether an image is active or not, and
    whatever the file system and the gateway answer; the handler raises
    nothing, and the store is again one on which it can run. When the
    gateway answers, the list has grown by the user message and the
    assistant message with the usage of the answer, in that order. The
    store has the tables of [init_db] and the codec reads back the
    usage of an answer. *)
Theorem submit_keeps_page_in_sync :
  forall (GUARDRAIL_PROMPT : string) (env : environment)
         (sid base_instruction user_requirements : string)
         (active_image : option image_source) (prompt : option string)
         (p : page),
    has_messages (db p) = true ->
    has_columns ["title"; "id"] (db p) = true ->
    ids_increasing (db p) ->
    get_session_history sid (db p) = Ok (state_messages p) ->
    (forall req r,
       chat_with_industrial_ai (gateway env) req = Ok r ->
       readable (Some (Schemas.model_dump (Schemas.usage r)))) ->
    exists p',
      submit GUARDRAIL_PROMPT env sid active_image base_instruction
        user_requirements prompt p = Ok p' /\
      get_session_history sid (db p') = Ok (state_messages p') /\
      has_messages (db p') = true /\
      has_columns ["title"; "id"] (db p') = true /\
      ids_increasing (db p') /\
      forall img data question r,
        active_image = Some img ->
        prompt = Some question ->
        question <> "" ->
        image_bytes env img = Ok data ->
        chat_with_industrial_ai (gateway env)
          {| current_question := question;
             image_file := Some data;
             chat_history := state_messages p;
             system_prompt :=
               final_system_prompt GUARDRAIL_PROMPT base_instruction
                 user_requirements |} = Ok r ->
        state_messages p' =
        (state_messages p ++
           [{| msg_role := "user"; msg_content := question;
               msg_usage := None |};
            {| msg_role := "assistant";
               msg_content := Schemas.content r;
               msg_usage :=
                 Some (Schemas.model_dump (Schemas.usage r)) |}])%list.
Proof.
  intros G env sid base ur active_image prompt p Hm Hc Hinc Hsync Hcodec.
  unfold submit.
  destruct prompt as [question|].
  2:{ exists p. repeat split; try assumption. intros; discriminate. }
  destruct (String.eqb_spec question "") as [->|Hq].
  { exists p. repeat split; try assumption.
    intros img data q r _ Hp Hne _ _. exfalso. apply Hne.
    injection Hp as Hq. symmetry. exact Hq. }
  destruct active_image as [img|].
  2:{ eexists. split; [reflexivity|]. simpl.
      repeat split; try assumption. intros; discriminate. }
  destruct (history_after_add (clock_user env) sid "user" question None
              (db p) Hm Hc Hinc I)
    as [db1 [Hadd [Hm1 [Hc1 [Hinc1 [_ Hhist1]]]]]].
  assert (Hc1' : has_columns ["title"; "id"] db1 = true)
    by (rewrite Hc1; exact Hc).
  specialize (Hhist1 sid _ Hsync).
  unfold for_session, call_message in Hhist1. simpl in Hhist1.
  rewrite String.eqb_refl in Hhist1. simpl in Hhist1.
  rewrite Hadd. simpl. unfold assistant_turn. simpl.
  destruct (image_bytes env img) as [data|e] eqn:Himg.
  2:{ eexists. split; [reflexivity|]. simpl.
      repeat split; try assumption.
      intros img' data' q r Hi _ _ Hd _. injection Hi as <-.
      rewrite Himg in Hd. discriminate. }
  rewrite removelast_last.
  destruct (chat_with_industrial_ai (gateway env) _) as [r|e] eqn:Hgw.
  2:{ eexists. split; [reflexivity|]. simpl.
      repeat split; try assumption.
      intros img' data' q r Hi Hp _ Hd Hr.
      injection Hi as <-. injection Hp as <-.
      rewrite Himg in Hd. injection Hd as <-.
      rewrite Hgw in Hr. discriminate. }
  destruct (history_after_add (clock_assistant env) sid "assistant"
              (Schemas.content r)
              (Some (Schemas.model_dump (Schemas.usage r))) db1 Hm1 Hc1'
              Hinc1 (Hcodec _ r Hgw))
    as [db2 [Hadd2 [Hm2 [Hc2 [Hinc2 [_ Hhist2]]]]]].
  specialize (Hhist2 sid _ Hhist1).
  unfold for_session, call_message in Hhist2. simpl in Hhist2.
  rewrite String.eqb_refl in Hhist2. simpl in Hhist2.
  rewrite Hadd2. eexists. split; [reflexivity|]. simpl.
  split; [exact Hhist2|]. split; [exact Hm2|].
  split; [rewrite Hc2; exact Hc1'|]. split; [exact Hinc2|].
  intros img' data' q r' Hi Hp _ Hd Hr.
  injection Hi as <-. injection Hp as <-.
  rewrite Himg in Hd. injection Hd as <-.
  rewrite Hgw in Hr. injection Hr as <-.
  rewrite <- app_assoc. reflexivity.
Qed.

End SubmitFacts.

(** * Further properties of the page *)

(** ** The image of the page *)

Lemma asset_path_not_empty (name : string) :
  os_path_join ASSETS_DIR name <> "".
Proof.
  change ASSETS_DIR with "frontend/assets". unfold os_path_join.
  destruct (String.prefix "/" name) eqn:Hp.
  - destruct name; [discriminate Hp|discriminate].
  - simpl. discriminate.
Qed.

Lemma get_session_meta_existing (sid : string) (st : store)
    (t : sessions_table) :
  sessions st = Some t ->
  has_column "id" t = true ->
  (1 <= session_count sid st)%nat ->
  exists r, In r (rows t) /\ r "id" = Some sid /\
            get_session_meta sid st = Ok (Some (row_dict t r)).
Proof.
  intros Ht Hid Hcount. unfold get_session_meta.
  unfold session_count, session_rows in Hcount. rewrite Ht in *.
  rewrite Hid. simpl.
  destruct (filter (fun r => sql_eq (r "id") sid) (rows t)) as [|r l] eqn:Hf;
    simpl in Hcount; [lia|].
  assert (Hin : In r (filter (fun r => sql_eq (r "id") sid) (rows t)))
    by (rewrite Hf; left; reflexivity).
  apply filter_In in Hin. destruct Hin as [Hin Hr].
  exists r. split; [exact Hin|]. split; [|reflexivity].
  apply sql_eq_true. exact Hr.
Qed.

Lemma field_dict_set (col : string) (v : cell) (t : sessions_table)
    (r : row) :
  has_column col t = true ->
  field col (dict_set col v (row_dict t r)) = v.
Proof.
  intros Hcol. rewrite <- row_dict_set, (field_row_dict col t _ Hcol).
  unfold row_set. rewrite String.eqb_refl. reflexivity.
Qed.

(** X14. On a file with the schema of [init_db] and for a session that
    has a record, a file uploaded in one run is saved under the asset
    directory, becomes the active image of that run and is recorded as
    the image path of the session; in the next run, without any upload,
    the page finds the saved file and makes it the active image. *)
Theorem uploaded_image_is_found_again :
  forall (sid data : string) (meta : option (list (string * cell)))
         (denied : bool) (st : store) (fs : file_system),
    current_schema st = true ->
    (1 <= session_count sid st)%nat ->
    exists st1 fs1 d1,
      select_image false sid meta (Some data) st fs =
        Ok (st1, fs1, Some (Uploaded data),
            [SuccessNotice "✔ IMAGE SAVED"; ImageShown (Uploaded data)]) /\
      os_path_exists (os_path_join ASSETS_DIR (sid ++ ".png")) fs1 = true /\
      get_session_meta sid st1 = Ok (Some d1) /\
      field "image_path" d1 =
        Some (os_path_join ASSETS_DIR (sid ++ ".png")) /\
      select_image denied sid (Some d1) None st1 fs1 =
        Ok (st1, fs1,
            Some (Archived (os_path_join ASSETS_DIR (sid ++ ".png"))),
            [InfoNotice "📂 LOADED FROM ARCHIVE";
             ImageShown
               (Archived (os_path_join ASSETS_DIR (sid ++ ".png")))]).
Proof.
  intros sid data meta denied st fs Hs Hcount.
  destruct (current_schema_columns st Hs)
    as [t [mt [Ht [Hmt [Hid [_ [Himg _]]]]]]].
  destruct (get_session_meta_existing sid st t Ht Hid Hcount)
    as [r [_ [_ Hmeta]]].
  set (path := os_path_join ASSETS_DIR (sid ++ ".png")).
  assert (Hexists :
    os_path_exists path (if os_path_exists path fs then fs else path :: fs)
    = true).
  { destruct (os_path_exists path fs) eqn:He; [exact He|].
    unfold os_path_exists. simpl. rewrite String.eqb_refl. reflexivity. }
  assert (Hmeta1 :
    get_session_meta sid
      {| sessions :=
           Some {| columns := columns t;
                   rows := map (fun r => if sql_eq (r "id") sid
                                         then row_set "image_path"
                                                (Some path) r
                                         else r) (rows t) |};
         messages := messages st |} =
    Ok (Some (dict_set "image_path" (Some path) (row_dict t r)))).
  { rewrite (meta_after_update_sessions "image_path" path sid sid st t Ht Hid
               eq_refl).
    rewrite Hmeta. unfold meta_after_update. rewrite String.eqb_refl.
    reflexivity. }
  eexists; eexists; eexists. split; [|split; [|split; [|split]]].
  - unfold select_image, write_file. cbn [bind]. fold path.
    unfold update_session_image.
    rewrite (update_sessions_ok "image_path" (Some path) sid st t Ht Himg Hid).
    reflexivity.
  - exact Hexists.
  - exact Hmeta1.
  - apply field_dict_set. exact Himg.
  - unfold select_image.
    rewrite (field_dict_set "image_path" (Some path) t r Himg).
    unfold truthy_text.
    destruct (String.eqb_spec path "") as [He|_];
      [exfalso; exact (asset_path_not_empty _ He)|].
    simpl negb. cbv iota. rewrite Hexists. reflexivity.
Qed.

(** ** The protocol selector *)

Lemma list_index_in (x : string) (l : list string) :
  In x l ->
  exists i, list_index x l = Some i /\ nth_error l i = Some x.
Proof.
  induction l as [|y l IH]; simpl; [tauto|].
  intros H. destruct (String.eqb_spec y x) as [->|Hne].
  - exists 0%nat. split; reflexivity.
  - destruct H as [H|H]; [contradiction|].
    destruct (IH H) as [i [Hi Hn]]. exists (S i). rewrite Hi.
    split; [reflexivity|exact Hn].
Qed.

Lemma mode_of_record_in_options (d : list (string * cell)) :
  In (mode_of_record d) mode_options.
Proof.
  unfold mode_of_record.
  destruct (field "mode" d) as [m|]; [|left; reflexivity].
  destruct (existsb (String.eqb m) mode_options) eqn:Hex;
    [|left; reflexivity].
  apply existsb_exists in Hex. destruct Hex as [x [Hx Heq]].
  apply String.eqb_eq in Heq. subst x. exact Hx.
Qed.

Lemma mode_of_record_saved (d : list (string * cell)) (m : string) :
  field "mode" d = Some m -> In m mode_options -> mode_of_record d = m.
Proof.
  intros Hm Hopt. unfold mode_of_record. rewrite Hm.
  assert (Hex : existsb (String.eqb m) mode_options = true).
  { apply existsb_exists. exists m. split; [exact Hopt|].
    apply String.eqb_refl. }
  rewrite Hex. reflexivity.
Qed.

Lemma row_dict_has_key (c : string) (t : sessions_table) (r : row) :
  has_column c t = true ->
  dict_has_key (row_dict t r) c = true /\ row_dict t r <> [].
Proof.
  unfold has_column, dict_has_key, row_dict. intros H.
  apply existsb_exists in H. destruct H as [k [Hk Hc]]. split.
  - apply existsb_exists. exists (col_name k, r (col_name k)).
    split; [|exact Hc].
    apply (in_map (fun k => (col_name k, r (col_name k)))). exact Hk.
  - destruct (columns t); [contradiction|discriminate].
Qed.

Lemma dict_set_has_key (col key : string) (v : cell)
    (d : list (string * cell)) :
  dict_has_key (dict_set col v d) key = dict_has_key d key.
Proof.
  unfold dict_has_key, dict_set.
  induction d as [|kv d IH]; simpl; [reflexivity|].
  rewrite IH. reflexivity.
Qed.

Lemma current_mode_titled (d : list (string * cell)) :
  dict_has_key d "title" = true ->
  current_mode (Some d) = Ok (mode_of_record d).
Proof.
  intros H. destruct d as [|kv d]; [discriminate|].
  unfold current_mode. rewrite H. reflexivity.
Qed.

(** X15. When the record of the active session has no title, the side
    bar raises [KeyError] before it chooses a mode. In every other case,
    a missing record, a NULL mode or a text that names no persona
    included, the mode the side bar works with is one of the three
    personas; looking it up in the list of options never fails, so the
    handler of [ValueError] never runs, and the drop-down starts on
    that mode. A stored mode that names a persona is that mode. *)
Theorem current_mode_is_a_persona :
  forall meta : option (list (string * cell)),
    (title_missing meta = true ->
     current_mode meta = Raise (Exception KeyError "'title'") /\
     default_index meta = Raise (Exception KeyError "'title'")) /\
    (title_missing meta = false ->
     exists (mode : string) (i : nat),
       current_mode meta = Ok mode /\
       In mode mode_options /\
       list_index mode mode_options = Some i /\
       default_index meta = Ok i /\
       nth_error mode_options i = Some mode /\
       (forall d m, meta = Some d -> field "mode" d = Some m ->
                    In m mode_options -> mode = m)).
Proof.
  intros meta. split.
  - destruct meta as [[|kv d]|]; unfold title_missing; try discriminate.
    unfold default_index, current_mode.
    destruct (dict_has_key (kv :: d) "title"); [discriminate|].
    intros _. split; reflexivity.
  - intros Ht.
    assert (Hmode : exists mode,
               current_mode meta = Ok mode /\ In mode mode_options /\
               forall d m, meta = Some d -> field "mode" d = Some m ->
                           In m mode_options -> mode = m).
    { destruct meta as [[|kv d]|].
      - exists "General Analysis". split; [reflexivity|].
        split; [left; reflexivity|]. intros d m Hd Hm.
        injection Hd as <-. discriminate Hm.
      - unfold title_missing in Ht. apply negb_false_iff in Ht.
        exists (mode_of_record (kv :: d)).
        split; [apply current_mode_titled; exact Ht|].
        split; [apply mode_of_record_in_options|].
        intros d' m Hd Hm Hopt. injection Hd as <-.
        apply mode_of_record_saved; assumption.
      - exists "General Analysis". split; [reflexivity|].
        split; [left; reflexivity|]. intros d m Hd. discriminate Hd. }
    destruct Hmode as [mode [Hcur [Hin Hsaved]]].
    destruct (list_index_in _ _ Hin) as [i [Hi Hn]].
    exists mode, i. split; [exact Hcur|]. split; [exact Hin|].
    split; [exact Hi|]. split; [|split; [exact Hn|exact Hsaved]].
    unfold default_index. rewrite Hcur. unfold bind. rewrite Hi.
    reflexivity.
Qed.

(** X16. On a file with the schema of [init_db] and for a session that
    has a record, a persona selected in the drop-down is the mode the
    side bar works with on the next run, whether the selection differed
    from the current mode, in which case it was written to the store,
    or not. *)
Theorem selected_mode_is_kept :
  forall (sid selected : string) (st : store),
    current_schema st = true ->
    (1 <= session_count sid st)%nat ->
    In selected mode_options ->
    exists d st1 d1,
      get_session_meta sid st = Ok (Some d) /\
      select_mode sid selected (Some d) st = Ok st1 /\
      get_session_meta sid st1 = Ok (Some d1) /\
      current_mode (Some d1) = Ok selected.
Proof.
  intros sid selected st Hs Hcount Hsel.
  destruct (current_schema_columns st Hs)
    as [t [mt [Ht [Hmt [Hid [Htitle [_ [Hmode _]]]]]]]].
  destruct (get_session_meta_existing sid st t Ht Hid Hcount)
    as [r [_ [_ Hmeta]]].
  destruct (row_dict_has_key "title" t r Htitle) as [Hkey _].
  exists (row_dict t r). unfold select_mode.
  rewrite (current_mode_titled _ Hkey). unfold bind.
  destruct (String.eqb_spec selected (mode_of_record (row_dict t r)))
    as [Heq|Hne]; cbn [negb].
  - exists st, (row_dict t r). split; [exact Hmeta|].
    split; [reflexivity|]. split; [exact Hmeta|].
    rewrite (current_mode_titled _ Hkey), Heq. reflexivity.
  - unfold update_session_mode.
    rewrite (update_sessions_ok "mode" (Some selected) sid st t Ht Hmode Hid).
    eexists; eexists. split; [exact Hmeta|]. split; [reflexivity|].
    rewrite (meta_after_update_sessions "mode" selected sid sid st t Ht Hid
               eq_refl).
    rewrite Hmeta. unfold meta_after_update. rewrite String.eqb_refl.
    split; [reflexivity|].
    rewrite current_mode_titled by (rewrite dict_set_has_key; exact Hkey).
    f_equal. apply mode_of_record_saved; [|exact Hsel].
    apply (field_dict_set "mode" _ t r Hmode).
Qed.

(** * Properties of [clean_text] *)

(** X17. [clean_text] returns a text of the same length in which every
    character is a Latin-1 character: the characters of Latin-1 are
    kept, every other character becomes "?". Cleaning a Latin-1 text
    changes nothing, so cleaning twice is cleaning once. A missing text
    is cleaned to the empty text. *)
Theorem clean_text_is_latin1 :
  forall cs : list N,
    List.length (clean_text (Some cs)) = List.length cs /\
    Forall (fun c => (c <= 255)%N) (clean_text (Some cs)) /\
    (forall i c, nth_error cs i = Some c ->
       nth_error (clean_text (Some cs)) i =
       Some (if (c <=? 255)%N then c else 63%N)) /\
    (Forall (fun c => (c <= 255)%N) cs -> clean_text (Some cs) = cs) /\
    clean_text (Some (clean_text (Some cs))) = clean_text (Some cs) /\
    clean_text None = [].
Proof.
  intros cs.
  assert (Hmap : clean_text (Some cs) =
                 map (fun c => if (c <=? 255)%N then c else 63%N) cs)
    by (destruct cs; reflexivity).
  assert (Hlatin : Forall (fun c => (c <= 255)%N) (clean_text (Some cs))).
  { rewrite Hmap. apply Forall_forall. intros c Hc.
    apply in_map_iff in Hc. destruct Hc as [x [<- _]].
    destruct (N.leb_spec x 255); lia. }
  assert (Hid : forall l, Forall (fun c => (c <= 255)%N) l ->
                          clean_text (Some l) = l).
  { intros l Hl. destruct l as [|c l]; [reflexivity|].
    unfold clean_text. rewrite <- (map_id (c :: l)) at 2.
    apply map_ext_in. intros x Hx.
    rewrite Forall_forall in Hl. specialize (Hl x Hx).
    destruct (N.leb_spec x 255); [reflexivity|lia]. }
  split; [rewrite Hmap; apply length_map|].
  split; [exact Hlatin|]. split.
  - intros i c Hi. rewrite Hmap. rewrite nth_error_map, Hi. reflexivity.
  - split; [apply Hid|]. split; [apply Hid; exact Hlatin|reflexivity].
Qed.

(** * The further properties on the sample data *)

Lemma nodup_ids_primary_key (st : store) (t : sessions_table) :
  sessions st = Some t ->
  NoDup (map (fun r : row => r "id") (rows t)) ->
  primary_key st.
Proof.
  intros Ht Hnd sid. unfold session_count, session_rows. rewrite Ht.
  induction (rows t) as [|r l IH]; simpl; [lia|].
  inversion Hnd as [|? ? Hnotin Hrest]; subst.
  destruct (sql_eq (r "id") sid) eqn:Hr; [|apply IH; exact Hrest].
  apply sql_eq_true in Hr. rewrite filter_all_false; [simpl; lia|].
  intros x Hx. destruct (sql_eq (x "id") sid) eqn:Hxs; [|reflexivity].
  apply sql_eq_true in Hxs. exfalso. apply Hnotin. rewrite Hr, <- Hxs.
  apply (in_map (fun r : row => r "id")). exact Hx.
Qed.

Lemma delete_session_removes_session_witness :
  exists st' fs' out,
    delete_session false "s1" conversation_store ["frontend/assets/s1.png"]
      = (Ok st', fs', out) /\
    get_session_meta "s1" st' = Ok None /\
    @get_session_history sample_json "s1" st' = Ok [] /\
    os_path_exists "frontend/assets/s1.png" fs' = false.
Proof.
  destruct (@delete_session_removes_session sample_json false "s1"
              conversation_store ["frontend/assets/s1.png"])
    as [st' [fs' [out [Hdel [Hmeta [Hhist [_ [Hfile _]]]]]]]].
  - reflexivity.
  - exists st', fs', out. repeat split; try assumption.
    apply Hfile; reflexivity.
Defined.

Lemma message_ids_are_not_reused_witness :
  exists st1 fs1 out st2 n,
    delete_session false "s1" conversation_store ["frontend/assets/s1.png"]
      = (Ok st1, fs1, out) /\
    @add_message sample_json "2024-01-02 09:00:01" "s2" "user" "Any hazard?"
      None st1 = Ok st2 /\
    message_rows st2 =
      (message_rows st1 ++
         [{| id := n; session_id := "s2"; role := "user";
             content := "Any hazard?";
             usage_data := @usage_json sample_json None;
             timestamp := "2024-01-02 09:00:01" |}])%list /\
    forall m, In m (message_rows conversation_store) -> id m < n.
Proof.
  apply (@message_ids_are_not_reused sample_json false "s1"
           "2024-01-02 09:00:01" "s2" "user" "Any hazard?" None
           conversation_store ["frontend/assets/s1.png"]).
  repeat split.
  - eapply nodup_ids_primary_key; [reflexivity|].
    vm_compute. repeat constructor; simpl; intuition discriminate.
  - unfold ids_increasing. vm_compute. repeat constructor.
  - intros m Hm. vm_compute in Hm.
    destruct Hm as [<-|[<-|[]]]; vm_compute; discriminate.
Defined.

Lemma update_of_unknown_session_is_noop_witness :
  update_session_mode "nobody" "Safety Audit" one_session_store
    = Ok one_session_store /\
  update_session_image "nobody" "Safety Audit" one_session_store
    = Ok one_session_store /\
  update_session_title "nobody" "Safety Audit" one_session_store
    = Ok one_session_store.
Proof.
  apply (update_of_unknown_session_is_noop "nobody" "Safety Audit"
           one_session_store); reflexivity.
Defined.

Lemma created_session_is_read_back_witness :
  exists st1,
    create_session "2024-01-01 10:00:00" "s1" "Pump" "Safety Audit"
      fresh_store = Ok st1 /\
    session_count "s1" st1 = 1%nat /\
    get_session_meta "s1" st1 =
    Ok (Some [("id", Some "s1"); ("title", Some "Pump");
              ("image_path", None); ("mode", Some "Safety Audit");
              ("created_at", Some "2024-01-01 10:00:00")]).
Proof.
  apply (created_session_is_read_back "2024-01-01 10:00:00" "s1" "Pump"
           "Safety Audit" fresh_store
           {| columns := sessions_schema; rows := [] |}); reflexivity.
Defined.

Lemma update_is_read_back_witness :
  exists st1,
    update_session_title "s1" "Gearbox" one_session_store = Ok st1 /\
    get_session_meta "s1" st1 =
      meta_after_update "title" "Gearbox" "s1" "s1"
        (get_session_meta "s1" one_session_store).
Proof.
  destruct (update_is_read_back "s1" "Gearbox" one_session_store eq_refl)
    as [st1 [st2 [st3 [Htitle [_ [_ Hmeta]]]]]].
  exists st1. split; [exact Htitle|]. apply Hmeta.
Defined.

Lemma created_session_is_not_listed_witness :
  exists st1,
    create_session "2024-01-05 10:00:00" "s9" DEFAULT_TITLE DEFAULT_MODE
      archive_store = Ok st1 /\
    get_all_sessions st1 = get_all_sessions archive_store.
Proof.
  destruct (sessions archive_store) as [t|] eqn:Ht; [|discriminate].
  apply (created_session_is_not_listed "2024-01-05 10:00:00" "s9"
           DEFAULT_MODE archive_store t Ht).
  - vm_compute in Ht. injection Ht as <-. reflexivity.
  - reflexivity.
  - intros m [<-|[]]. discriminate.
Defined.

Lemma get_all_sessions_lists_used_witness :
  exists ds,
    get_all_sessions archive_store = Ok ds /\
    NoDup ds /\
    forall d, In d (session_dicts archive_store) ->
      ((exists m, In m (message_rows archive_store) /\
                  field "id" d = Some (session_id m)) \/
       field "image_path" d <> None \/
       (exists title, field "title" d = Some title /\
                      title <> "New Inspection")) ->
      In d ds.
Proof.
  apply (get_all_sessions_lists_used archive_store). reflexivity.
Defined.

Lemma renamed_session_keeps_its_title_witness :
  exists st1 st2,
    update_session_title "s1" "Gearbox" one_session_store = Ok st1 /\
    @run_appends sample_json sample_calls st1 = Ok st2 /\
    session_title "s1" st2 = Some (Some "Gearbox").
Proof.
  apply (@renamed_session_keeps_its_title sample_json "s1" "Gearbox"
           sample_calls one_session_store).
  - reflexivity.
  - unfold session_count, session_rows. simpl. lia.
  - discriminate.
Defined.

Lemma choices_take_precedence_witness :
  chat_with_industrial_ai empty_choices_exchange sample_request =
  Raise (Exception RuntimeError "Connection failed: list index out of range").
Proof.
  destruct (choices_take_precedence empty_choices_exchange sample_request
              {| status_code := 200; text := "";
                 json := Ok {| data_choices := Some [];
                               data_content := Some "OK";
                               data_usage := Some [("total_tokens", 10)] |} |}
              {| data_choices := Some [];
                 data_content := Some "OK";
                 data_usage := Some [("total_tokens", 10)] |} []
              eq_refl eq_refl eq_refl eq_refl) as [_ [Hempty _]].
  apply Hempty. reflexivity.
Defined.

Lemma reply_without_usage_witness :
  chat_with_industrial_ai bare_exchange sample_request =
  Ok {| Schemas.content := "OK";
        Schemas.usage :=
          {| Schemas.prompt_tokens := 0;
             Schemas.completion_tokens := 0;
             Schemas.total_tokens := 0;
             Schemas.latency :=
               round2 (SFsub prec emax (end_time bare_exchange)
                         (start_time bare_exchange));
             Schemas.throughput := float_zero |} |}.
Proof.
  apply (reply_without_usage bare_exchange sample_request
           {| status_code := 200; text := "";
              json := Ok {| data_choices := None;
                            data_content := Some "OK";
                            data_usage := None |} |}
           {| data_choices := None; data_content := Some "OK";
              data_usage := None |} "OK"); reflexivity.
Defined.

Lemma submit_keeps_page_in_sync_witness :
  exists p',
    @submit sample_json "GUARDRAIL" (sample_environment good_exchange) "s1"
      (Some (Uploaded "img")) "Role: Senior Technical Engineer." ""
      (Some "Is the bearing worn?") sample_page = Ok p' /\
    @get_session_history sample_json "s1" (db p') = Ok (state_messages p') /\
    state_messages p' =
      [{| msg_role := "user"; msg_content := "Is the bearing worn?";
          msg_usage := None |};
       {| msg_role := "assistant"; msg_content := "OK";
          msg_usage := Some sample_usage |}].
Proof.
  destruct (@submit_keeps_page_in_sync sample_json "GUARDRAIL"
              (sample_environment good_exchange) "s1"
              "Role: Senior Technical Engineer." "" (Some (Uploaded "img"))
              (Some "Is the bearing worn?") sample_page)
    as [p' [Hsubmit [Hsync [_ [_ [_ Hboth]]]]]].
  - reflexivity.
  - reflexivity.
  - unfold ids_increasing. simpl. constructor.
  - reflexivity.
  - intros req r Hr. vm_compute in Hr. injection Hr as <-.
    split; [vm_compute; discriminate|reflexivity].
  - exists p'. split; [exact Hsubmit|]. split; [exact Hsync|].
    apply (Hboth (Uploaded "img") "img" "Is the bearing worn?"
             sample_response); try reflexivity.
    discriminate.
Defined.

Lemma uploaded_image_is_found_again_witness :
  exists st1 fs1 d1,
    select_image false "s1" None (Some "img") one_session_store [] =
      Ok (st1, fs1, Some (Uploaded "img"),
          [SuccessNotice "✔ IMAGE SAVED"; ImageShown (Uploaded "img")]) /\
    os_path_exists (os_path_join ASSETS_DIR ("s1" ++ ".png")) fs1 = true /\
    get_session_meta "s1" st1 = Ok (Some d1) /\
    field "image_path" d1 = Some (os_path_join ASSETS_DIR ("s1" ++ ".png")) /\
    select_image false "s1" (Some d1) None st1 fs1 =
      Ok (st1, fs1,
          Some (Archived (os_path_join ASSETS_DIR ("s1" ++ ".png"))),
          [InfoNotice "📂 LOADED FROM ARCHIVE";
           ImageShown
             (Archived (os_path_join ASSETS_DIR ("s1" ++ ".png")))]).
Proof.
  apply (uploaded_image_is_found_again "s1" "img" None false
           one_session_store []).
  - reflexivity.
  - unfold session_count, session_rows. simpl. lia.
Defined.

Lemma selected_mode_is_kept_witness :
  exists d st1 d1,
    get_session_meta "s1" one_session_store = Ok (Some d) /\
    select_mode "s1" "Safety Audit" (Some d) one_session_store = Ok st1 /\
    get_session_meta "s1" st1 = Ok (Some d1) /\
    current_mode (Some d1) = Ok "Safety Audit".
Proof.
  apply (selected_mode_is_kept "s1" "Safety Audit" one_session_store).
  - reflexivity.
  - unfold session_count, session_rows. simpl. lia.
  - right. right. left. reflexivity.
Defined.

(** A record without a title stops the side bar; a record with a title
    and the mode "Expert", which names no persona, gives the default. *)
Lemma current_mode_is_a_persona_witness :
  (current_mode (Some [("id", Some "s1"); ("mode", Some "Safety Audit")])
     = Raise (Exception KeyError "'title'") /\
   default_index (Some [("id", Some "s1"); ("mode", Some "Safety Audit")])
     = Raise (Exception KeyError "'title'")) /\
  exists (mode : string) (i : nat),
    current_mode
      (Some [("id", Some "s1"); ("title", Some "Pump");
             ("mode", Some "Expert")]) = Ok mode /\
    In mode mode_options /\
    list_index mode mode_options = Some i /\
    default_index
      (Some [("id", Some "s1"); ("title", Some "Pump");
             ("mode", Some "Expert")]) = Ok i /\
    nth_error mode_options i = Some mode /\
    (forall d m,
       Some [("id", Some "s1"); ("title", Some "Pump");
             ("mode", Some "Expert")] = Some d ->
       field "mode" d = Some m -> In m mode_options -> mode = m).
Proof.
  split.
  - apply (proj1 (current_mode_is_a_persona
                    (Some [("id", Some "s1");
                           ("mode", Some "Safety Audit")]))).
    reflexivity.
  - apply (proj2 (current_mode_is_a_persona
                    (Some [("id", Some "s1"); ("title", Some "Pump");
                           ("mode", Some "Expert")]))).
    reflexivity.
Defined.

Lemma clean_text_is_latin1_witness :
  clean_text (Some [104; 233; 108; 108; 111]%N) = [104; 233; 108; 108; 111]%N
  /\ clean_text (Some [79; 75; 32; 128522]%N) = [79; 75; 32; 63]%N.
Proof.
  split.
  - apply (proj1 (proj2 (proj2 (proj2
             (clean_text_is_latin1 [104; 233; 108; 108; 111]%N))))).
    repeat constructor; discriminate.
  - reflexivity.
Defined.

(** A text of 14 characters that take 42 bytes is its own title; of 31
    characters that take 62 bytes, the first 30 are kept. *)
Lemma auto_title_is_bounded_witness :
  auto_title "✔✔✔✔✔✔✔✔✔✔✔✔✔✔" = "✔✔✔✔✔✔✔✔✔✔✔✔✔✔" /\
  auto_title "ééééééééééééééééééééééééééééééé" =
    "éééééééééééééééééééééééééééééé..." /\
  (len (auto_title "ééééééééééééééééééééééééééééééé") <= 33)%nat.
Proof.
  split; [|split].
  - exact (proj2 auto_title_is_bounded (repeat 10004%N 14)).
  - exact (proj2 auto_title_is_bounded (repeat 233%N 31)).
  - exact (proj1 (proj1 auto_title_is_bounded
                    "ééééééééééééééééééééééééééééééé")).
Defined.
